(** * Bug Fixer Agent: a shallow embedding of the retry-governed
      generation pipeline and its report assembly.

    The development follows the Python sources module by module:
    [Py] holds the fragment of Python's string and value semantics the
    program relies on, [Eff] the effect monad (exceptions, log, API call
    counter, sleeps, files), [BugDefinitions], [Agent], [Runner] and
    [Inspector] embed bug_definitions.py, agent.py, run.py and the
    output format of inspector.py; [Prompts] is written from the
    description of prompts.py; [CodeAnalyzer], [FixApplier],
    [StaticAnalyzer] and [BugDetector] embed the modules of tools/, and
    [InspectorWalk] the loop of inspector.py.  The properties follow the
    definitions: facts about strings, the fix generator, the run
    controller, the prompt builder and the context loader, then the
    edges of the agent and of the runner, the report, and the tools. *)

From Stdlib Require Import String Ascii ZArith QArith Lia DecimalString.
From stdpp Require Import base option gmap strings list.

Set Warnings "-register-all".
Open Scope string_scope.
Open Scope list_scope.

(* ===================================================================== *)
(** ** Python strings and values *)
(* ===================================================================== *)

Module Py.

(** A text is a sequence of code points; the model keeps the code points
    below 256, which is where every marker the program looks for lives. *)
Definition LF : ascii := Ascii.ascii_of_nat 10.
Definition NL : string := String LF "".

(** [str.isspace] on one code point below 256: TAB..CR, FS..US, space,
    NEL and NBSP. *)
Definition isspace (c : ascii) : bool :=
  let n := Ascii.nat_of_ascii c in
  ((9 <=? n)%nat && (n <=? 13)%nat) || ((28 <=? n)%nat && (n <=? 32)%nat)
  || (n =? 133)%nat || (n =? 160)%nat.

Fixpoint lstrip (s : string) : string :=
  match s with
  | String c r => if isspace c then lstrip r else s
  | EmptyString => EmptyString
  end.

Fixpoint rstrip (s : string) : string :=
  match s with
  | String c r =>
      match rstrip r with
      | EmptyString => if isspace c then EmptyString else String c EmptyString
      | r' => String c r'
      end
  | EmptyString => EmptyString
  end.

(** [s.strip()] *)
Definition strip (s : string) : string := rstrip (lstrip s).

(** Truth value of a string: [bool(s)]. *)
Definition nonempty (s : string) : bool :=
  match s with EmptyString => false | _ => true end.

(** [sub in s] *)
Fixpoint contains (sub s : string) : bool :=
  String.prefix sub s ||
  match s with
  | String _ r => contains sub r
  | EmptyString => false
  end.

(** [s.count(sub)]: occurrences that do not overlap, leftmost first.
    [skip] is the number of characters still covered by the last match. *)
Fixpoint count_from (sub : string) (skip : nat) (s : string) : nat :=
  match s with
  | EmptyString => 0
  | String _ r =>
      match skip with
      | S k => count_from sub k r
      | O => if String.prefix sub s
             then S (count_from sub (String.length sub - 1) r)
             else count_from sub 0 r
      end
  end.

Definition count (sub s : string) : nat :=
  match sub with
  | EmptyString => S (String.length s)
  | _ => count_from sub 0 s
  end.

(** [re.search('^' + lit + '.*', s, re.MULTILINE) is not None] for a
    literal [lit]: with MULTILINE, [^] matches at the start of the text
    and just after every line feed; [.*] matches the (possibly empty)
    rest of the line.  [bol] tells whether the current position is such
    a position. *)
Fixpoint search_bol (lit : string) (bol : bool) (s : string) : bool :=
  (bol && String.prefix lit s) ||
  match s with
  | String c r => search_bol lit (Ascii.eqb c LF) r
  | EmptyString => false
  end.

Definition re_search_line_start (lit s : string) : bool := search_bol lit true s.

(** [s.split('\n')] *)
Fixpoint split_lines (s : string) : list string :=
  match s with
  | EmptyString => [EmptyString]
  | String c r =>
      if Ascii.eqb c LF then EmptyString :: split_lines r
      else match split_lines r with
           | l :: ls => String c l :: ls
           | [] => [String c EmptyString]
           end
  end.

(** [re.findall] of the pattern made of [^], the literal [lit] and one
    group capturing the rest of the line, with MULTILINE: the rest of
    every line that starts with [lit]. *)
Definition re_findall_line_rest (lit s : string) : list string :=
  omap (fun l => if String.prefix lit l
                 then Some (String.substring (String.length lit)
                              (String.length l - String.length lit) l)
                 else None)
       (split_lines s).

(** [sep.join(l)] *)
Fixpoint join (sep : string) (l : list string) : string :=
  match l with
  | [] => EmptyString
  | [x] => x
  | x :: r => x +:+ sep +:+ join sep r
  end.

(** [s.upper()] on the ASCII letters, which is where the texts it is
    applied to (the four statuses) live. *)
Definition upper_char (c : ascii) : ascii :=
  let n := Ascii.nat_of_ascii c in
  if ((97 <=? n)%nat && (n <=? 122)%nat) then Ascii.ascii_of_nat (n - 32) else c.

Fixpoint upper (s : string) : string :=
  match s with
  | String c r => String (upper_char c) (upper r)
  | EmptyString => EmptyString
  end.

(** [c * n] for a one-character string [c]. *)
Fixpoint repeat_char (c : ascii) (n : nat) : string :=
  match n with
  | O => EmptyString
  | S k => String c (repeat_char c k)
  end.

(** [str(n)] for a natural number *)
Definition str_nat (n : nat) : string := NilEmpty.string_of_uint (Nat.to_uint n).

(** The values the program stores in its dictionaries. *)
Inductive pyval :=
| PNone
| PBool (b : bool)
| PInt (n : Z)
| PStr (s : string)
| PList (l : list pyval)
| PDict (d : gmap string pyval).

Abbreviation dict := (gmap string pyval).

(** [bool(v)] *)
Definition truthy (v : pyval) : bool :=
  match v with
  | PNone => false
  | PBool b => b
  | PInt n => negb (n =? 0)%Z
  | PStr s => nonempty s
  | PList l => match l with [] => false | _ => true end
  | PDict d => negb (bool_decide (d = ∅))
  end.

(** [v == s] for a string literal [s] *)
Definition eq_str (v : pyval) (s : string) : bool :=
  match v with
  | PStr t => String.eqb t s
  | _ => false
  end.

(** [d.get(k, default)] *)
Definition get (d : dict) (k : string) (default : pyval) : pyval :=
  match d !! k with
  | Some v => v
  | None => default
  end.

End Py.

(* ===================================================================== *)
(** ** Effects: exceptions, the log, the external API, sleeps, files *)
(* ===================================================================== *)

Module Eff.
Import Py.

(** The exceptions the program can meet. *)
Inductive exn :=
| KeyError (key : string)
| ZeroDivisionError
| AttributeError (msg : string)
| ValueError (msg : string)
| CalledProcessError (msg : string)
| FileNotFoundError (msg : string)
| TypeError (msg : string)
| Exception (msg : string).

(** [str(e)] *)
Definition str_exn (e : exn) : string :=
  match e with
  | KeyError k => "'" +:+ k +:+ "'"
  | ZeroDivisionError => "division by zero"
  | AttributeError m | ValueError m | CalledProcessError m
  | FileNotFoundError m | TypeError m | Exception m => m
  end.

Inductive result (A : Type) :=
| Ret (a : A)
| Raise (e : exn).
Arguments Ret {A} a.
Arguments Raise {A} e.

Inductive level := INFO | WARNING | ERROR.

(** What a run can observe and change outside its own variables. *)
Record world := World {
  api_calls : nat;                 (* calls of generate_content so far *)
  slept : list nat;                (* time.sleep durations, oldest first *)
  log : list (level * string);     (* Logger records, oldest first *)
  stdout : list string;            (* texts of print and tqdm.write *)
  fs : gmap string string          (* text files by path *)
}.

Definition M (A : Type) : Type := world -> result A * world.

Definition ret {A} (a : A) : M A := fun w => (Ret a, w).
Definition raise {A} (e : exn) : M A := fun w => (Raise e, w).
Definition bind {A B} (m : M A) (k : A -> M B) : M B :=
  fun w => match m w with
           | (Ret a, w') => k a w'
           | (Raise e, w') => (Raise e, w')
           end.

(** [try: m except Exception as e: h e]; what [m] did before it raised
    stays done. *)
Definition try_catch {A} (m : M A) (h : exn -> M A) : M A :=
  fun w => match m w with
           | (Ret a, w') => (Ret a, w')
           | (Raise e, w') => h e w'
           end.

(** A pure computation that may raise, run as a statement. *)
Definition lift {A} (r : result A) : M A := fun w => (r, w).

(** Running [m] and keeping how it ended as a value. *)
Definition attempt {A} (m : M A) : M (result A) :=
  fun w => let (r, w') := m w in (Ret r, w').

(** [d[k]] *)
Definition index (d : dict) (k : string) : result pyval :=
  match d !! k with
  | Some v => Ret v
  | None => Raise (KeyError k)
  end.

Declare Scope eff_scope.
Delimit Scope eff_scope with eff.
Notation "x <- m ;; k" := (bind m (fun x => k))
  (at level 100, m at next level, right associativity) : eff_scope.
Notation "m ;; k" := (bind m (fun _ => k))
  (at level 100, right associativity) : eff_scope.
Open Scope eff_scope.

(** [Logger.info], [Logger.warning] and [Logger.error]: the record goes
    to the handler of logger.py, which formats it and writes it to the
    console.  The records are kept in [log], apart from [stdout], which
    holds what the program itself writes with [print] and [tqdm.write]. *)
Definition logger (l : level) (msg : string) : M unit :=
  fun w => (Ret tt, World (api_calls w) (slept w) (log w ++ [(l, msg)]) (stdout w) (fs w)).

(** [print] and [tqdm.write] of a text the console takes. *)
Definition print (msg : string) : M unit :=
  fun w => (Ret tt, World (api_calls w) (slept w) (log w) (stdout w ++ [msg]) (fs w)).

Definition sleep (seconds : nat) : M unit :=
  fun w => (Ret tt, World (api_calls w) (slept w ++ [seconds]) (log w) (stdout w) (fs w)).

Definition read_fs : M (gmap string string) := fun w => (Ret (fs w), w).

Definition write_fs (f : gmap string string) : M unit :=
  fun w => (Ret tt, World (api_calls w) (slept w) (log w) (stdout w) f).

(** One request to the text generation API. *)
Record request := Request {
  req_model : string;
  req_contents : string;
  req_temperature : Q;
  req_max_output_tokens : Z;
  req_top_p : Q;
  req_top_k : Z
}.

(** What [generate_content] gives back: no response object, or one whose
    [text] may be missing. *)
Inductive response :=
| NoResponse
| Response (text : option string).

Inductive api_reply :=
| Replied (r : response)
| Failed (e : exn).

(** [response and response.text] as a truth value *)
Definition response_text (r : response) : option string :=
  match r with
  | Response (Some t) => if nonempty t then Some t else None
  | _ => None
  end.

(** config.py: the settings the pipeline reads. *)
Record Config := {
  model_name : string;
  max_retries : nat;
  temperature : Q;
  max_output_tokens : Z;
  top_p : Q;
  top_k : Z;
  project_root : string
}.

(** The values of [Config.__init__], for a given project root. *)
Definition default_config (root : string) : Config :=
  {| model_name := "models/gemini-2.5-flash";
     max_retries := 5;
     temperature := 1 # 10;
     max_output_tokens := 16384;
     top_p := 8 # 10;
     top_k := 40;
     project_root := root |}.

End Eff.

(* ===================================================================== *)
(** ** bug_definitions.py *)
(* ===================================================================== *)

Module BugDefinitions.
Import Py.

Record bug := Bug {
  name : string;
  description : string;
  files : list string;
  root_cause : string;
  fix_summary : string
}.

(** A catalog entry as the dictionary the program passes around. *)
Definition bug_dict (b : bug) : dict :=
  <["name" := PStr (name b)]>
  (<["description" := PStr (description b)]>
  (<["files" := PList (PStr <$> files b)]>
  (<["root_cause" := PStr (root_cause b)]>
  (<["fix_summary" := PStr (fix_summary b)]> ∅)))).

Definition planted_bugs : list bug :=
  [ Bug "State Management Bug"
        "Todo items don't update in the UI after editing. The `handleUpdate` function in `TodoList.tsx` makes an API call but never updates the local `todos` state with the returned data."
        ["frontend/src/components/TodoList.tsx"]
        "Missing state update after successful API call to reflect changes locally."
        "Update the local `todos` state array with the response from the `updateTodo` API call to ensure UI consistency.";
    Bug "CSRF Token Bug"
        "POST, PUT, and DELETE requests are failing due to a missing `X-CSRFToken` header. The `apiCall` helper in `api.ts` needs to include the CSRF token for mutating requests."
        ["frontend/src/services/api.ts"]
        "Django's CSRF protection blocks mutating requests without the `X-CSRFToken` header, which was missing in `api.ts`."
        "In `apiCall` in `api.ts`, add the `X-CSRFToken` header for 'POST', 'PUT', and 'DELETE' methods by retrieving the token from the cookie.";
    Bug "Permission Bug"
        "Users can see todos from other users. The `get_queryset` method in the `TodoViewSet` should filter todos by the currently authenticated user."
        ["backend/todos/views.py"]
        "The `get_queryset` method in `TodoViewSet` was not filtering todos by the authenticated user, leading to data exposure."
        "Modify `get_queryset` in `TodoViewSet` to filter `Todo` objects by `self.request.user` to ensure users only see their own todos.";
    Bug "React useEffect Bug"
        "An infinite loop occurs in `TodoList.tsx` because the `useEffect` hook that calls `fetchTodos` is missing a dependency array, causing it to run on every component render."
        ["frontend/src/components/TodoList.tsx"]
        "The `useEffect` hook in `TodoList.tsx` lacked a dependency array, causing `fetchTodos` to be called on every render, leading to an infinite loop."
        "Add an empty dependency array (`[]`) to the `useEffect` hook in `TodoList.tsx` to ensure `fetchTodos` runs only once on component mount.";
    Bug "API Integration Bug"
        "Field name mismatch between frontend and backend. The Django serializer sends `completed` and `created_at`, but the React interface expects `is_completed` and `created`."
        ["backend/todos/serializers.py"]
        "The Django `TodoSerializer` uses field names (`completed`, `created_at`) that do not align with the field names expected by the React frontend (`is_completed`, `created`), causing integration issues."
        "In `backend/todos/serializers.py`, map the backend fields `completed` and `created_at` to `is_completed` and `created` respectively, using `serializers.BooleanField(source='completed')` and `serializers.DateTimeField(source='created_at')` in `TodoSerializer`." ].

Fixpoint get_bug_by_name (bugs : list bug) (bug_name : string) : option bug :=
  match bugs with
  | [] => None
  | b :: rest => if String.eqb (name b) bug_name then Some b
                 else get_bug_by_name rest bug_name
  end.

Definition get_all_bugs (bugs : list bug) : list bug := bugs.

End BugDefinitions.

(* ===================================================================== *)
(** ** agent.py *)
(* ===================================================================== *)

Module Agent.
Import Py Eff BugDefinitions.

(** Everything the agent reaches outside agent.py.  The text generation
    API is an oracle asked by call number; prompts.py and the file
    analyser are taken as they are called. *)
Record Env := {
  config : Config;
  (** the catalog held by [prompts.bug_defs] and by the runner *)
  catalog : list bug;
  (** [client.models.generate_content], by the number of earlier calls *)
  generate_content_oracle : nat -> request -> api_reply;
  (** [code_analyzer.analyze_file] on an absolute path *)
  analyze_file : string -> result dict;
  (** [prompts.generate_enhanced_prompt(bug_name, codebase_content, analysis)] *)
  generate_enhanced_prompt : string -> string -> dict -> result string;
  (** [prompts._extract_relevant_files(codebase_content, files)] *)
  extract_relevant_files : string -> list string -> result string;
  (** [prompts.generate_failure_analysis_prompt(...)] *)
  generate_failure_analysis_prompt : string -> pyval -> pyval -> string -> result string;
  (** the order in which [list(set(l))] enumerates *)
  list_of_set : list string -> list string
}.

(** Control leaving one iteration of a [for] loop. *)
Inductive step (A : Type) :=
| Continue
| Return (a : A).
Arguments Continue {A}.
Arguments Return {A} a.

(** [os.path.join(a, b)] on POSIX paths *)
Definition os_path_join (a b : string) : string :=
  if String.prefix "/" b then b
  else match a with
       | EmptyString => b
       | _ => if String.eqb (String.substring (String.length a - 1) 1 a) "/"
              then a +:+ b else a +:+ "/" +:+ b
       end.

Section WithEnv.
Variable E : Env.

Definition generate_content (req : request) : M response :=
  fun w =>
    let w' := World (S (api_calls w)) (slept w) (log w) (stdout w) (fs w) in
    match generate_content_oracle E (api_calls w) req with
    | Replied r => (Ret r, w')
    | Failed e => (Raise e, w')
    end.

(** The body of the loop over [bug_info.get("files", [])] in [analyze_bug]. *)
Fixpoint analyze_files (paths : list string) (analysis_results : dict) : M dict :=
  match paths with
  | [] => ret analysis_results
  | file_path :: rest =>
      r <- try_catch
             (let abs_file_path := os_path_join (project_root (config E)) file_path in
              a <- lift (analyze_file E abs_file_path) ;;
              ret (<[file_path := PDict a]> analysis_results))
             (fun e =>
                logger WARNING ("Could not analyze file " +:+ file_path +:+ ": " +:+ str_exn e) ;;
                ret (<[file_path := PDict (<["error" := PStr (str_exn e)]> ∅)]> analysis_results)) ;;
      analyze_files rest r
  end.

Definition analyze_bug (bug_name codebase_content : string) : M dict :=
  logger INFO ("Analyzing bug: '" +:+ bug_name +:+ "'") ;;
  match get_bug_by_name (catalog E) bug_name with
  | None =>
      ret (<["error" := PStr ("Bug '" +:+ bug_name +:+ "' not found in definitions")]> ∅)
  | Some bug_info =>
      analysis_results <- analyze_files (files bug_info) ∅ ;;
      ret (<["bug_info" := PDict (bug_dict bug_info)]>
           (<["static_analysis" := PDict analysis_results]>
           (<["context" := PStr codebase_content]> ∅)))
  end.

Definition _validate_code_snippet_format (code_content : string) : M bool :=
  if negb (nonempty (strip code_content)) then ret false
  else if negb (re_search_line_start "File: " code_content) then ret false
  else
    (if negb (2 <=? count "```" code_content)%nat
     then logger WARNING "Generated code snippet might be missing markdown code block fences."
     else ret tt) ;;
    ret true.

Definition fix_request (prompt : string) : request :=
  {| req_model := model_name (config E);
     req_contents := prompt;
     req_temperature := temperature (config E);
     req_max_output_tokens := max_output_tokens (config E);
     req_top_p := top_p (config E);
     req_top_k := top_k (config E) |}.

Definition error_meta (msg : string) : dict := <["error" := PStr msg]> ∅.

Definition success_meta (bug_name : string) (analysis : dict) (attempt : nat) : dict :=
  <["bug_name" := PStr bug_name]>
  (<["analysis" := PDict analysis]>
  (<["attempts" := PInt (Z.of_nat (attempt + 1))]>
  (<["model_used" := PStr (model_name (config E))]> ∅))).

(** One iteration of the retry loop of [generate_fix], for the value
    [attempt] of the loop variable. *)
Definition fix_attempt (bug_name prompt : string) (analysis : dict) (attempt : nat)
  : M (step (string * dict)) :=
  try_catch
    (logger INFO ("Calling Gemini API (Attempt " +:+ str_nat (attempt + 1) +:+ "/"
                  +:+ str_nat (max_retries (config E)) +:+ ")...") ;;
     response <- generate_content (fix_request prompt) ;;
     match response_text response with
     | None =>
         logger WARNING ("Empty response from API for '" +:+ bug_name +:+ "' on attempt "
                         +:+ str_nat (attempt + 1)) ;;
         if (attempt =? max_retries (config E) - 1)%nat then
           logger ERROR "Max retries reached. No response from API." ;;
           ret (Return (EmptyString, error_meta "No response from API after max retries"))
         else
           sleep 2 ;; ret Continue
     | Some text =>
         let generated_code_snippet := strip text in
         valid <- _validate_code_snippet_format generated_code_snippet ;;
         if negb valid then
           logger WARNING ("Invalid code snippet format for '" +:+ bug_name +:+ "' on attempt "
                           +:+ str_nat (attempt + 1)) ;;
           if (attempt =? max_retries (config E) - 1)%nat then
             logger ERROR "Max retries reached. No valid code snippet generated." ;;
             ret (Return (EmptyString,
                          error_meta "No valid code snippet generated after max retries"))
           else
             sleep 2 ;; ret Continue
         else
           logger INFO "Successfully generated a valid code snippet from the API." ;;
           ret (Return (generated_code_snippet, success_meta bug_name analysis attempt))
     end)
    (fun e =>
       logger ERROR ("API call error on attempt " +:+ str_nat (attempt + 1) +:+ " for bug '"
                     +:+ bug_name +:+ "': " +:+ str_exn e) ;;
       if (attempt <? max_retries (config E) - 1)%nat then
         logger INFO "Retrying..." ;; sleep 2 ;; ret Continue
       else
         logger ERROR "Max retries reached. Failed to generate fix." ;;
         ret (Return (EmptyString, error_meta ("API call failed: " +:+ str_exn e)))).

(** [for attempt in range(max_retries)] from the value [attempt] on, with
    [remaining] iterations left, and the statement after the loop. *)
Fixpoint fix_loop (bug_name prompt : string) (analysis : dict) (remaining attempt : nat)
  : M (string * dict) :=
  match remaining with
  | O => ret (EmptyString, error_meta "Failed to generate fix after all retries")
  | S r =>
      s <- fix_attempt bug_name prompt analysis attempt ;;
      match s with
      | Return v => ret v
      | Continue => fix_loop bug_name prompt analysis r (S attempt)
      end
  end.

Definition generate_fix (bug_name codebase_content : string) : M (string * dict) :=
  logger INFO ("Generating fix for bug: '" +:+ bug_name +:+ "'") ;;
  analysis <- analyze_bug bug_name codebase_content ;;
  match analysis !! "error" with
  | Some err => ret (EmptyString, <["error" := err]> ∅)
  | None =>
      match generate_enhanced_prompt E bug_name codebase_content analysis with
      | Raise e =>
          logger ERROR ("Error generating prompt for " +:+ bug_name +:+ ": " +:+ str_exn e) ;;
          ret (EmptyString, error_meta ("Error generating prompt: " +:+ str_exn e))
      | Ret prompt =>
          if contains "Error:" prompt || negb (nonempty (strip prompt)) then
            logger ERROR ("Could not generate a valid prompt for " +:+ bug_name +:+ ": "
                          +:+ prompt) ;;
            ret (EmptyString, error_meta "Invalid prompt generated")
          else
            fix_loop bug_name prompt analysis (max_retries (config E)) 0
      end
  end.

(** [v.get(k, {})] when [v] should be a dictionary *)
Definition as_dict (v : pyval) : result dict :=
  match v with
  | PDict d => Ret d
  | _ => Raise (AttributeError "object has no attribute 'get'")
  end.

Definition get_fix_summary (bug_name corrected_code_snippet : string)
    (analysis_metadata : dict) : result dict :=
  match as_dict (get analysis_metadata "analysis" (PDict ∅)) with
  | Raise e => Raise e
  | Ret original_analysis_dict =>
      match as_dict (get original_analysis_dict "bug_info" (PDict ∅)) with
      | Raise e => Raise e
      | Ret bug_info =>
          let files_affected := get bug_info "files" (PList []) in
          let files_affected :=
            if negb (truthy files_affected) then
              let detected_files := re_findall_line_rest "File: " corrected_code_snippet in
              PList (PStr <$> list_of_set E detected_files)
            else files_affected in
          Ret (<["bug_name" := PStr bug_name]>
               (<["description" := get bug_info "description" (PStr "")]>
               (<["root_cause" := get bug_info "root_cause" (PStr "")]>
               (<["fix_summary" := get bug_info "fix_summary"
                                     (PStr "Solution provided as code snippet.")]>
               (<["files_affected" := files_affected]>
               (<["corrected_code_snippet" := PStr corrected_code_snippet]>
               (<["analysis_metadata" := PDict analysis_metadata]> ∅)))))))
      end
  end.

Definition analysis_request (prompt : string) : request :=
  {| req_model := model_name (config E);
     req_contents := prompt;
     req_temperature := 3 # 10;
     req_max_output_tokens := max_output_tokens (config E);
     req_top_p := top_p (config E);
     req_top_k := top_k (config E) |}.

(** One iteration of the retry loop of the failure analyst. *)
Definition analysis_attempt (bug_name prompt : string) (attempt : nat) : M (step dict) :=
  try_catch
    (response <- generate_content (analysis_request prompt) ;;
     match response_text response with
     | Some text =>
         logger INFO ("Generated failure analysis for " +:+ bug_name +:+ " (Attempt "
                      +:+ str_nat (attempt + 1) +:+ ").") ;;
         ret (Return (<["analysis" := PStr (strip text)]> (<["success" := PBool true]> ∅)))
     | None =>
         logger WARNING ("Empty response for failure analysis on attempt "
                         +:+ str_nat (attempt + 1)) ;;
         sleep 1 ;; ret Continue
     end)
    (fun e =>
       logger ERROR ("API call error for failure analysis on attempt "
                     +:+ str_nat (attempt + 1) +:+ ": " +:+ str_exn e) ;;
       sleep 1 ;; ret Continue).

Fixpoint analysis_loop (bug_name prompt : string) (remaining attempt : nat) : M dict :=
  match remaining with
  | O =>
      logger ERROR ("Failed to generate failure analysis after "
                    +:+ str_nat (max_retries (config E)) +:+ " attempts.") ;;
      ret (<["analysis" := PStr "Failed to generate intelligent suggestions due to API error."]> ∅)
  | S r =>
      s <- analysis_attempt bug_name prompt attempt ;;
      match s with
      | Return v => ret v
      | Continue => analysis_loop bug_name prompt r (S attempt)
      end
  end.

Definition generate_failure_analysis_and_suggestions (bug_name : string)
    (original_error_message previous_ai_generated_code : pyval)
    (codebase_content : string) : M dict :=
  logger INFO ("Generating failure analysis for bug '" +:+ bug_name +:+ "'...") ;;
  let files_to_check :=
    match get_bug_by_name (catalog E) bug_name with
    | Some bug_info => files bug_info
    | None => []
    end in
  relevant_context <- lift (extract_relevant_files E codebase_content files_to_check) ;;
  prompt <- lift (generate_failure_analysis_prompt E bug_name original_error_message
                    previous_ai_generated_code relevant_context) ;;
  analysis_loop bug_name prompt (max_retries (config E)) 0.

End WithEnv.
End Agent.

(* ===================================================================== *)
(** ** run.py *)
(* ===================================================================== *)

Module Runner.
Import Py Eff BugDefinitions Agent.

(** What run.py takes from the machine it runs on.  Floating point
    formatting and the clock are left to the host. *)
Record Host := {
  host_root : string;              (* Config.project_root *)
  host_agent_dir : string;         (* os.path.dirname(__file__) *)
  sys_executable : string;
  (** [subprocess.run(args, check=True, ...)] on the files *)
  subprocess_run : list string -> gmap string string -> result unit * gmap string string;
  (** [datetime.now().strftime(...)] when the report is written *)
  report_timestamp : string;
  (** the text of [total_time] with two decimals *)
  elapsed_seconds : string;
  (** [a / b * 100] with one decimal, for [b] not zero *)
  format_rate : nat -> nat -> string;
  (** [str] of a float *)
  str_float : Q -> string;
  (** [str] of a list or of a dictionary *)
  str_container : pyval -> string;
  (** the captured output of a failed subprocess, as the log shows it *)
  process_streams : exn -> string;
  (** GOOGLE_API_KEY or GEMINI_API_KEY *)
  host_api_key : option string;
  (** the exception of [genai.Client(...)], when it raises one *)
  client_failure : option exn;
  (** the exception [print] raises on a text that [sys.stdout] cannot
      take (UnicodeEncodeError, a ValueError, when its encoding has no
      place for one of the characters), if any; the text is given as
      its UTF-8 bytes.  It is asked for the two closing messages of
      [main], the texts of run.py that hold characters outside ASCII in
      the source itself. *)
  print_failure : string -> option exn
}.

(** The counters of [self.results]. *)
Record Results := {
  bugs_processed : nat;
  bugs_fixed : nat;
  bugs_failed : nat
}.

Definition initial_results : Results :=
  {| bugs_processed := 0; bugs_fixed := 0; bugs_failed := 0 |}.

Section WithEnv.
Variable E : Env.
Variable H : Host.

(** [str(v)], as an f-string inserts it *)
Definition str_val (v : pyval) : string :=
  match v with
  | PNone => "None"
  | PBool true => "True"
  | PBool false => "False"
  | PInt n => if (n <? 0)%Z then "-" +:+ str_nat (Z.to_nat (- n)) else str_nat (Z.to_nat n)
  | PStr s => s
  | PList _ | PDict _ => str_container H v
  end.

(** [v.upper()] *)
Definition upper_val (v : pyval) : result string :=
  match v with
  | PStr s => Ret (upper s)
  | _ => Raise (AttributeError "object has no attribute 'upper'")
  end.

Definition initial_payload (bug_name : string) : dict :=
  <["bug_name" := PStr bug_name]>
  (<["status" := PStr "initial"]>
  (<["error" := PStr ""]>
  (<["generated_code_solution" := PStr ""]>
  (<["ai_suggestions" := PStr ""]> ∅)))).

(** The [except Exception] clause of [process_bug]. *)
Definition on_error (bug_name : string) (result_payload : dict) (e : exn) : M dict :=
  logger ERROR ("Error processing bug " +:+ bug_name +:+ ": " +:+ str_exn e) ;;
  ret (<["error" := PStr (str_exn e)]> (<["status" := PStr "error"]> result_payload)).

(** The [try] statement of [process_bug]: the dictionary is updated in
    place, so what was stored before an exception stays stored. *)
Definition generate_solution (bug_name codebase_content : string)
    (result_payload : dict) : M dict :=
  r <- attempt (generate_fix E bug_name codebase_content) ;;
  match r with
  | Raise e => on_error bug_name result_payload e
  | Ret (corrected_code_snippet, analysis_metadata) =>
      let result_payload :=
        <["generated_code_solution" := PStr corrected_code_snippet]> result_payload in
      if negb (nonempty corrected_code_snippet) then
        ret (<["error" := get analysis_metadata "error" (PStr "No code solution generated.")]>
             (<["status" := PStr "failed_to_generate_solution"]> result_payload))
      else
        let result_payload := <["status" := PStr "solution_generated"]> result_payload in
        match get_fix_summary E bug_name corrected_code_snippet analysis_metadata with
        | Raise e => on_error bug_name result_payload e
        | Ret summary => ret (<["fix_summary" := PDict summary]> result_payload)
        end
  end.

(** The statements of [process_bug] after the [try] statement. *)
Definition add_suggestions (bug_name codebase_content : string)
    (result_payload : dict) : M dict :=
  status <- lift (index result_payload "status") ;;
  if negb (eq_str status "solution_generated") then
    original_error_message <- lift (index result_payload "error") ;;
    previous_code <- lift (index result_payload "generated_code_solution") ;;
    suggestion_response <-
      generate_failure_analysis_and_suggestions E bug_name original_error_message
        previous_code codebase_content ;;
    success <- lift (index suggestion_response "success") ;;
    if truthy success then
      analysis <- lift (index suggestion_response "analysis") ;;
      ret (<["ai_suggestions" := analysis]> result_payload)
    else
      ret (<["ai_suggestions" :=
               PStr "Could not generate intelligent suggestions due to API error."]>
           result_payload)
  else ret result_payload.

Definition process_bug (b : bug) (codebase_content : string) : M dict :=
  let bug_name := name b in
  logger INFO ("Processing bug: " +:+ bug_name) ;;
  result_payload <- generate_solution bug_name codebase_content (initial_payload bug_name) ;;
  add_suggestions bug_name codebase_content result_payload.

(** [sum(1 for r in bug_results if r["status"] == "solution_generated")] *)
Fixpoint count_solution_generated (bug_results : list dict) : result nat :=
  match bug_results with
  | [] => Ret 0
  | r :: rest =>
      match index r "status" with
      | Raise e => Raise e
      | Ret status =>
          match count_solution_generated rest with
          | Raise e => Raise e
          | Ret n => Ret (if eq_str status "solution_generated" then S n else n)
          end
      end
  end.

(** [', '.join(v)] for a list of strings or a string; on anything else
    the model raises [TypeError] (Python would also walk the keys of a
    dictionary, which no outcome built by [process_bug] stores there). *)
Definition join_val (sep : string) (v : pyval) : result string :=
  match v with
  | PList l =>
      match mapM (fun x => match x with PStr s => Some s | _ => None end) l with
      | Some ss => Ret (join sep ss)
      | None => Raise (TypeError "sequence item: expected str instance")
      end
  | PStr s => Ret (join sep ((fun c => String c EmptyString) <$> list_ascii_of_string s))
  | _ => Raise (TypeError "can only join an iterable")
  end.

(** The lines one outcome adds to the report, as the values appended to
    [report_lines]. *)
Definition report_section (i : nat) (r : dict) : result (list pyval) :=
  match index r "bug_name" with Raise e => Raise e | Ret bug_name =>
  match index r "status" with Raise e => Raise e | Ret status =>
  match upper_val status with Raise e => Raise e | Ret status_upper =>
  let head :=
    [PStr ("BUG " +:+ str_nat i +:+ ": " +:+ str_val bug_name);
     PStr ("Status: " +:+ status_upper);
     PStr (repeat_char "-" 40)] in
  if eq_str status "solution_generated" then
    match as_dict (get r "fix_summary" (PDict ∅)) with Raise e => Raise e | Ret fix_summary =>
    match join_val ", " (get fix_summary "files_affected" (PList [])) with
    | Raise e => Raise e
    | Ret files_affected =>
    match index r "generated_code_solution" with Raise e => Raise e | Ret code =>
      Ret (head ++
           [PStr ("Root Cause: " +:+ str_val (get fix_summary "root_cause" (PStr "Not specified")));
            PStr ("Proposed Fix Concept: "
                  +:+ str_val (get fix_summary "fix_summary" (PStr "Not specified")));
            PStr ("Files Affected: " +:+ files_affected);
            PStr (NL +:+ "--- GENERATED CODE SOLUTION ---");
            code;
            PStr "-------------------------------";
            PStr ""])
    end end end
  else
    let attempted :=
      match r !! "generated_code_solution" with
      | Some code =>
          if truthy code then
            [PStr (NL +:+ "--- ATTEMPTED CODE SOLUTION ---"); code;
             PStr "-------------------------------"]
          else [PStr (NL +:+ "No code solution was generated in the initial attempt.")]
      | None => [PStr (NL +:+ "No code solution was generated in the initial attempt.")]
      end in
    let suggestions :=
      if truthy (get r "ai_suggestions" PNone) then
        [PStr (NL +:+ "--- AI-GENERATED FAILURE ANALYSIS AND IMPROVED SOLUTION ---");
         get r "ai_suggestions" PNone;
         PStr "---------------------------------------------------------"]
      else [PStr (NL +:+ "No specific AI-generated suggestions available for this failure.")] in
    Ret (head ++ [PStr ("Error: " +:+ str_val (get r "error" (PStr "Unknown error")))]
         ++ attempted ++ suggestions ++ [PStr ""])
  end end end.

(** [for i, result in enumerate(bug_results, 1)] from the index [i] on *)
Fixpoint report_sections (i : nat) (bug_results : list dict) : result (list pyval) :=
  match bug_results with
  | [] => Ret []
  | r :: rest =>
      match report_section i r with
      | Raise e => Raise e
      | Ret ls =>
          match report_sections (S i) rest with
          | Raise e => Raise e
          | Ret more => Ret (ls ++ more)
          end
      end
  end.

(** The end of the report: technical details and recommendations. *)
Definition report_footer (failed_count : nat) : list pyval :=
  [PStr "TECHNICAL DETAILS:";
   PStr ("- Model: " +:+ model_name (config E));
   PStr ("- Temperature: " +:+ str_float H (temperature (config E)));
   PStr ("- Max Output Tokens: " +:+ str_val (PInt (max_output_tokens (config E))));
   PStr ("- Max Retries: " +:+ str_nat (max_retries (config E)));
   PStr "";
   PStr "GENERAL RECOMMENDATIONS:"] ++
  (if (0 <? failed_count)%nat then
     [PStr "- Review the 'AI-GENERATED FAILURE ANALYSIS AND IMPROVED SOLUTION' for failed bugs.";
      PStr "- Ensure the environment is correctly set up and dependencies are met.";
      PStr "- Consult agent logs for further details on API errors.";
      PStr "- Refine bug definitions or prompt hints if solutions are consistently incorrect."]
   else
     [PStr "- All bug solutions successfully generated! Review them for accuracy.";
      PStr "- Manually apply the generated code snippets to your codebase.";
      PStr "- Thoroughly test the application after applying changes.";
      PStr "- Consider a code review for quality assurance before deploying."]).

(** [sep.join(report_lines)]: every item has to be a string. *)
Definition join_lines (report_lines : list pyval) : result string :=
  match mapM (fun x => match x with PStr s => Some s | _ => None end) report_lines with
  | Some ss => Ret (join NL ss)
  | None => Raise (TypeError "sequence item: expected str instance")
  end.

Definition generate_report (bug_results : list dict) : result string :=
  let total := length bug_results in
  let banner :=
    [PStr (repeat_char "=" 60);
     PStr "BUG FIXER AGENT REPORT";
     PStr (repeat_char "=" 60);
     PStr ("Generated: " +:+ report_timestamp H);
     PStr ("Model Used: " +:+ model_name (config E));
     PStr ("Total Bugs Processed: " +:+ str_nat total);
     PStr ""] in
  match count_solution_generated bug_results with
  | Raise e => Raise e
  | Ret solution_generated_count =>
      let failed_count := total - solution_generated_count in
      match total with
      | O => Raise ZeroDivisionError
      | S _ =>
          let summary :=
            [PStr "SUMMARY:";
             PStr ("- Solutions Successfully Generated: " +:+ str_nat solution_generated_count);
             PStr ("- Failures (No Solution/Invalid Solution): " +:+ str_nat failed_count);
             PStr ("- Success Rate (Solution Generation): "
                   +:+ format_rate H solution_generated_count total +:+ "%");
             PStr ""] in
          match report_sections 1 bug_results with
          | Raise e => Raise e
          | Ret sections =>
              join_lines (banner ++ summary ++ sections ++ report_footer failed_count)
          end
      end
  end.

Definition subprocess (args : list string) : M unit :=
  fun w =>
    let (r, f) := subprocess_run H args (fs w) in
    (r, World (api_calls w) (slept w) (log w) (stdout w) f).

Definition setup_environment : M bool :=
  fun w =>
    match (logger INFO "Setting up environment..." ;;
           let req_path := os_path_join (host_agent_dir H) "requirements.txt" in
           logger INFO ("Installing agent dependencies from " +:+ req_path +:+ "...") ;;
           subprocess [sys_executable H; "-m"; "pip"; "install"; "-r"; req_path;
                       "--upgrade"; "--no-warn-script-location"] ;;
           logger INFO "Agent dependencies installed successfully." ;;
           logger INFO
             "Inspecting the codebase to create context file ('codebase_content.txt')..." ;;
           let inspector_path := os_path_join (project_root (config E)) "inspector.py" in
           subprocess [sys_executable H; inspector_path; "-d"; "."] ;;
           logger INFO "Codebase inspection complete." ;;
           ret true) w with
    | (Raise (CalledProcessError m as e), w') | (Raise (FileNotFoundError m as e), w') =>
        (logger ERROR ("Failed to setup environment: " +:+ str_exn e) ;;
         logger ERROR ("Stdout/Stderr:" +:+ NL +:+ process_streams H e) ;;
         ret false) w'
    | other => other
    end.

Definition codebase_content_path : string :=
  os_path_join (project_root (config E)) "codebase_content.txt".

(** Reading a file that exists is taken to succeed; the source answers
    an unreadable file with the empty text as well. *)
Definition load_codebase_content : M string :=
  files <- read_fs ;;
  match files !! codebase_content_path with
  | None =>
      logger ERROR ("Codebase content file not found: " +:+ codebase_content_path) ;;
      ret EmptyString
  | Some content =>
      logger INFO ("Loaded codebase content (" +:+ str_nat (String.length content)
                   +:+ " characters)") ;;
      ret content
  end.

(** The loop of [run] over the catalog; [bug_results] and [results] are
    the list and the counters as they stand before the next defect. *)
Fixpoint run_loop (bugs : list bug) (codebase_content : string)
    (bug_results : list dict) (results : Results) : M (list dict * Results) :=
  match bugs with
  | [] => ret (bug_results, results)
  | b :: rest =>
      let bug_name := name b in
      print (NL +:+ "--- Processing: " +:+ bug_name +:+ " ---") ;;
      result <- process_bug b codebase_content ;;
      let bug_results := bug_results ++ [result] in
      status <- lift (index result "status") ;;
      let generated := eq_str status "solution_generated" in
      let results :=
        {| bugs_processed := bugs_processed results + 1;
           bugs_fixed := if generated then bugs_fixed results + 1 else bugs_fixed results;
           bugs_failed := if generated then bugs_failed results else bugs_failed results + 1 |} in
      status_upper <- lift (upper_val status) ;;
      print ("Status: " +:+ status_upper) ;;
      (if generated then print "Successfully generated a code solution."
       else
         print ("Generation failed. Error: "
                +:+ str_val (get result "error" (PStr "Unknown error"))) ;;
         if truthy (get result "ai_suggestions" PNone)
         then print "AI-Generated Analysis & Suggestions provided in report."
         else ret tt) ;;
      run_loop rest codebase_content bug_results results
  end.

Definition report_path : string :=
  os_path_join (project_root (config E)) "bug_fix_report.txt".

(** The first part of [run], up to the loaded snapshot: [None] stands
    for the two early [return False]. *)
Definition prepare : M (option string) :=
  logger INFO "Bug Fixer Agent process started." ;;
  ready <- setup_environment ;;
  if negb ready then
    logger ERROR "Failed to setup environment. Exiting." ;;
    ret None
  else
    codebase_content <- load_codebase_content ;;
    if negb (nonempty codebase_content) then
      logger ERROR "Failed to load codebase content. Exiting." ;;
      ret None
    else ret (Some codebase_content).

(** The second part of [run]: the loop over the catalog, the report, the
    cleanup and the verdict.  [results] are the counters of
    [self.results] before the loop; the counters after it are given back
    with the return value. *)
Definition process_and_report (codebase_content : string) (results : Results)
  : M (bool * Results) :=
  let bugs_to_fix := get_all_bugs (catalog E) in
  logger INFO ("Starting to process " +:+ str_nat (length bugs_to_fix)
               +:+ " planted bugs...") ;;
  processed <- run_loop bugs_to_fix codebase_content [] results ;;
  let bug_results := fst processed in
  let results := snd processed in
  report_content <- lift (generate_report bug_results) ;;
  files <- read_fs ;;
  write_fs (<[report_path := report_content]> files) ;;
  logger INFO ("Bug solution generation process complete. Report saved to '"
               +:+ report_path +:+ "'.") ;;
  logger INFO ("Total time: " +:+ elapsed_seconds H +:+ " seconds") ;;
  rate <- lift (match bugs_processed results with
                | O => Raise ZeroDivisionError
                | S _ => Ret (format_rate H (bugs_fixed results) (bugs_processed results))
                end) ;;
  logger INFO ("Success rate (solution generation): " +:+ rate +:+ "%") ;;
  files <- read_fs ;;
  (match files !! codebase_content_path with
   | Some _ =>
       write_fs (delete codebase_content_path files) ;;
       logger INFO "Cleaned up codebase_content.txt"
   | None => ret tt
   end) ;;
  ret (bool_decide (bugs_failed results = 0), results).

(** [run], started with the counters [results]. *)
Definition run (results : Results) : M (bool * Results) :=
  snapshot <- prepare ;;
  match snapshot with
  | None => ret (false, results)
  | Some codebase_content => process_and_report codebase_content results
  end.

End WithEnv.

(** [BugFixerRunner.__init__]: the configuration, then the API client.
    Building [Prompts()] (prompts.py is not among the sources) is taken
    to succeed and to leave no record. *)
Definition init_runner (H : Host) : M unit :=
  match host_api_key H with
  | Some (String _ _) =>
      logger INFO "Configuring Google GenAI client..." ;;
      match client_failure H with
      | Some e =>
          logger ERROR ("Failed to configure Google GenAI client: " +:+ str_exn e) ;;
          raise e
      | None => logger INFO "Google GenAI client configured successfully."
      end
  | _ =>
      raise (ValueError
               "GOOGLE_API_KEY or GEMINI_API_KEY not found. Please set it in the .env file.")
  end.

(** The environment the runner builds for itself: the configuration of
    config.py and the planted catalog, around the host's API and
    prompts.py. *)
Definition runner_env (H : Host) (P : Env) : Env :=
  {| config := default_config (host_root H);
     catalog := planted_bugs;
     generate_content_oracle := generate_content_oracle P;
     analyze_file := analyze_file P;
     generate_enhanced_prompt := generate_enhanced_prompt P;
     extract_relevant_files := extract_relevant_files P;
     generate_failure_analysis_prompt := generate_failure_analysis_prompt P;
     list_of_set := list_of_set P |}.

(** The two closing messages of [main].  Each starts, after the line
    feed, with a decoration whose characters lie outside ASCII: U+F8FF,
    U+00FC, U+00E9, U+00E2 in the first and U+201A, U+00F9, U+00E5 in
    the second.  Two of them lie above U+00FF, so the messages are kept
    as the UTF-8 bytes of the source file. *)
Definition of_bytes (l : list nat) : string :=
  string_of_list_ascii (Ascii.ascii_of_nat <$> l).

Definition success_message : string :=
  NL +:+ of_bytes [239; 163; 191; 195; 188; 195; 169; 195; 162]
  +:+ " ALL BUG SOLUTIONS SUCCESSFULLY GENERATED! Review 'bug_fix_report.txt'.".

Definition failure_message : string :=
  NL +:+ of_bytes [226; 128; 154; 195; 185; 195; 165]
  +:+ " SOME BUG SOLUTIONS FAILED TO GENERATE. Check 'bug_fix_report.txt' for details and AI suggestions.".

(** [print(text)] on the standard output of the host: the text is
    written whole, or nothing is written and the exception leaves. *)
Definition print_on (H : Host) (text : string) : M unit :=
  match print_failure H text with
  | Some e => raise e
  | None => print text
  end.

(** [main] together with the interpreter around it: the exit status of
    the process.  [sys.exit(n)] ends it with status [n]; an exception
    nobody catches ends it with status 1. *)
Definition main (H : Host) (P : Env) : world -> Z * world :=
  fun w =>
    match (init_runner H ;; run (runner_env H P) H initial_results) w with
    | (Ret (true, _), w') =>
        match print_on H success_message w' with
        | (Ret _, w'') => (0%Z, w'')
        | (Raise _, w'') => (1%Z, w'')
        end
    | (Ret (false, _), w') => (1%Z, snd (print_on H failure_message w'))
    | (Raise _, w') => (1%Z, w')
    end.

End Runner.

(* ===================================================================== *)
(** ** inspector.py: the format of the snapshot *)
(* ===================================================================== *)

Module Inspector.
Import Py.

Definition HEADER_LINE : string := repeat_char "*" 100.
Definition FILE_SEPARATOR : string := NL +:+ NL.

(** What [process_directory] writes for one file it could read. *)
Definition file_block (relative_file_path content : string) : string :=
  (HEADER_LINE +:+ NL)
  +:+ ("File: " +:+ relative_file_path +:+ NL)
  +:+ (HEADER_LINE +:+ NL +:+ NL)
  +:+ content
  +:+ FILE_SEPARATOR.

(** The output file for the readable, non-ignored files in the order of
    the directory walk, each given by its relative path and its text. *)
Fixpoint snapshot (walked : list (string * string)) : string :=
  match walked with
  | [] => EmptyString
  | (path, content) :: rest => file_block path content +:+ snapshot rest
  end.

End Inspector.

(* ===================================================================== *)
(** ** prompts.py, from its description *)
(* ===================================================================== *)

Module Prompts.
Import Py BugDefinitions Inspector.

(** prompts.py itself is not among the sources.  The two functions of it
    that the properties are about are written here from sections 4.1 and
    4.2 of the specification; the fixed text of the prompt is the one the
    test suite keeps a record of.  The agent and the runner above do not
    depend on this module: they take prompts.py as it is called. *)

(** The places of the fix prompt that take a value. *)
Inductive placeholder :=
| BugName
| Description
| RootCause
| FixConcept
| AffectedFiles
| AnalysisHints
| RelevantContent.

(** How each place is written in the prompt's layout, as the test suite
    records it. *)
Definition token (p : placeholder) : string :=
  match p with
  | BugName => "{bug_name}"
  | Description => "{description}"
  | RootCause => "{root_cause}"
  | FixConcept => "{fix_concept}"
  | AffectedFiles => "{', '.join(files_to_check)}"
  | AnalysisHints => "{self.get_specific_analysis_prompt(bug_name)}"
  | RelevantContent => "{relevant_content}"
  end.

Inductive segment :=
| Lit (s : string)
| Hole (p : placeholder).

(** Putting the known values in their places. *)
Definition fill (values : placeholder -> option string) (t : list segment) : list segment :=
  (fun s => match s with
            | Hole p => match values p with Some v => Lit v | None => Hole p end
            | Lit _ => s
            end) <$> t.

(** The places still waiting for a value. *)
Definition unresolved (t : list segment) : list placeholder :=
  omap (fun s => match s with Hole p => Some p | Lit _ => None end) t.

(** The text of a layout; a place without a value shows as its token. *)
Fixpoint render (t : list segment) : string :=
  match t with
  | [] => EmptyString
  | Lit s :: rest => s +:+ render rest
  | Hole p :: rest => token p +:+ render rest
  end.

(** The fixed text of the fix prompt, from the record kept in
    tests/bug_fixer_agent/test_agent_core.py. *)
Definition prompt_intro : string :=
  join NL
    ["Provide **ONLY the corrected code snippet(s)** to fix a specific bug in this Django/React application.";
     "**Your primary goal is minimality and precision.** Do NOT rewrite entire functions/components, change unrelated lines, or alter API/function signatures unless explicitly necessary for the bug and justified by the analysis.";
     "Add functions or variables only when strictly necessary and locally scoped to the fix. **DO NOT remove or modify any code not directly related to fixing this specific bug.**";
     "";
     "**BUG NAME:** "].

Definition label_description : string :=
  join NL
    ["";
     "**DESCRIPTION:** "].

Definition label_root_cause : string :=
  join NL
    ["";
     "**ROOT CAUSE:** "].

Definition label_fix_concept : string :=
  join NL
    ["";
     "**FIX CONCEPT:** "].

Definition label_affected_files : string :=
  join NL
    ["";
     "**AFFECTED FILES:** "].

Definition label_analysis_hints : string :=
  join NL
    ["";
     "";
     "**ANALYSIS HINTS (Specific guidance on what and what NOT to change):**";
     ""].

Definition label_code_context : string :=
  join NL
    ["";
     "";
     "**CODE CONTEXT (original, buggy files for reference):**";
     ""].

Definition prompt_output_format : string :=
  join NL
    ["";
     "";
     "**STRICT OUTPUT FORMAT (CRITICAL TO FOLLOW):**";
     "- Output ONLY corrected code snippets.";
     "- For each affected file, start with: `File: <file_path>`";
     "- Immediately follow with a markdown code block (e.g., ```python or ```typescript).";
     "- Inside the code block:";
     "    - Include only the **minimal set of lines that are changed, added, or deleted**.";
     "    - Provide **exactly 1 to 3 lines of *unchanged* surrounding context** (before and after your change) to show precisely where the modification fits.";
     "    - **DO NOT rewrite entire functions, methods, or components.**";
     "    - **DO NOT change function/method signatures** (e.g., parameter names, types, or number of arguments) unless the bug is *specifically* about an incorrect signature for that function.";
     "    - **DO NOT remove or modify any code not directly related to fixing this specific bug.** Preserve all unrelated lines and functionality.";
     "    - Ensure all generated code is syntactically correct and directly solves the bug.";
     "- Close each code block with '```'.";
     "- **DO NOT include diff markers** (`--- a/`, `+++ b/`, `@@`).";
     "- **DO NOT provide ANY explanations, conversational text, or content outside these formatted code blocks.**";
     "- Use separate 'File:' blocks for multiple files if applicable.";
     "";
     "**OUTPUT EXAMPLE (Minimal, targeted change):**";
     "File: frontend/src/components/SomeComponent.tsx";
     "```typescript";
     "  // 1-3 lines of original context above the change";
     "  const existingLine = 'value'; // Line immediately preceding the change";
     "  const [data, setData] = useState<DataType>([]); // THIS IS YOUR MODIFIED/ADDED LINE";
     "  // 1-3 lines of original context below the change";
     "  function anotherFunction() { /* ... */ }";
     "```";
     "";
     "File: backend/some_app/views.py";
     "```python";
     "# 1-3 lines of original context above the change";
     "class SomeView(APIView):";
     "    def get(self, request):";
     "        return MyModel.objects.filter(user=request.user) # THIS IS YOUR MODIFIED LINE";
     "# 1-3 lines of original context below the change";
     "```";
     ""].

Definition fix_prompt_template : list segment :=
  [Lit prompt_intro;
   Hole BugName;
   Lit label_description;
   Hole Description;
   Lit label_root_cause;
   Hole RootCause;
   Lit label_fix_concept;
   Hole FixConcept;
   Lit label_affected_files;
   Hole AffectedFiles;
   Lit label_analysis_hints;
   Hole AnalysisHints;
   Lit label_code_context;
   Hole RelevantContent;
   Lit prompt_output_format].

(** Modelled from the spec: prompts.py is not among the sources; the
    values of the places are the ones section 4.2 lists: the defect's
    name, description, root cause, fix summary, comma-joined
    affected-file list, the defect-specific guidance text (a function of
    the defect's name) and the relevant excerpts. *)
Definition fix_values (guidance : string -> string) (defect : bug)
    (relevant_excerpts : string) (p : placeholder) : option string :=
  Some match p with
       | BugName => name defect
       | Description => description defect
       | RootCause => root_cause defect
       | FixConcept => fix_summary defect
       | AffectedFiles => join ", " (files defect)
       | AnalysisHints => guidance (name defect)
       | RelevantContent => relevant_excerpts
       end.

(** Modelled from the spec: prompts.py is not among the sources, so the
    Prompt Builder ([generate_enhanced_prompt] in the agent's call) is
    written from section 4.2, [build_fix_prompt(defect,
    relevant_excerpts, prior_analysis)]: a deterministic, fully
    substituted instruction string.  The recorded layout has no place
    for the prior analysis. *)
Definition build_fix_prompt (guidance : string -> string) (defect : bug)
    (relevant_excerpts : string) (prior_analysis : dict) : string :=
  render (fill (fix_values guidance defect relevant_excerpts) fix_prompt_template).

(** Modelled from the spec: the header triple of section 4.1 (header
    line, File line, header line), each of the three lines ended. *)
Definition header_triple (path : string) : string :=
  (HEADER_LINE +:+ NL) +:+ ("File: " +:+ path +:+ NL) +:+ (HEADER_LINE +:+ NL).

(** Modelled from the spec: what section 4.1 calls a path found in the
    snapshot.  The paths whose header triple stands in the lines, in
    their order; a triple is three lines in a row, and the lines of a
    triple found are not looked at again. *)
Fixpoint scan_headers (lines : list string) : list string :=
  match lines with
  | [] => []
  | h1 :: rest1 =>
      match rest1 with
      | f :: h2 :: rest3 =>
          if String.eqb h1 HEADER_LINE && String.prefix "File: " f && String.eqb h2 HEADER_LINE
          then String.substring 6 (String.length f - 6) f :: scan_headers rest3
          else scan_headers rest1
      | _ => []
      end
  end.

Definition headers_of (codebase_content : string) : list string :=
  scan_headers (split_lines codebase_content).

Fixpoint concat_text (l : list string) : string :=
  match l with
  | [] => EmptyString
  | x :: rest => x +:+ concat_text rest
  end.

(** Modelled from the spec: prompts.py is not among the sources, so the
    Context Loader's extraction is written from section 4.1,
    [extract(snapshot, paths)]: for each requested path found in the
    snapshot, its header triple, concatenated in snapshot order; paths
    not present are skipped. *)
Definition _extract_relevant_files (codebase_content : string) (paths : list string)
  : string :=
  concat_text (header_triple <$> filter (fun p => p ∈ paths) (headers_of codebase_content)).

End Prompts.

(* ===================================================================== *)
(** ** Concrete environments, used to run the model *)
(* ===================================================================== *)

Module Examples.
Import Py Eff BugDefinitions Agent Runner Inspector Prompts.

Definition fresh_world : world := World 0 [] [] [] ∅.

(** prompts.py and the analyser reduced to constants, around a given API. *)
Definition env_with (retries : nat) (api : nat -> request -> api_reply) : Env :=
  {| config := {| model_name := "test_model"; max_retries := retries;
                  temperature := 1 # 10; max_output_tokens := 1024;
                  top_p := 8 # 10; top_k := 40; project_root := "/mock/project/root" |};
     catalog := planted_bugs;
     generate_content_oracle := api;
     analyze_file := fun _ => Ret ∅;
     generate_enhanced_prompt := fun bug_name _ _ => Ret ("Fix " +:+ bug_name);
     extract_relevant_files := fun _ _ => Ret EmptyString;
     generate_failure_analysis_prompt := fun bug_name _ _ _ => Ret ("Analyse " +:+ bug_name);
     list_of_set := fun l => l |}.

(** An API that answers every call with the empty text. *)
Definition silent_api : nat -> request -> api_reply :=
  fun _ _ => Replied (Response (Some EmptyString)).

Definition good_snippet : string :=
  "File: frontend/src/services/api.ts" +:+ NL +:+ "```typescript" +:+ NL
  +:+ "  // code here" +:+ NL +:+ "```".

(** An API whose third answer is a well-formed snippet, padded with
    white space; the others are empty or fail. *)
Definition third_time_api : nat -> request -> api_reply :=
  fun n _ =>
    match n with
    | 0 => Replied NoResponse
    | 1 => Failed (Exception "503 UNAVAILABLE")
    | 2 => Replied (Response (Some (NL +:+ good_snippet +:+ NL)))
    | _ => Replied (Response (Some "later"))
    end.

Definition csrf_bug : bug :=
  Bug "CSRF Token Bug"
      "POST, PUT, and DELETE requests are failing due to a missing `X-CSRFToken` header. The `apiCall` helper in `api.ts` needs to include the CSRF token for mutating requests."
      ["frontend/src/services/api.ts"]
      "Django's CSRF protection blocks mutating requests without the `X-CSRFToken` header, which was missing in `api.ts`."
      "In `apiCall` in `api.ts`, add the `X-CSRFToken` header for 'POST', 'PUT', and 'DELETE' methods by retrieving the token from the cookie.".

(** A machine on which the setup works: the inspector leaves a snapshot. *)
Definition ready_host : Host :=
  {| host_root := "/srv/app";
     host_agent_dir := "/srv/app/bug_fixer_agent";
     sys_executable := "/usr/bin/python3";
     subprocess_run := fun args files =>
       (Ret tt,
        match args with
        | [_; _; "-d"; "."] =>
            <["/srv/app/codebase_content.txt" := "snapshot of the code base"]> files
        | _ => files
        end);
     report_timestamp := "2025-01-01 00:00:00";
     elapsed_seconds := "0.00";
     format_rate := fun a b => str_nat (100 * a / b) +:+ ".0";
     str_float := fun _ => "0.1";
     str_container := fun _ => "[...]";
     process_streams := fun _ => "N/A" +:+ NL +:+ "N/A";
     host_api_key := Some "key";
     client_failure := None;
     print_failure := fun _ => None |}.

(** A machine without the API credential. *)
Definition keyless_host : Host :=
  {| host_root := host_root ready_host;
     host_agent_dir := host_agent_dir ready_host;
     sys_executable := sys_executable ready_host;
     subprocess_run := subprocess_run ready_host;
     report_timestamp := report_timestamp ready_host;
     elapsed_seconds := elapsed_seconds ready_host;
     format_rate := format_rate ready_host;
     str_float := str_float ready_host;
     str_container := str_container ready_host;
     process_streams := process_streams ready_host;
     host_api_key := None;
     client_failure := None;
     print_failure := print_failure ready_host |}.

(** A machine whose console takes ASCII only: [print] raises
    UnicodeEncodeError on every other text. *)
Definition ascii_only (text : string) : bool :=
  forallb (fun c => (Ascii.nat_of_ascii c <? 128)%nat) (list_ascii_of_string text).

Definition ascii_console_host : Host :=
  {| host_root := host_root ready_host;
     host_agent_dir := host_agent_dir ready_host;
     sys_executable := sys_executable ready_host;
     subprocess_run := subprocess_run ready_host;
     report_timestamp := report_timestamp ready_host;
     elapsed_seconds := elapsed_seconds ready_host;
     format_rate := format_rate ready_host;
     str_float := str_float ready_host;
     str_container := str_container ready_host;
     process_streams := process_streams ready_host;
     host_api_key := host_api_key ready_host;
     client_failure := None;
     print_failure := fun text =>
       if ascii_only text then None
       else Some (ValueError "'ascii' codec can't encode characters: ordinal not in range(128)") |}.

(** A machine on which the API client cannot be configured. *)
Definition offline_host : Host :=
  {| host_root := host_root ready_host;
     host_agent_dir := host_agent_dir ready_host;
     sys_executable := sys_executable ready_host;
     subprocess_run := subprocess_run ready_host;
     report_timestamp := report_timestamp ready_host;
     elapsed_seconds := elapsed_seconds ready_host;
     format_rate := format_rate ready_host;
     str_float := str_float ready_host;
     str_container := str_container ready_host;
     process_streams := process_streams ready_host;
     host_api_key := host_api_key ready_host;
     client_failure := Some (Exception "Could not reach the API endpoint.");
     print_failure := print_failure ready_host |}.

(** An API that answers every call with a well-formed snippet. *)
Definition helpful_api : nat -> request -> api_reply :=
  fun _ _ => Replied (Response (Some good_snippet)).

(** An API that gives no text to the first five calls and a text to
    every later one: the first defect's generation fails, its failure
    analysis and everything after it succeed. *)
Definition late_api : nat -> request -> api_reply :=
  fun n _ => if (n <? 5)%nat then Replied (Response None)
             else Replied (Response (Some good_snippet)).

(** The defect of the test suite's fixtures. *)
Definition test_bug : bug :=
  Bug "Test Bug 1" "This is a test bug description."
      ["frontend/src/components/TestFile.tsx"; "backend/models/AnotherFile.py"]
      "Test root cause." "Test fix concept.".

(** The snapshot of the test suite's fixtures. *)
Definition mock_codebase_content : string :=
  join NL
    [""; HEADER_LINE; "File: frontend/src/components/TestFile.tsx"; HEADER_LINE; "";
     "import React from 'react';";
     "function TestComponent() {";
     "  const [data, setData] = useState([]); // Line to be potentially changed";
     "  // More lines";
     "}";
     ""; ""; ""; ""; "";
     HEADER_LINE; "File: backend/models/AnotherFile.py"; HEADER_LINE; "";
     "from django.db import models";
     "class MyModel(models.Model):";
     "    name = models.CharField(max_length=100)";
     "    # Other fields";
     ""; ""; ""; ""; "";
     HEADER_LINE; "File: irrelevant/file.txt"; HEADER_LINE; "";
     "Some irrelevant content.";
     ""; ""; ""; ""; ""].

End Examples.

(* ===================================================================== *)
(** ** tools/code_analyzer.py *)
(* ===================================================================== *)

Module CodeAnalyzer.
Import Py Eff.

(** The double quote, which the patterns below hold. *)
Definition DQ : string := String (Ascii.ascii_of_nat 34) EmptyString.

(** [s.split(sep)] for a one-character separator *)
Fixpoint split_on (sep : ascii) (s : string) : list string :=
  match s with
  | EmptyString => [EmptyString]
  | String c r =>
      if Ascii.eqb c sep then EmptyString :: split_on sep r
      else match split_on sep r with
           | l :: ls => String c l :: ls
           | [] => [String c EmptyString]
           end
  end.

(** [s.split(sep)[0]] *)
Definition split_head (sep : ascii) (s : string) : string :=
  match split_on sep s with
  | l :: _ => l
  | [] => EmptyString
  end.

(** [s.lower()] on code points below 256: the ASCII capitals and the
    Latin-1 capitals other than the multiplication sign. *)
Definition lower_char (c : ascii) : ascii :=
  let n := Ascii.nat_of_ascii c in
  if ((65 <=? n)%nat && (n <=? 90)%nat)
     || ((192 <=? n)%nat && (n <=? 222)%nat && negb (n =? 215)%nat)
  then Ascii.ascii_of_nat (n + 32) else c.

Fixpoint lower (s : string) : string :=
  match s with
  | String c r => String (lower_char c) (lower r)
  | EmptyString => EmptyString
  end.

(** The part of a path after its last slash, if it has one. *)
Fixpoint after_last_slash (p : string) : option string :=
  match p with
  | EmptyString => None
  | String c r =>
      match after_last_slash r with
      | Some t => Some t
      | None => if Ascii.eqb c "/" then Some r else None
      end
  end.

Fixpoint drop_dots (s : string) : string :=
  match s with
  | String c r => if Ascii.eqb c "." then drop_dots r else s
  | EmptyString => EmptyString
  end.

(** The part of a text from its last dot on, if it has one. *)
Fixpoint from_last_dot (s : string) : option string :=
  match s with
  | EmptyString => None
  | String c r =>
      match from_last_dot r with
      | Some e => Some e
      | None => if Ascii.eqb c "." then Some s else None
      end
  end.

(** [os.path.splitext(p)[1]] on POSIX paths: the extension starts at the
    last dot of the last component, the dots that open the component
    apart. *)
Definition splitext_ext (p : string) : string :=
  let base := default p (after_last_slash p) in
  default EmptyString (from_last_dot (drop_dots base)).

(** The nodes [ast.walk] yields, as far as the analyser tells them apart. *)
Inductive ast_node :=
| Import (names : list string)
| ImportFrom (module : option string) (names : list string)
| FunctionDef (name : string)
| ClassDef (name : string)
| OtherNode.

(** How [ast.parse] ends: the nodes of the tree in the order of
    [ast.walk], a [SyntaxError] with its line number and message, or
    another exception. *)
Inductive parsed :=
| Tree (walk : list ast_node)
| SyntaxError (lineno : option nat) (msg : string)
| ParseFailure (e : exn).

(** One item of what [re.findall] returns: a string for a pattern with
    one group, a tuple of the groups for a pattern with several. *)
Inductive re_match :=
| MStr (s : string)
| MTuple (first : string) (others : list string).

Definition strs (l : list string) : pyval := PList (PStr <$> l).

(** The body of the loop of [_extract_dependencies], with the list built
    so far. *)
Fixpoint extract_loop (imports dependencies : list string) : list string :=
  match imports with
  | [] => dependencies
  | imp :: rest =>
      if contains "." imp then
        let main_package := split_head "." imp in
        extract_loop rest
          (if bool_decide (main_package ∈ dependencies) then dependencies
           else dependencies ++ [main_package])
      else
        extract_loop rest
          (if bool_decide (imp ∈ dependencies) then dependencies
           else dependencies ++ [imp])
  end.

Definition _extract_dependencies (imports : list string) : list string :=
  extract_loop imports [].

Definition _validate_typescript_syntax (content : string) : bool :=
  let brace_count := (Z.of_nat (count "{" content) - Z.of_nat (count "}" content))%Z in
  let paren_count := (Z.of_nat (count "(" content) - Z.of_nat (count ")" content))%Z in
  let bracket_count := (Z.of_nat (count "[" content) - Z.of_nat (count "]" content))%Z in
  (brace_count =? 0)%Z && (paren_count =? 0)%Z && (bracket_count =? 0)%Z.

Definition import_patterns : list string :=
  ["import\s+{([^}]+)}\s+from\s+[\'" +:+ DQ +:+ "]([^\'" +:+ DQ +:+ "]+)[\'" +:+ DQ +:+ "]";
   "import\s+(\w+)\s+from\s+[\'" +:+ DQ +:+ "]([^\'" +:+ DQ +:+ "]+)[\'" +:+ DQ +:+ "]";
   "import\s+[\'" +:+ DQ +:+ "]([^\'" +:+ DQ +:+ "]+)[\'" +:+ DQ +:+ "]"].

Definition function_patterns : list string :=
  ["function\s+(\w+)\s*\(";
   "const\s+(\w+)\s*=\s*\([^)]*\)\s*=>";
   "(\w+)\s*:\s*React\.FC";
   "export\s+(?:default\s+)?(?:function\s+)?(\w+)"].

Definition component_patterns : list string :=
  ["function\s+(\w+)\s*\([^)]*\)\s*{";
   "const\s+(\w+)\s*=\s*\([^)]*\)\s*=>\s*{";
   "export\s+default\s+function\s+(\w+)"].

(** What one match adds to the imports. *)
Definition import_items (m : re_match) : list pyval :=
  match m with
  | MTuple first _ => PStr <$> (strip <$> split_on "," first)
  | MStr s => [PStr s]
  end.

(** A match as [extend] stores it. *)
Definition match_val (m : re_match) : pyval :=
  match m with
  | MStr s => PStr s
  | MTuple first others => PList (PStr <$> first :: others)
  end.

(** The items of a value the code walks, when it is a list of strings or
    a string (a dictionary would be walked by its keys; the analyser
    stores lists). *)
Definition iter_strings (v : pyval) : result (list string) :=
  match v with
  | PList l =>
      match mapM (fun x => match x with PStr s => Some s | _ => None end) l with
      | Some ss => Ret ss
      | None => Raise (TypeError "argument of this type is not iterable")
      end
  | PStr s => Ret ((fun c => String c EmptyString) <$> list_ascii_of_string s)
  | _ => Raise (TypeError "object is not iterable")
  end.

Section WithHost.
(** Reading a file as text: [None] when [os.path.exists] says no, else
    the text or the exception of [open] and [read]. *)
Variable open_read : string -> option (result string).
Variable ast_parse : string -> parsed.
(** [re.findall(pattern, content)] *)
Variable re_findall : string -> string -> list re_match.

(** The loop of [_analyze_python_file] over the nodes, with the three
    lists as they stand. *)
Fixpoint walk_nodes (nodes : list ast_node) (imports functions classes : list string)
  : list string * list string * list string :=
  match nodes with
  | [] => (imports, functions, classes)
  | Import names :: rest => walk_nodes rest (imports ++ names) functions classes
  | ImportFrom module names :: rest =>
      let module := default EmptyString module in
      walk_nodes rest (imports ++ ((fun n => module +:+ "." +:+ n) <$> names))
        functions classes
  | FunctionDef n :: rest => walk_nodes rest imports (functions ++ [n]) classes
  | ClassDef n :: rest => walk_nodes rest imports functions (classes ++ [n])
  | OtherNode :: rest => walk_nodes rest imports functions classes
  end.

Definition str_lineno (lineno : option nat) : string :=
  match lineno with
  | Some n => str_nat n
  | None => "None"
  end.

Definition _analyze_python_file (content file_path : string) : dict :=
  let lists :=
    match ast_parse content with
    | Tree walk => (walk_nodes walk [] [] [], [])
    | SyntaxError lineno msg =>
        (([], [], []), ["Syntax error at line " +:+ str_lineno lineno +:+ ": " +:+ msg])
    | ParseFailure e => (([], [], []), ["Analysis error: " +:+ str_exn e])
    end in
  <["file_type" := PStr "python"]>
  (<["imports" := strs (fst (fst (fst lists)))]>
  (<["functions" := strs (snd (fst (fst lists)))]>
  (<["classes" := strs (snd (fst lists))]>
  (<["syntax_errors" := strs (snd lists)]>
  (<["file_path" := PStr file_path]> ∅))))).

Definition _analyze_typescript_file (content file_path : string) : dict :=
  let imports :=
    concat ((fun pattern => concat (import_items <$> re_findall pattern content))
              <$> import_patterns) in
  let functions :=
    concat ((fun pattern => match_val <$> re_findall pattern content) <$> function_patterns) in
  let components :=
    concat ((fun pattern => match_val <$> re_findall pattern content) <$> component_patterns) in
  let syntax_errors :=
    if negb (_validate_typescript_syntax content)
    then ["Potential syntax issues detected"] else [] in
  <["file_type" := PStr "typescript"]>
  (<["imports" := PList imports]>
  (<["functions" := PList functions]>
  (<["components" := PList components]>
  (<["syntax_errors" := strs syntax_errors]>
  (<["file_path" := PStr file_path]> ∅))))).

Definition analyze_file (file_path : string) : M dict :=
  try_catch
    (match open_read file_path with
     | None => ret (<["error" := PStr ("File " +:+ file_path +:+ " does not exist")]> ∅)
     | Some r =>
         content <- lift r ;;
         let file_ext := lower (splitext_ext file_path) in
         if bool_decide (file_ext ∈ [".py"]) then
           ret (_analyze_python_file content file_path)
         else if bool_decide (file_ext ∈ [".ts"; ".tsx"; ".js"; ".jsx"]) then
           ret (_analyze_typescript_file content file_path)
         else
           ret (<["error" := PStr ("Unsupported file type: " +:+ file_ext)]> ∅)
     end)
    (fun e =>
       logger ERROR ("Error analyzing file " +:+ file_path +:+ ": " +:+ str_exn e) ;;
       ret (<["error" := PStr (str_exn e)]> ∅)).

Definition analyze_dependencies (file_path : string) : M dict :=
  analysis <- analyze_file file_path ;;
  match analysis !! "error" with
  | Some _ => ret analysis
  | None =>
      let imports := get analysis "imports" (PList []) in
      imported <- lift (iter_strings imports) ;;
      ret (<["file_path" := PStr file_path]>
           (<["imports" := imports]>
           (<["dependencies" := strs (_extract_dependencies imported)]> ∅)))
  end.

End WithHost.
End CodeAnalyzer.

(* ===================================================================== *)
(** ** tools/fix_applier.py *)
(* ===================================================================== *)

Module FixApplier.
Import Py Eff Agent.

Definition CR : ascii := Ascii.ascii_of_nat 13.

(** What reading in text mode makes of the line ends: a carriage return,
    alone or before a line feed, is read as one line feed. *)
Fixpoint universal_newlines (s : string) : string :=
  match s with
  | EmptyString => EmptyString
  | String c r =>
      if Ascii.eqb c CR then
        match r with
        | String c' r' =>
            if Ascii.eqb c' LF then String LF (universal_newlines r')
            else String LF (universal_newlines r)
        | EmptyString => String LF EmptyString
        end
      else String c (universal_newlines r)
  end.

Section WithHost.
(** The directory the process runs in: the two [open] calls name the
    file by a relative path. *)
Variable cwd : string.

Definition codebase_file : string := os_path_join cwd "codebase_content.txt".

(** [apply_fix] for a patch that is a text.  Files hold text; on POSIX
    nothing is changed when text is written. *)
Definition apply_fix (fix_patch : string) : M bool :=
  files <- read_fs ;;
  match files !! codebase_file with
  | None =>
      raise (FileNotFoundError
               "[Errno 2] No such file or directory: 'codebase_content.txt'")
  | Some stored =>
      let content := universal_newlines stored in
      (if nonempty fix_patch
          && existsb (fun path => contains path fix_patch) ["backend/"; "frontend/"]
       then write_fs (<[codebase_file := content +:+ NL +:+ fix_patch]> files)
       else ret tt) ;;
      ret true
  end.

End WithHost.
End FixApplier.

(* ===================================================================== *)
(** ** tools/static_analyzer.py *)
(* ===================================================================== *)

Module StaticAnalyzer.
Import Py Eff Agent.

(** The values the attributes of a [Config] object hold. *)
Inductive attr_value :=
| AStr (s : string)
| AInt (n : Z)
| AFloat (q : Q).

Section WithHost.
Variable cwd : string.
Variable c : Config.
(** the two attributes of [Config] the record above leaves out *)
Variable api_key : string.
Variable run_timestamp : string.
(** [subprocess.run(args, capture_output=True, text=True)]: the return
    code, or the exception of a program that cannot be started *)
Variable run_process : list string -> gmap string string -> result Z * gmap string string.

(** [getattr(self.config, attr)]: the attributes [Config.__init__] sets. *)
Definition getattr (attr : string) : result attr_value :=
  if String.eqb attr "api_key" then Ret (AStr api_key)
  else if String.eqb attr "model_name" then Ret (AStr (model_name c))
  else if String.eqb attr "max_retries" then Ret (AInt (Z.of_nat (max_retries c)))
  else if String.eqb attr "timeout" then Ret (AInt 120)
  else if String.eqb attr "run_timestamp" then Ret (AStr run_timestamp)
  else if String.eqb attr "temperature" then Ret (AFloat (temperature c))
  else if String.eqb attr "max_output_tokens" then Ret (AInt (max_output_tokens c))
  else if String.eqb attr "top_p" then Ret (AFloat (top_p c))
  else if String.eqb attr "top_k" then Ret (AInt (top_k c))
  else if String.eqb attr "project_root" then Ret (AStr (project_root c))
  else if String.eqb attr "backend_path"
       then Ret (AStr (os_path_join (project_root c) "backend"))
  else if String.eqb attr "frontend_path"
       then Ret (AStr (os_path_join (project_root c) "frontend"))
  else Raise (AttributeError ("'Config' object has no attribute '" +:+ attr +:+ "'")).

(** [v[key]] for a string [key]: no value of an attribute takes one. *)
Definition subscript (v : attr_value) (key : string) : result string :=
  match v with
  | AStr _ => Raise (TypeError "string indices must be integers, not 'str'")
  | AInt _ => Raise (TypeError "'int' object is not subscriptable")
  | AFloat _ => Raise (TypeError "'float' object is not subscriptable")
  end.

Definition temp_code : string := os_path_join cwd "temp_code.py".

Definition run_tool (args : list string) : M Z :=
  fun w =>
    let (r, f) := run_process args (fs w) in
    (r, World (api_calls w) (slept w) (log w) (stdout w) f).

Definition analyze (codebase_content : string) : M bool :=
  try_catch
    (files <- read_fs ;;
     write_fs (<[temp_code := codebase_content]> files) ;;
     tools <- lift (getattr "static_analysis_tools") ;;
     tool <- lift (subscript tools "python") ;;
     returncode <- run_tool [tool; "temp_code.py"] ;;
     files <- read_fs ;;
     match files !! temp_code with
     | None =>
         raise (FileNotFoundError "[Errno 2] No such file or directory: 'temp_code.py'")
     | Some _ =>
         write_fs (delete temp_code files) ;;
         ret (returncode =? 0)%Z
     end)
    (fun _ => ret false).

End WithHost.
End StaticAnalyzer.

(* ===================================================================== *)
(** ** tools/bug_detector.py *)
(* ===================================================================== *)

Module BugDetector.
Import Py Eff BugDefinitions Runner.

(** The items [any] walks: those of a list, the characters of a string,
    the keys of a dictionary (in an order the result of [any] over
    strings does not depend on). *)
Definition iterate (v : pyval) : result (list pyval) :=
  match v with
  | PList l => Ret l
  | PStr s => Ret ((fun c => PStr (String c EmptyString)) <$> list_ascii_of_string s)
  | PDict d => Ret (PStr <$> (map_to_list d).*1)
  | _ => Raise (TypeError "object is not iterable")
  end.

(** [any(pattern in codebase_content for pattern in patterns)]: the
    patterns are tried in order, up to the first that is found. *)
Fixpoint any_in (patterns : list pyval) (codebase_content : string) : result bool :=
  match patterns with
  | [] => Ret false
  | PStr pattern :: rest =>
      if contains pattern codebase_content then Ret true
      else any_in rest codebase_content
  | _ :: _ => Raise (TypeError "'in <string>' requires string as left operand")
  end.

Section WithHost.
Variable H : Host.

(** The loop of [detect_bugs] over the catalog, with the list built so far. *)
Fixpoint detect_loop (catalog : list dict) (codebase_content : string) (bugs : list string)
  : result (list string) :=
  match catalog with
  | [] => Ret bugs
  | bug :: rest =>
      match index bug "name" with Raise e => Raise e | Ret bug_name =>
      match index bug "description" with Raise e => Raise e | Ret bug_description =>
      let bug_full_name := str_val H bug_name +:+ ": " +:+ str_val H bug_description in
      match index bug "patterns" with Raise e => Raise e | Ret patterns =>
      match iterate patterns with Raise e => Raise e | Ret items =>
      match any_in items codebase_content with
      | Raise e => Raise e
      | Ret true => detect_loop rest codebase_content (bugs ++ [bug_full_name])
      | Ret false => detect_loop rest codebase_content bugs
      end end end end end
  end.

(** [detect_bugs] over the catalog as a list of dictionaries. *)
Definition detect_bugs (catalog : list dict) (codebase_content : string)
  : result (list string) :=
  detect_loop catalog codebase_content [].

End WithHost.
End BugDetector.

(* ===================================================================== *)
(** ** inspector.py: the walk *)
(* ===================================================================== *)

Module InspectorWalk.
Import Py Eff Inspector.

(** What opening and reading one file gives. *)
Inductive read_outcome :=
| ReadText (content : string)
| UnicodeDecodeError
| ReadError (e : exn).

Section WithSpec.
(** [spec.match_file] on a relative path *)
Variable match_file : string -> bool.
(** [Path(p).resolve()] as a text *)
Variable resolve : string -> result string.
(** the exception of [open(path, "w", encoding="utf-8")], when it raises
    one *)
Variable open_failure : string -> option exn.



End WithSpec.
End InspectorWalk.

(* ===================================================================== *)
(** ** More machines and APIs to run the model on *)
(* ===================================================================== *)

Module Fixtures.
Import Py Eff BugDefinitions Agent Runner Examples.

(** A prompts.py that answers with an error text instead of a prompt. *)
Definition refusing_env : Env :=
  {| config := config (env_with 5 helpful_api);
     catalog := planted_bugs;
     generate_content_oracle := helpful_api;
     analyze_file := fun _ => Ret ∅;
     generate_enhanced_prompt :=
       fun bug_name _ _ => Ret ("Error: Bug '" +:+ bug_name +:+ "' not found.");
     extract_relevant_files := fun _ _ => Ret EmptyString;
     generate_failure_analysis_prompt := fun bug_name _ _ _ => Ret ("Analyse " +:+ bug_name);
     list_of_set := fun l => l |}.

(** An environment whose [list(set(l))] keeps one copy of each item. *)
Definition tidy_env : Env :=
  {| config := config (env_with 5 helpful_api);
     catalog := planted_bugs;
     generate_content_oracle := helpful_api;
     analyze_file := fun _ => Raise (FileNotFoundError "no such file");
     generate_enhanced_prompt := fun bug_name _ _ => Ret ("Fix " +:+ bug_name);
     extract_relevant_files := fun _ _ => Ret EmptyString;
     generate_failure_analysis_prompt := fun bug_name _ _ _ => Ret ("Analyse " +:+ bug_name);
     list_of_set := remove_dups |}.

(** An API that gives nothing four times and then fails. *)
Definition flaky_api : nat -> request -> api_reply :=
  fun n _ => if (n <? 4)%nat then Replied NoResponse
             else Failed (Exception "503 UNAVAILABLE").

(** A machine on which the two commands run but leave no snapshot. *)
Definition idle_host : Host :=
  {| host_root := host_root ready_host;
     host_agent_dir := host_agent_dir ready_host;
     sys_executable := sys_executable ready_host;
     subprocess_run := fun _ files => (Ret tt, files);
     report_timestamp := report_timestamp ready_host;
     elapsed_seconds := elapsed_seconds ready_host;
     format_rate := format_rate ready_host;
     str_float := str_float ready_host;
     str_container := str_container ready_host;
     process_streams := process_streams ready_host;
     host_api_key := host_api_key ready_host;
     client_failure := None;
     print_failure := print_failure ready_host |}.

(** The outcome of a defect left without a solution, with the analyst's
    advice. *)
Definition advised_outcome : dict :=
  <["bug_name" := PStr "CSRF Token Bug"]>
  (<["status" := PStr "failed_to_generate_solution"]>
  (<["error" := PStr "No response from API after max retries"]>
  (<["generated_code_solution" := PStr ""]>
  (<["ai_suggestions" := PStr "Send the token in the X-CSRFToken header."]> ∅)))).

(** A directory with a snapshot in it. *)
Definition patched_world : world :=
  World 0 [] [] [] (<["/srv/app/codebase_content.txt" := "snapshot"]> ∅).

End Fixtures.

(* ===================================================================== *)
(** * Properties *)
(* ===================================================================== *)

(** ** Facts about the string operations *)

Module PyFacts.
Import Py.

(** A text made of white space only (the empty text included). *)
Fixpoint whitespace_only (s : string) : Prop :=
  match s with
  | EmptyString => True
  | String c r => isspace c = true /\ whitespace_only r
  end.

(** Some line of the text, in the sense of [split_lines], starts with [lit]. *)
Definition has_line_starting (lit s : string) : Prop :=
  exists l, In l (split_lines s) /\ String.prefix lit l = true.

(** [lit] holds no line feed. *)
Fixpoint no_LF (lit : string) : Prop :=
  match lit with
  | EmptyString => True
  | String c r => c <> LF /\ no_LF r
  end.

Lemma lstrip_whitespace_only s : whitespace_only s -> lstrip s = EmptyString.
Proof.
  induction s as [|c r IH]; simpl; [reflexivity|].
  intros [Hc Hr]. rewrite Hc. auto.
Qed.

Lemma strip_whitespace_only s : whitespace_only s -> strip s = EmptyString.
Proof. intros Hs. unfold strip. rewrite lstrip_whitespace_only by exact Hs. reflexivity. Qed.

Lemma rstrip_empty_inv s : rstrip s = EmptyString -> whitespace_only s.
Proof.
  induction s as [|c r IH]; simpl; [trivial|].
  destruct (rstrip r) eqn:Er.
  - destruct (isspace c) eqn:Ec; [|discriminate]. intros _. split; auto.
  - discriminate.
Qed.

Lemma lstrip_empty_inv s : lstrip s = EmptyString -> whitespace_only s.
Proof.
  induction s as [|c r IH]; simpl; [trivial|].
  destruct (isspace c) eqn:Ec; [|discriminate]. intros Hr. split; auto.
Qed.

Lemma lstrip_suffix_space s : whitespace_only (lstrip s) -> whitespace_only s.
Proof.
  induction s as [|c r IH]; simpl; [trivial|].
  destruct (isspace c) eqn:Ec.
  - intros Hr. split; auto.
  - simpl. intros [Hc _]. congruence.
Qed.

Lemma strip_empty_iff s : strip s = EmptyString <-> whitespace_only s.
Proof.
  split; [|apply strip_whitespace_only].
  unfold strip. intros Hs. apply lstrip_suffix_space, rstrip_empty_inv, Hs.
Qed.

Lemma split_lines_cons s : exists l ls, split_lines s = l :: ls.
Proof.
  induction s as [|c r [l [ls IH]]]; simpl; [eauto|].
  destruct (Ascii.eqb c LF); [eauto|]. rewrite IH. eauto.
Qed.

Lemma prefix_first_line lit s l ls :
  no_LF lit -> split_lines s = l :: ls -> String.prefix lit s = String.prefix lit l.
Proof.
  revert s l ls. induction lit as [|a lit IH]; intros s l ls Hlit Hs.
  - destruct s, l; reflexivity.
  - destruct Hlit as [Ha Hlit]. destruct s as [|c r]; simpl in Hs.
    + injection Hs as <- <-. reflexivity.
    + destruct (Ascii.eqb_spec c LF) as [->|Hc].
      * injection Hs as <- <-. simpl. destruct (ascii_dec a LF); congruence.
      * destruct (split_lines_cons r) as [l' [ls' Er]]. rewrite Er in Hs.
        injection Hs as <- <-. simpl. destruct (ascii_dec a c); [|reflexivity].
        eapply IH; eauto.
Qed.

Lemma search_bol_lines lit s bol l ls :
  no_LF lit -> split_lines s = l :: ls ->
  search_bol lit bol s = true <->
  (bol = true /\ String.prefix lit l = true) \/ (exists x, In x ls /\ String.prefix lit x = true).
Proof.
  intros Hlit. revert bol l ls. induction s as [|c r IH]; intros bol l ls Hs.
  - simpl in Hs. injection Hs as <- <-. simpl.
    rewrite orb_false_r, andb_true_iff. split; [auto|].
    intros [H|[x [[] _]]]. exact H.
  - cbn [search_bol]. rewrite orb_true_iff, andb_true_iff.
    rewrite (prefix_first_line lit (String c r) l ls Hlit Hs).
    simpl in Hs. destruct (split_lines_cons r) as [l' [ls' Er]].
    rewrite (IH _ _ _ Er). rewrite Er in Hs.
    destruct (Ascii.eqb c LF) eqn:Ec.
    + injection Hs as <- <-. simpl. split.
      * intros [H|[[_ H]|[x [Hx Hp]]]]; eauto 6.
      * intros [H|[x [[<-|Hx] Hp]]]; eauto 6.
    + injection Hs as <- <-. split.
      * intros [H|[[Hf _]|H]]; auto. discriminate.
      * intros [H|H]; auto.
Qed.

Lemma re_search_line_start_iff lit s :
  no_LF lit -> re_search_line_start lit s = true <-> has_line_starting lit s.
Proof.
  intros Hlit. unfold re_search_line_start, has_line_starting.
  destruct (split_lines_cons s) as [l [ls Es]].
  rewrite (search_bol_lines lit s true l ls Hlit Es), Es. simpl. split.
  - intros [[_ H]|[x [Hx Hp]]]; eauto.
  - intros [x [[<-|Hx] Hp]]; eauto.
Qed.

Lemma search_bol_not_blank lit s bol c0 r0 :
  lit = String c0 r0 -> isspace c0 = false ->
  search_bol lit bol s = true -> ~ whitespace_only s.
Proof.
  intros -> Hc0. revert bol. induction s as [|c r IH]; intros bol.
  - simpl. rewrite andb_false_r. discriminate.
  - cbn [search_bol]. rewrite orb_true_iff, andb_true_iff. simpl.
    intros [[_ Hp]|Hr] [Hc Hws].
    + destruct (ascii_dec c0 c); [subst; congruence | discriminate].
    + exact (IH _ Hr Hws).
Qed.

End PyFacts.

(** ** The fix generator *)

Module AgentFacts.
Import Py Eff BugDefinitions Agent.

(** The verdict of the format validator, without its log record. *)
Definition valid_format (s : string) : bool :=
  nonempty (strip s) && re_search_line_start "File: " s.

(** The snippet an API reply makes [generate_fix] return, if any: the
    reply carries a text and the stripped text passes validation. *)
Definition accepted_snippet (a : api_reply) : option string :=
  match a with
  | Replied r =>
      match response_text r with
      | Some text => if valid_format (strip text) then Some (strip text) else None
      | None => None
      end
  | Failed _ => None
  end.

(** A reply without text: no response object, no text, or the empty text. *)
Definition empty_reply (a : api_reply) : Prop :=
  exists r, a = Replied r /\ response_text r = None.

(** The error [generate_fix] reports when its last attempt got reply [a]
    and [a] was not accepted. *)
Definition failure_message (a : api_reply) : string :=
  match a with
  | Failed e => "API call failed: " +:+ str_exn e
  | Replied r =>
      match response_text r with
      | None => "No response from API after max retries"
      | Some _ => "No valid code snippet generated after max retries"
      end
  end.

(** A prompt [generate_fix] goes on with. *)
Definition usable_prompt (prompt : string) : Prop :=
  contains "Error:" prompt = false /\ nonempty (strip prompt) = true.

Ltac run_eff :=
  unfold bind, ret, raise, lift, try_catch, attempt, logger, sleep, print; simpl.

Section WithEnv.
Variable E : Env.

Lemma validate_run s w :
  exists w', _validate_code_snippet_format s w = (Ret (valid_format s), w')
             /\ api_calls w' = api_calls w.
Proof.
  unfold _validate_code_snippet_format, valid_format.
  destruct (nonempty (strip s)), (re_search_line_start "File: " s),
    (2 <=? count "```" s)%nat; run_eff; eexists; split; reflexivity.
Qed.

(** The dictionary the loop of [analyze_bug] builds: the log apart, it
    depends on the analyser's answers only. *)
Fixpoint static_analysis (paths : list string) (analysis_results : dict) : dict :=
  match paths with
  | [] => analysis_results
  | file_path :: rest =>
      static_analysis rest
        (<[file_path :=
             PDict match analyze_file E (os_path_join (project_root (config E)) file_path) with
                   | Ret a => a
                   | Raise e => <["error" := PStr (str_exn e)]> ∅
                   end]> analysis_results)
  end.

(** What [analyze_bug] returns for a defect [b] of the catalog. *)
Definition analysis_of (b : bug) (codebase_content : string) : dict :=
  <["bug_info" := PDict (bug_dict b)]>
  (<["static_analysis" := PDict (static_analysis (files b) ∅)]>
  (<["context" := PStr codebase_content]> ∅)).

Lemma analyze_files_run paths : forall acc w,
  exists w', analyze_files E paths acc w = (Ret (static_analysis paths acc), w')
             /\ api_calls w' = api_calls w.
Proof.
  induction paths as [|p rest IH]; intros acc w; cbn [analyze_files static_analysis].
  - eexists. split; reflexivity.
  - run_eff. destruct (analyze_file E _) as [a|e]; simpl.
    + destruct (IH (<[p:=PDict a]> acc) w) as (w' & -> & Hc). eauto.
    + match goal with |- context [analyze_files E rest ?a ?w0] =>
        destruct (IH a w0) as (w' & -> & Hc) end. eauto.
Qed.

Lemma analyze_bug_run bug_name content w :
  exists d w', analyze_bug E bug_name content w = (Ret d, w')
    /\ api_calls w' = api_calls w
    /\ match get_bug_by_name (catalog E) bug_name with
       | None => exists msg, d = error_meta msg
       | Some b => d = analysis_of b content
       end.
Proof.
  unfold analyze_bug. run_eff.
  destruct (get_bug_by_name (catalog E) bug_name) as [b|]; simpl.
  - match goal with |- context [analyze_files E ?p ?a ?w0] =>
      destruct (analyze_files_run p a w0) as (w' & -> & Hc) end.
    eexists _, _. split; [reflexivity|]. split; [exact Hc|]. reflexivity.
  - eexists _, _. split; [reflexivity|]. split; [reflexivity|]. eexists. reflexivity.
Qed.

Lemma fix_attempt_run bug_name prompt analysis attempt w :
  attempt < max_retries (config E) ->
  let reply := generate_content_oracle E (api_calls w) (fix_request E prompt) in
  exists s w',
    fix_attempt E bug_name prompt analysis attempt w = (Ret s, w')
    /\ api_calls w' = S (api_calls w)
    /\ s = match accepted_snippet reply with
           | Some code => Return (code, success_meta E bug_name analysis attempt)
           | None => if (S attempt =? max_retries (config E))%nat
                     then Return (EmptyString, error_meta (failure_message reply))
                     else Continue
           end.
Proof.
  intros Hlt reply. unfold fix_attempt.
  set (last := (attempt =? max_retries (config E) - 1)%nat).
  set (more := (attempt <? max_retries (config E) - 1)%nat).
  assert (Hlast : (S attempt =? max_retries (config E))%nat = last).
  { subst last. destruct (Nat.eqb_spec (S attempt) (max_retries (config E)));
      destruct (Nat.eqb_spec attempt (max_retries (config E) - 1)); auto; lia. }
  assert (Hmore : more = negb last).
  { subst more last. destruct (Nat.ltb_spec attempt (max_retries (config E) - 1));
      destruct (Nat.eqb_spec attempt (max_retries (config E) - 1)); auto; lia. }
  rewrite Hlast, Hmore. clearbody last more. clear Hlast Hmore.
  unfold accepted_snippet, failure_message. fold reply.
  unfold try_catch, bind at 1 2, logger at 1, generate_content. cbn [api_calls].
  fold reply. destruct reply as [r|e]; cbn [fst snd].
  - destruct (response_text r) as [text|].
    + unfold bind at 1.
      match goal with |- context [_validate_code_snippet_format ?s ?w0] =>
        destruct (validate_run s w0) as (w1 & -> & Hc) end.
      destruct (valid_format (strip text)), last; run_eff;
        eexists _, _; (split; [reflexivity|]); split; auto.
    + destruct last; run_eff; eexists _, _; (split; [reflexivity|]); split; auto.
  - destruct last; run_eff; eexists _, _; (split; [reflexivity|]); split; auto.
Qed.

Lemma fix_loop_exhausted bug_name prompt analysis remaining : forall attempt w,
  attempt + remaining = max_retries (config E) ->
  (forall i, i < remaining ->
     accepted_snippet (generate_content_oracle E (api_calls w + i) (fix_request E prompt)) = None) ->
  exists msg w',
    fix_loop E bug_name prompt analysis remaining attempt w
      = (Ret (EmptyString, error_meta msg), w')
    /\ api_calls w' = api_calls w + remaining.
Proof.
  induction remaining as [|r IH]; intros attempt w Hsum Hnone.
  - simpl. eexists _, _. split; [reflexivity|]. simpl. lia.
  - cbn [fix_loop]. unfold bind.
    destruct (fix_attempt_run bug_name prompt analysis attempt w) as (s & w1 & -> & Hc & ->);
      [lia|].
    specialize (Hnone 0 ltac:(lia)) as H0. rewrite Nat.add_0_r in H0. rewrite H0.
    destruct (Nat.eqb_spec (S attempt) (max_retries (config E))) as [Heq|Hne].
    + assert (r = 0) by lia. subst r. eexists _, _. split; [reflexivity|]. lia.
    + destruct (IH (S attempt) w1) as (msg & w' & Hrun & Hcalls); [lia| |].
      * intros i Hi. rewrite Hc. specialize (Hnone (S i) ltac:(lia)).
        replace (S (api_calls w) + i) with (api_calls w + S i) by lia. exact Hnone.
      * eexists _, _. split; [exact Hrun|]. lia.
Qed.

Lemma fix_loop_first_accepted bug_name prompt analysis code j : forall remaining attempt w,
  attempt + remaining = max_retries (config E) ->
  j < remaining ->
  (forall i, i < j ->
     accepted_snippet (generate_content_oracle E (api_calls w + i) (fix_request E prompt)) = None) ->
  accepted_snippet (generate_content_oracle E (api_calls w + j) (fix_request E prompt)) = Some code ->
  exists w',
    fix_loop E bug_name prompt analysis remaining attempt w
      = (Ret (code, success_meta E bug_name analysis (attempt + j)), w')
    /\ api_calls w' = api_calls w + S j.
Proof.
  induction j as [|j IH]; intros remaining attempt w Hsum Hj Hnone Hsome;
    (destruct remaining as [|r]; [lia|]); cbn [fix_loop]; unfold bind;
    destruct (fix_attempt_run bug_name prompt analysis attempt w) as (s & w1 & -> & Hc & ->);
    try lia.
  - rewrite Nat.add_0_r in Hsome. rewrite Hsome, Nat.add_0_r.
    eexists. split; [reflexivity|]. lia.
  - specialize (Hnone 0 ltac:(lia)) as H0. rewrite Nat.add_0_r in H0. rewrite H0.
    destruct (Nat.eqb_spec (S attempt) (max_retries (config E))) as [Heq|Hne]; [lia|].
    destruct (IH r (S attempt) w1) as (w' & Hrun & Hcalls); [lia|lia| | |].
    + intros i Hi. rewrite Hc. specialize (Hnone (S i) ltac:(lia)).
      replace (S (api_calls w) + i) with (api_calls w + S i) by lia. exact Hnone.
    + rewrite Hc. replace (S (api_calls w) + j) with (api_calls w + S j) by lia. exact Hsome.
    + eexists. replace (attempt + S j) with (S attempt + j) by lia.
      split; [exact Hrun|]. lia.
Qed.

Lemma accepted_snippet_nonempty a code : accepted_snippet a = Some code -> code <> EmptyString.
Proof.
  unfold accepted_snippet. destruct a as [r|e]; [|discriminate].
  destruct (response_text r) as [text|]; [|discriminate].
  destruct (valid_format (strip text)) eqn:Hv; [|discriminate].
  intros [= <-] Hempty. rewrite Hempty in Hv. discriminate.
Qed.

(** The two shapes of what [generate_fix] returns. *)
Definition failure_shape (code : string) (md : dict) : Prop :=
  code = EmptyString /\ is_Some (md !! "error").

Definition success_shape (code : string) (md : dict) : Prop :=
  code <> EmptyString
  /\ is_Some (md !! "bug_name") /\ is_Some (md !! "analysis")
  /\ is_Some (md !! "attempts") /\ is_Some (md !! "model_used")
  /\ md !! "error" = None.

Lemma error_meta_shape msg : failure_shape EmptyString (error_meta msg).
Proof. split; [reflexivity|]. unfold error_meta. rewrite lookup_insert_eq. eauto. Qed.

Lemma success_meta_dom bug_name analysis attempt :
  dom (success_meta E bug_name analysis attempt)
  = {[ "bug_name"; "analysis"; "attempts"; "model_used" ]}.
Proof. unfold success_meta. rewrite !dom_insert_L, dom_empty_L. set_solver. Qed.

Lemma fix_loop_shape bug_name prompt analysis remaining : forall attempt w,
  attempt + remaining = max_retries (config E) ->
  exists code md w',
    fix_loop E bug_name prompt analysis remaining attempt w = (Ret (code, md), w')
    /\ ((exists msg, code = EmptyString /\ md = error_meta msg)
        \/ (exists n, code <> EmptyString /\ md = success_meta E bug_name analysis n)).
Proof.
  induction remaining as [|r IH]; intros attempt w Hsum.
  - simpl. eexists _, _, _. split; [reflexivity|]. left. eauto.
  - cbn [fix_loop]. unfold bind.
    destruct (fix_attempt_run bug_name prompt analysis attempt w) as (s & w1 & -> & Hc & ->);
      [lia|].
    destruct (accepted_snippet _) as [code|] eqn:Ha.
    + eexists _, _, _. split; [reflexivity|]. right.
      eexists. split; [eapply accepted_snippet_nonempty; eauto | reflexivity].
    + destruct (Nat.eqb_spec (S attempt) (max_retries (config E))) as [Heq|Hne].
      * eexists _, _, _. split; [reflexivity|]. left. eauto.
      * apply IH. lia.
Qed.

Lemma success_meta_shape code bug_name analysis n :
  code <> EmptyString -> success_shape code (success_meta E bug_name analysis n).
Proof.
  intros Hcode. unfold success_shape, success_meta. split; [exact Hcode|].
  repeat split; try (eexists; reflexivity); reflexivity.
Qed.

(** With a known defect and a usable prompt, [generate_fix] is its retry
    loop, entered without any API call made. *)
Lemma generate_fix_enters_loop bug_name content b prompt w :
  get_bug_by_name (catalog E) bug_name = Some b ->
  generate_enhanced_prompt E bug_name content (analysis_of b content) = Ret prompt ->
  usable_prompt prompt ->
  exists w1,
    api_calls w1 = api_calls w
    /\ generate_fix E bug_name content w
       = fix_loop E bug_name prompt (analysis_of b content) (max_retries (config E)) 0 w1.
Proof.
  intros Hb Hprompt [Hno_error Hnonblank]. unfold generate_fix.
  unfold bind at 1 2. unfold logger at 1.
  match goal with |- context [analyze_bug E bug_name content ?w0] =>
    destruct (analyze_bug_run bug_name content w0) as (d & w1 & -> & Hc & Hd) end.
  rewrite Hb in Hd. subst d.
  exists w1. split; [exact Hc|]. unfold analysis_of at 1.
  rewrite lookup_insert_ne by discriminate.
  rewrite lookup_insert_ne by discriminate.
  rewrite lookup_insert_ne by discriminate.
  rewrite lookup_empty, Hprompt, Hno_error, Hnonblank. reflexivity.
Qed.

(** Every run of [generate_fix] ends in a return, in one of two ways. *)
Lemma generate_fix_result (bug_name content : string) (w : world) :
  exists code md w',
    generate_fix E bug_name content w = (Ret (code, md), w')
    /\ ((exists v, code = EmptyString /\ md = <["error" := v]> ∅)
        \/ (exists b n,
              code <> EmptyString
              /\ md = success_meta E bug_name (analysis_of b content) n)).
Proof.
  unfold generate_fix. unfold bind at 1 2. unfold logger at 1.
  match goal with |- context [analyze_bug E bug_name content ?w0] =>
    destruct (analyze_bug_run bug_name content w0) as (d & w1 & -> & _ & Hd) end.
  destruct (get_bug_by_name (catalog E) bug_name) as [b|].
  - subst d. unfold analysis_of at 1.
    rewrite lookup_insert_ne by discriminate.
    rewrite lookup_insert_ne by discriminate.
    rewrite lookup_insert_ne by discriminate.
    rewrite lookup_empty.
    destruct (generate_enhanced_prompt E bug_name content _) as [prompt|e].
    + destruct (contains "Error:" prompt || negb (nonempty (strip prompt))).
      * run_eff. eexists _, _, _. split; [reflexivity|]. left. eauto.
      * match goal with |- context [fix_loop E bug_name prompt ?a ?r 0 w1] =>
          destruct (fix_loop_shape bug_name prompt a r 0 w1 eq_refl)
            as (code & md & w' & -> & Hshape) end.
        eexists _, _, _. split; [reflexivity|].
        destruct Hshape as [(msg & -> & ->)|(n & Hcode & ->)]; [left; eauto|].
        right. eauto.
    + run_eff. eexists _, _, _. split; [reflexivity|]. left. eauto.
  - destruct Hd as [msg ->]. unfold error_meta. rewrite lookup_insert_eq.
    eexists _, _, _. split; [reflexivity|]. left. eauto.
Qed.

End WithEnv.
End AgentFacts.

Module AgentClaims.
Import Py Eff BugDefinitions Agent Runner PyFacts AgentFacts Examples.

Lemma no_LF_File : no_LF "File: ".
Proof. simpl. repeat split; discriminate. Qed.

(** Running the validator: its verdict is [valid_format], and the only
    trace it leaves is the fence warning. *)
Lemma validate_effect s w :
  _validate_code_snippet_format s w =
  (Ret (valid_format s),
   if valid_format s && negb (2 <=? count "```" s)%nat
   then World (api_calls w) (slept w)
          (log w ++ [(WARNING,
             "Generated code snippet might be missing markdown code block fences.")])
          (stdout w) (fs w)
   else w).
Proof.
  unfold _validate_code_snippet_format, valid_format.
  destruct (nonempty (strip s)), (re_search_line_start "File: " s),
    (2 <=? count "```" s)%nat; reflexivity.
Qed.

Lemma valid_format_iff s : valid_format s = true <-> has_line_starting "File: " s.
Proof.
  unfold valid_format. rewrite andb_true_iff, (re_search_line_start_iff _ _ no_LF_File).
  split; [tauto|]. intros Hline. split; [|exact Hline].
  apply (re_search_line_start_iff _ _ no_LF_File) in Hline.
  destruct (strip s) eqn:Hs; [|reflexivity]. exfalso.
  apply strip_empty_iff in Hs. revert Hs.
  exact (search_bol_not_blank "File: " s true "F"%char "ile: " eq_refl eq_refl Hline).
Qed.

(** C6 -- the truth table of [_validate_code_snippet_format].  For every
    text [s]: if [s] is empty or white space only the validator returns
    false; if no line of [s] starts with the six characters of the file
    marker it returns false; if some line does and [s] holds fewer than
    two fences (none, in particular) it returns true and logs one
    warning; if some line does and [s] holds at least two fences it
    returns true and logs nothing. *)
Theorem format_validator_truth_table (s : string) (w : world) :
  (whitespace_only s -> _validate_code_snippet_format s w = (Ret false, w))
  /\ (~ has_line_starting "File: " s -> _validate_code_snippet_format s w = (Ret false, w))
  /\ (has_line_starting "File: " s -> count "```" s < 2 ->
      fst (_validate_code_snippet_format s w) = Ret true
      /\ log (snd (_validate_code_snippet_format s w))
         = log w ++ [(WARNING,
              "Generated code snippet might be missing markdown code block fences.")])
  /\ (has_line_starting "File: " s -> 2 <= count "```" s ->
      _validate_code_snippet_format s w = (Ret true, w)).
Proof.
  rewrite validate_effect. split; [|split; [|split]].
  - intros Hws. assert (Hv : valid_format s = false).
    { unfold valid_format. rewrite (strip_whitespace_only s Hws). reflexivity. }
    rewrite Hv. reflexivity.
  - intros Hno. assert (Hv : valid_format s = false).
    { destruct (valid_format s) eqn:Hv; [|reflexivity].
      exfalso. apply Hno, valid_format_iff, Hv. }
    rewrite Hv. reflexivity.
  - intros Hline Hfences. apply valid_format_iff in Hline. rewrite Hline.
    destruct (Nat.leb_spec 2 (count "```" s)); [lia|]. split; reflexivity.
  - intros Hline Hfences. apply valid_format_iff in Hline. rewrite Hline.
    destruct (Nat.leb_spec 2 (count "```" s)); [reflexivity|lia].
Qed.

(** The five texts of the validator's regression test. *)
Example validator_regression_texts :
  let run s := fst (_validate_code_snippet_format s fresh_world) in
  run (NL +:+ good_snippet +:+ NL) = Ret true
  /\ run (NL +:+ "```typescript" +:+ NL +:+ "  // code here" +:+ NL +:+ "```" +:+ NL) = Ret false
  /\ run (NL +:+ "File: frontend/src/components/TodoList.tsx" +:+ NL
          +:+ "  const handleUpdate = async (id: number, updates: Partial<Todo>) => {" +:+ NL
          +:+ "  // ..." +:+ NL +:+ "  };" +:+ NL) = Ret true
  /\ run EmptyString = Ret false
  /\ run "Hello, here is your fix." = Ret false.
Proof. vm_compute. repeat split. Qed.

(** C4 -- the retry bound.  For a defect of the catalog whose prompt is
    usable, when each of the next [max_retries] API calls answers without
    text, [generate_fix] makes exactly [max_retries] calls and returns the
    empty code with an error in the metadata. *)
Theorem generate_fix_retry_bound (E : Env) (bug_name content prompt : string) (b : bug)
    (w : world) :
  get_bug_by_name (catalog E) bug_name = Some b ->
  generate_enhanced_prompt E bug_name content (analysis_of E b content) = Ret prompt ->
  usable_prompt prompt ->
  (forall i req, i < max_retries (config E) ->
     empty_reply (generate_content_oracle E (api_calls w + i) req)) ->
  exists md w',
    generate_fix E bug_name content w = (Ret (EmptyString, md), w')
    /\ is_Some (md !! "error")
    /\ api_calls w' = api_calls w + max_retries (config E).
Proof.
  intros Hb Hprompt Husable Hempty.
  destruct (generate_fix_enters_loop E bug_name content b prompt w Hb Hprompt Husable)
    as (w1 & Hc & ->).
  destruct (fix_loop_exhausted E bug_name prompt (analysis_of E b content)
              (max_retries (config E)) 0 w1) as (msg & w' & Hrun & Hcalls).
  - reflexivity.
  - intros i Hi. rewrite Hc.
    destruct (Hempty i (fix_request E prompt) Hi) as (r & -> & Hr).
    simpl. rewrite Hr. reflexivity.
  - exists (error_meta msg), w'. split; [exact Hrun|]. split.
    + apply error_meta_shape.
    + lia.
Qed.

Lemma generate_fix_retry_bound_witness :
  max_retries (default_config "/srv/app") = 5
  /\ exists md w',
       generate_fix (env_with 5 silent_api) "CSRF Token Bug" "snapshot" fresh_world
         = (Ret (EmptyString, md), w')
       /\ is_Some (md !! "error")
       /\ api_calls w' = 0 + 5.
Proof.
  split; [reflexivity|].
  apply (generate_fix_retry_bound (env_with 5 silent_api) "CSRF Token Bug" "snapshot"
           "Fix CSRF Token Bug"
           csrf_bug fresh_world).
  - reflexivity.
  - reflexivity.
  - split; reflexivity.
  - intros i req _. exists (Response (Some EmptyString)). split; reflexivity.
Defined.

(** C5 -- early success.  For a defect of the catalog whose prompt is
    usable: if the attempts before the [k]-th were not accepted and the
    [k]-th API call (for any [k] from 1 to [max_retries]) answers with a
    non-empty text whose stripped form passes the format validation,
    then [generate_fix] returns that stripped text with the metadata
    (defect name, analysis context, attempt count [k], model
    identifier), and it has made exactly [k] API calls: there is no
    attempt [k+1]. *)
Theorem generate_fix_early_success (E : Env) (bug_name content prompt text : string)
    (b : bug) (k : nat) (w : world) :
  get_bug_by_name (catalog E) bug_name = Some b ->
  generate_enhanced_prompt E bug_name content (analysis_of E b content) = Ret prompt ->
  usable_prompt prompt ->
  1 <= k <= max_retries (config E) ->
  (forall i, i < k - 1 ->
     accepted_snippet (generate_content_oracle E (api_calls w + i) (fix_request E prompt))
     = None) ->
  generate_content_oracle E (api_calls w + (k - 1)) (fix_request E prompt)
    = Replied (Response (Some text)) ->
  text <> EmptyString ->
  valid_format (strip text) = true ->
  exists md w',
    generate_fix E bug_name content w = (Ret (strip text, md), w')
    /\ md !! "bug_name" = Some (PStr bug_name)
    /\ md !! "analysis" = Some (PDict (analysis_of E b content))
    /\ md !! "attempts" = Some (PInt (Z.of_nat k))
    /\ md !! "model_used" = Some (PStr (model_name (config E)))
    /\ api_calls w' = api_calls w + k.
Proof.
  intros Hb Hprompt Husable Hk Hbefore Hreply Htext Hvalid.
  destruct (generate_fix_enters_loop E bug_name content b prompt w Hb Hprompt Husable)
    as (w1 & Hc & ->).
  set (analysis := analysis_of E b content).
  destruct (fix_loop_first_accepted E bug_name prompt analysis (strip text) (k - 1)
              (max_retries (config E)) 0 w1) as (w' & Hrun & Hcalls).
  - reflexivity.
  - lia.
  - intros i Hi. rewrite Hc. exact (Hbefore i Hi).
  - rewrite Hc, Hreply. simpl. destruct text; [congruence|]. simpl.
    cbn [nonempty]. rewrite Hvalid. reflexivity.
  - exists (success_meta E bug_name analysis (0 + (k - 1))), w'.
    split; [exact Hrun|]. unfold success_meta.
    repeat (split; [reflexivity|]).
    split; [|split; [reflexivity|lia]].
    rewrite lookup_insert_ne by discriminate.
    rewrite lookup_insert_ne by discriminate.
    rewrite lookup_insert_eq. do 2 f_equal. lia.
Qed.

Lemma generate_fix_early_success_witness :
  exists md w',
    generate_fix (env_with 5 third_time_api) "CSRF Token Bug" "snapshot" fresh_world
      = (Ret (strip (NL +:+ good_snippet +:+ NL), md), w')
    /\ md !! "bug_name" = Some (PStr "CSRF Token Bug")
    /\ md !! "analysis"
       = Some (PDict (analysis_of (env_with 5 third_time_api) csrf_bug "snapshot"))
    /\ md !! "attempts" = Some (PInt (Z.of_nat 3))
    /\ md !! "model_used" = Some (PStr "test_model")
    /\ api_calls w' = 0 + 3.
Proof.
  apply (generate_fix_early_success (env_with 5 third_time_api) "CSRF Token Bug" "snapshot"
           "Fix CSRF Token Bug" (NL +:+ good_snippet +:+ NL) csrf_bug 3 fresh_world).
  - reflexivity.
  - reflexivity.
  - split; reflexivity.
  - simpl. lia.
  - intros i Hi. destruct i as [|[|i]]; [reflexivity|reflexivity|simpl in Hi; lia].
  - reflexivity.
  - discriminate.
  - vm_compute. reflexivity.
Defined.

(** C10 -- the two shapes of the result of [generate_fix].  Every call
    returns (it never raises), and what it returns is either the empty
    code with an error key in the metadata, or a non-empty code with the
    keys of a success and no error key, never both; the [try] statement
    of [process_bug], run from the same state, stores that code and sets
    the status to solution_generated exactly when the code is not
    empty. *)
Theorem generate_fix_two_shapes (E : Env) (bug_name content : string) (w : world) :
  exists code md w',
    generate_fix E bug_name content w = (Ret (code, md), w')
    /\ ((failure_shape code md /\ ~ success_shape code md)
        \/ (success_shape code md /\ ~ failure_shape code md))
    /\ exists payload w'',
         generate_solution E bug_name content (initial_payload bug_name) w
           = (Ret payload, w'')
         /\ payload !! "generated_code_solution" = Some (PStr code)
         /\ (payload !! "status" = Some (PStr "solution_generated")
             <-> code <> EmptyString).
Proof.
  destruct (generate_fix_result E bug_name content w) as (code & md & w' & Hrun & Hshape).
  exists code, md, w'. split; [exact Hrun|].
  unfold generate_solution, bind, attempt. rewrite Hrun.
  destruct Hshape as [(v & -> & ->)|(b & n & Hcode & ->)].
  - split.
    + left. split.
      * split; [reflexivity|]. rewrite lookup_insert_eq. eauto.
      * intros [Hne _]. congruence.
    + cbn [nonempty negb]. eexists _, _. split; [reflexivity|]. split.
      * reflexivity.
      * split; [discriminate|congruence].
  - split.
    + right. split.
      * apply success_meta_shape, Hcode.
      * intros [Hempty _]. congruence.
    + destruct code as [|c code]; [congruence|]. cbn [nonempty negb].
      unfold get_fix_summary, success_meta, analysis_of, get, as_dict.
      rewrite lookup_insert_ne by discriminate. rewrite lookup_insert_eq.
      rewrite lookup_insert_eq.
      eexists _, _. split; [reflexivity|]. split.
      * reflexivity.
      * split; [discriminate|reflexivity].
Qed.

End AgentClaims.

(** ** Which computations leave the files alone *)

Module Frame.
Import Py Eff BugDefinitions Agent Runner.

(** A computation that leaves the files as they are, however it ends. *)
Definition keeps_files {A} (m : M A) : Prop := forall w, fs (snd (m w)) = fs w.

Lemma keeps_ret {A} (a : A) : keeps_files (ret a).
Proof. intros w. reflexivity. Qed.

Lemma keeps_raise {A} (e : exn) : keeps_files (@raise A e).
Proof. intros w. reflexivity. Qed.

Lemma keeps_lift {A} (r : result A) : keeps_files (lift r).
Proof. intros w. reflexivity. Qed.

Lemma keeps_logger l msg : keeps_files (logger l msg).
Proof. intros w. reflexivity. Qed.

Lemma keeps_print msg : keeps_files (print msg).
Proof. intros w. reflexivity. Qed.

Lemma keeps_sleep n : keeps_files (sleep n).
Proof. intros w. reflexivity. Qed.

Lemma keeps_bind {A B} (m : M A) (k : A -> M B) :
  keeps_files m -> (forall a, keeps_files (k a)) -> keeps_files (bind m k).
Proof.
  intros Hm Hk w. unfold bind. specialize (Hm w).
  destruct (m w) as [[a|e] w1]; simpl in *; [|exact Hm].
  rewrite (Hk a w1). exact Hm.
Qed.

Lemma keeps_try_catch {A} (m : M A) (h : exn -> M A) :
  keeps_files m -> (forall e, keeps_files (h e)) -> keeps_files (try_catch m h).
Proof.
  intros Hm Hh w. unfold try_catch. specialize (Hm w).
  destruct (m w) as [[a|e] w1]; simpl in *; [exact Hm|].
  rewrite (Hh e w1). exact Hm.
Qed.

Lemma keeps_attempt {A} (m : M A) : keeps_files m -> keeps_files (attempt m).
Proof.
  intros Hm w. unfold attempt. specialize (Hm w). destruct (m w) as [r w1]. exact Hm.
Qed.

Lemma keeps_generate_content E req : keeps_files (generate_content E req).
Proof.
  intros w. unfold generate_content.
  destruct (generate_content_oracle E (api_calls w) req); reflexivity.
Qed.

Create HintDb frame.
#[export] Hint Resolve keeps_ret keeps_raise keeps_lift keeps_logger keeps_print keeps_sleep
  keeps_generate_content : frame.
#[export] Hint Extern 2 (keeps_files (bind _ _)) => apply keeps_bind; [|intros ?] : frame.
#[export] Hint Extern 2 (keeps_files (try_catch _ _)) =>
  apply keeps_try_catch; [|intros ?] : frame.
#[export] Hint Extern 2 (keeps_files (attempt _)) => apply keeps_attempt : frame.
#[export] Hint Extern 3 (keeps_files (if ?b then _ else _)) => destruct b : frame.
#[export] Hint Extern 3 (keeps_files (match ?x with _ => _ end)) => destruct x : frame.

Ltac frame := auto 30 with frame.

Section WithEnv.
Variable E : Env.

Lemma keeps_validate s : keeps_files (_validate_code_snippet_format s).
Proof. unfold _validate_code_snippet_format. frame. Qed.

Lemma keeps_analyze_files paths : forall acc, keeps_files (analyze_files E paths acc).
Proof. induction paths as [|p rest IH]; intros acc; cbn [analyze_files]; frame. Qed.

Lemma keeps_analyze_bug bug_name content : keeps_files (analyze_bug E bug_name content).
Proof. pose proof keeps_analyze_files. unfold analyze_bug. frame. Qed.

Lemma keeps_fix_attempt bug_name prompt analysis attempt :
  keeps_files (fix_attempt E bug_name prompt analysis attempt).
Proof. pose proof keeps_validate. unfold fix_attempt. frame. Qed.

Lemma keeps_fix_loop bug_name prompt analysis remaining : forall attempt,
  keeps_files (fix_loop E bug_name prompt analysis remaining attempt).
Proof.
  pose proof keeps_fix_attempt.
  induction remaining as [|r IH]; intros attempt; cbn [fix_loop]; frame.
Qed.

Lemma keeps_generate_fix bug_name content : keeps_files (generate_fix E bug_name content).
Proof.
  pose proof keeps_analyze_bug. pose proof keeps_fix_loop. unfold generate_fix. frame.
Qed.

Lemma keeps_analysis_attempt bug_name prompt attempt :
  keeps_files (analysis_attempt E bug_name prompt attempt).
Proof. unfold analysis_attempt. frame. Qed.

Lemma keeps_analysis_loop bug_name prompt remaining : forall attempt,
  keeps_files (analysis_loop E bug_name prompt remaining attempt).
Proof.
  pose proof keeps_analysis_attempt.
  induction remaining as [|r IH]; intros attempt; cbn [analysis_loop]; frame.
Qed.

Lemma keeps_failure_analysis bug_name err code content :
  keeps_files (generate_failure_analysis_and_suggestions E bug_name err code content).
Proof.
  pose proof keeps_analysis_loop. unfold generate_failure_analysis_and_suggestions. frame.
Qed.

Lemma keeps_generate_solution bug_name content payload :
  keeps_files (generate_solution E bug_name content payload).
Proof.
  pose proof keeps_generate_fix. unfold generate_solution, on_error. frame.
Qed.

Lemma keeps_add_suggestions bug_name content payload :
  keeps_files (add_suggestions E bug_name content payload).
Proof. pose proof keeps_failure_analysis. unfold add_suggestions. frame. Qed.

(** Working on one defect never touches a file. *)
Lemma keeps_process_bug b content : keeps_files (process_bug E b content).
Proof.
  pose proof keeps_generate_solution. pose proof keeps_add_suggestions.
  unfold process_bug. frame.
Qed.

End WithEnv.
End Frame.

(** ** The run controller *)

Module RunnerFacts.
Import Py Eff BugDefinitions Agent Runner PyFacts AgentFacts Frame.

(** A reply from which the failure analyst gets no text: an exception,
    no response object, no text or the empty text. *)
Definition no_text (a : api_reply) : Prop :=
  match a with
  | Replied r => response_text r = None
  | Failed _ => True
  end.

(** What the failure analyst returns once its attempts are used up. *)
Definition exhausted_analysis : dict :=
  <["analysis" := PStr "Failed to generate intelligent suggestions due to API error."]> ∅.

(** The state in which [process_bug] calls [generate_fix]: the given one
    with the first log record added. *)
Definition entering (b : bug) (w : world) : world :=
  snd (logger INFO ("Processing bug: " +:+ name b) w).

(** The outcome of a defect whose generation failed with metadata [md],
    before the suggestions are added. *)
Definition failed_payload (b : bug) (md : dict) : dict :=
  <["error" := get md "error" (PStr "No code solution generated.")]>
  (<["status" := PStr "failed_to_generate_solution"]>
  (<["generated_code_solution" := PStr EmptyString]> (initial_payload (name b)))).

(** What the failure analyst returns when an attempt gets [text]. *)
Definition suggestions (text : string) : dict :=
  <["analysis" := PStr (strip text)]> (<["success" := PBool true]> ∅).

Lemma index_insert_eq (d : dict) k v : index (<[k := v]> d) k = Ret v.
Proof. unfold index. rewrite lookup_insert_eq. reflexivity. Qed.

Lemma index_insert_ne (d : dict) k k' v : k <> k' -> index (<[k := v]> d) k' = index d k'.
Proof. intros Hne. unfold index. rewrite lookup_insert_ne by exact Hne. reflexivity. Qed.

Lemma no_text_not_accepted a : no_text a -> accepted_snippet a = None.
Proof. destruct a as [r|e]; simpl; [intros ->|]; reflexivity. Qed.

Section WithEnv.
Variable E : Env.

Lemma analysis_attempt_no_text bug_name prompt attempt w :
  no_text (generate_content_oracle E (api_calls w) (analysis_request E prompt)) ->
  exists w', analysis_attempt E bug_name prompt attempt w = (Ret Continue, w')
             /\ api_calls w' = S (api_calls w).
Proof.
  intros Hno. unfold analysis_attempt, try_catch, bind at 1, generate_content.
  destruct (generate_content_oracle E (api_calls w) (analysis_request E prompt)) as [r|e];
    simpl in Hno.
  - rewrite Hno. run_eff. eexists. split; reflexivity.
  - run_eff. eexists. split; reflexivity.
Qed.

Lemma analysis_loop_exhausted bug_name prompt remaining : forall attempt w,
  (forall i, i < remaining ->
     no_text (generate_content_oracle E (api_calls w + i) (analysis_request E prompt))) ->
  exists w', analysis_loop E bug_name prompt remaining attempt w = (Ret exhausted_analysis, w')
             /\ api_calls w' = api_calls w + remaining.
Proof.
  induction remaining as [|r IH]; intros attempt w Hno.
  - run_eff. eexists. split; [reflexivity|]. simpl. lia.
  - cbn [analysis_loop]. unfold bind.
    destruct (analysis_attempt_no_text bug_name prompt attempt w) as (w1 & -> & Hc).
    { specialize (Hno 0 ltac:(lia)). rewrite Nat.add_0_r in Hno. exact Hno. }
    destruct (IH (S attempt) w1) as (w' & Hrun & Hcalls).
    { intros i Hi. rewrite Hc. specialize (Hno (S i) ltac:(lia)).
      replace (S (api_calls w) + i) with (api_calls w + S i) by lia. exact Hno. }
    eexists. split; [exact Hrun|]. lia.
Qed.

(** After a failed generation, an analyst that uses up its attempts makes
    the statements after the [try] raise. *)
Lemma add_suggestions_raises bug_name content payload status err code w :
  payload !! "status" = Some status ->
  eq_str status "solution_generated" = false ->
  payload !! "error" = Some err ->
  payload !! "generated_code_solution" = Some code ->
  (forall files, exists ctx, extract_relevant_files E content files = Ret ctx) ->
  (forall ctx, exists prompt,
     generate_failure_analysis_prompt E bug_name err code ctx = Ret prompt) ->
  (forall i req, i < max_retries (config E) ->
     no_text (generate_content_oracle E (api_calls w + i) req)) ->
  exists w', add_suggestions E bug_name content payload w = (Raise (KeyError "success"), w')
             /\ api_calls w' = api_calls w + max_retries (config E).
Proof.
  intros Hstatus Hneq Herr Hcode Hextract Hprompt Hno.
  unfold add_suggestions, index. rewrite Hstatus, Herr, Hcode.
  unfold bind at 1, lift at 1. rewrite Hneq. cbn [negb].
  unfold bind at 1, lift at 1. unfold bind at 1, lift at 1.
  unfold generate_failure_analysis_and_suggestions.
  unfold bind at 1. unfold bind at 1. unfold logger at 1.
  destruct (Hextract (match get_bug_by_name (catalog E) bug_name with
                      | Some bug_info => files bug_info | None => [] end)) as [ctx ->].
  unfold bind at 1, lift at 1. destruct (Hprompt ctx) as [prompt ->].
  unfold bind at 1, lift at 1.
  match goal with |- context [analysis_loop E bug_name prompt ?r 0 ?w0] =>
    destruct (analysis_loop_exhausted bug_name prompt r 0 w0) as (w' & -> & Hc) end.
  { intros i Hi. apply Hno, Hi. }
  exists w'. split; [reflexivity|exact Hc].
Qed.

Lemma generate_fix_fails_without_accepted bug_name content w :
  (forall n req, accepted_snippet (generate_content_oracle E n req) = None) ->
  exists v w', generate_fix E bug_name content w
               = (Ret (EmptyString, <["error" := v]> ∅), w').
Proof.
  intros Hnone. unfold generate_fix. unfold bind at 1 2. unfold logger at 1.
  match goal with |- context [analyze_bug E bug_name content ?w0] =>
    destruct (analyze_bug_run E bug_name content w0) as (d & w1 & -> & _ & Hd) end.
  destruct (get_bug_by_name (catalog E) bug_name) as [b|].
  - subst d. unfold analysis_of at 1.
    rewrite lookup_insert_ne by discriminate.
    rewrite lookup_insert_ne by discriminate.
    rewrite lookup_insert_ne by discriminate.
    rewrite lookup_empty.
    destruct (generate_enhanced_prompt E bug_name content _) as [prompt|e].
    + destruct (contains "Error:" prompt || negb (nonempty (strip prompt))).
      * run_eff. eexists _, _. reflexivity.
      * match goal with |- context [fix_loop E bug_name prompt ?a ?r 0 w1] =>
          destruct (fix_loop_exhausted E bug_name prompt a r 0 w1 eq_refl)
            as (msg & w' & -> & _) end.
        { intros i _. apply Hnone. }
        eexists _, _. reflexivity.
    + run_eff. eexists _, _. reflexivity.
  - destruct Hd as [msg ->]. unfold error_meta. rewrite lookup_insert_eq.
    eexists _, _. reflexivity.
Qed.

Lemma process_bug_failed_fix b content w md w1 :
  generate_fix E (name b) content (entering b w) = (Ret (EmptyString, md), w1) ->
  process_bug E b content w = add_suggestions E (name b) content (failed_payload b md) w1.
Proof.
  intros Hfix. unfold process_bug. unfold bind at 1 2. unfold logger at 1.
  unfold generate_solution, bind at 1, attempt.
  change (World (api_calls w) (slept w) (log w ++ [(INFO, "Processing bug: " +:+ name b)])
            (stdout w) (fs w)) with (entering b w).
  rewrite Hfix. reflexivity.
Qed.

Lemma analysis_attempt_text bug_name prompt attempt w r text :
  generate_content_oracle E (api_calls w) (analysis_request E prompt) = Replied r ->
  response_text r = Some text ->
  exists w', analysis_attempt E bug_name prompt attempt w = (Ret (Return (suggestions text)), w')
             /\ api_calls w' = S (api_calls w).
Proof.
  intros Hreply Htext. unfold analysis_attempt, try_catch, bind at 1, generate_content.
  rewrite Hreply, Htext. run_eff. eexists. split; reflexivity.
Qed.

Lemma analysis_loop_first_text bug_name prompt r text j : forall remaining attempt w,
  j < remaining ->
  (forall i, i < j ->
     no_text (generate_content_oracle E (api_calls w + i) (analysis_request E prompt))) ->
  generate_content_oracle E (api_calls w + j) (analysis_request E prompt) = Replied r ->
  response_text r = Some text ->
  exists w', analysis_loop E bug_name prompt remaining attempt w = (Ret (suggestions text), w')
             /\ api_calls w' = api_calls w + S j.
Proof.
  induction j as [|j IH]; intros remaining attempt w Hj Hno Hreply Htext;
    (destruct remaining as [|rem]; [lia|]); cbn [analysis_loop]; unfold bind.
  - rewrite Nat.add_0_r in Hreply.
    destruct (analysis_attempt_text bug_name prompt attempt w r text Hreply Htext)
      as (w1 & -> & Hc).
    eexists. split; [reflexivity|]. lia.
  - destruct (analysis_attempt_no_text bug_name prompt attempt w) as (w1 & -> & Hc).
    { specialize (Hno 0 ltac:(lia)). rewrite Nat.add_0_r in Hno. exact Hno. }
    destruct (IH rem (S attempt) w1) as (w' & Hrun & Hcalls); [lia| | |exact Htext|].
    + intros i Hi. rewrite Hc. specialize (Hno (S i) ltac:(lia)).
      replace (S (api_calls w) + i) with (api_calls w + S i) by lia. exact Hno.
    + rewrite Hc. replace (S (api_calls w) + j) with (api_calls w + S j) by lia.
      exact Hreply.
    + eexists. split; [exact Hrun|]. lia.
Qed.

(** After a failed generation, an analyst that gets a text in one of its
    attempts has it stored, stripped, as the suggestions. *)
Lemma add_suggestions_stores bug_name content payload status err code r text j w :
  payload !! "status" = Some status ->
  eq_str status "solution_generated" = false ->
  payload !! "error" = Some err ->
  payload !! "generated_code_solution" = Some code ->
  (forall files, exists ctx, extract_relevant_files E content files = Ret ctx) ->
  (forall ctx, exists prompt,
     generate_failure_analysis_prompt E bug_name err code ctx = Ret prompt) ->
  j < max_retries (config E) ->
  (forall i req, i < j -> no_text (generate_content_oracle E (api_calls w + i) req)) ->
  (forall req, generate_content_oracle E (api_calls w + j) req = Replied r) ->
  response_text r = Some text ->
  exists w', add_suggestions E bug_name content payload w
             = (Ret (<["ai_suggestions" := PStr (strip text)]> payload), w')
             /\ api_calls w' = api_calls w + S j.
Proof.
  intros Hstatus Hneq Herr Hcode Hextract Hprompt Hj Hno Hreply Htext.
  unfold add_suggestions, index. rewrite Hstatus, Herr, Hcode.
  unfold bind at 1, lift at 1. rewrite Hneq. cbn [negb].
  unfold bind at 1, lift at 1. unfold bind at 1, lift at 1.
  unfold generate_failure_analysis_and_suggestions.
  unfold bind at 1. unfold bind at 1. unfold logger at 1.
  destruct (Hextract (match get_bug_by_name (catalog E) bug_name with
                      | Some bug_info => files bug_info | None => [] end)) as [ctx ->].
  unfold bind at 1, lift at 1. destruct (Hprompt ctx) as [prompt ->].
  unfold bind at 1, lift at 1.
  match goal with |- context [analysis_loop E bug_name prompt ?n 0 ?w0] =>
    destruct (analysis_loop_first_text bug_name prompt r text j n 0 w0)
      as (w' & -> & Hc) end; try assumption.
  - intros i Hi. apply Hno, Hi.
  - apply Hreply.
  - exists w'. split; [reflexivity|exact Hc].
Qed.

End WithEnv.

(** When no API call yields a text and prompts.py builds its prompts,
    [process_bug] raises [KeyError] on the analyst's record. *)
Lemma process_bug_without_text (E : Env) (b : bug) (content : string) (w : world) :
  (forall n req, no_text (generate_content_oracle E n req)) ->
  (forall files, exists ctx, extract_relevant_files E content files = Ret ctx) ->
  (forall err code ctx, exists prompt,
     generate_failure_analysis_prompt E (name b) err code ctx = Ret prompt) ->
  exists w', process_bug E b content w = (Raise (KeyError "success"), w').
Proof.
  intros Hno Hextract Hprompt.
  unfold process_bug. unfold bind at 1 2. unfold logger at 1.
  unfold generate_solution, bind at 1, attempt.
  match goal with |- context [generate_fix E (name b) content ?w0] =>
    destruct (generate_fix_fails_without_accepted E (name b) content w0)
      as (v & w1 & ->) end.
  { intros n req. apply no_text_not_accepted, Hno. }
  cbn [nonempty negb]. unfold ret at 1.
  match goal with |- context [add_suggestions E (name b) content ?p w1] =>
    destruct (add_suggestions_raises E (name b) content p
                (PStr "failed_to_generate_solution")
                (get (<["error" := v]> ∅) "error" (PStr "No code solution generated."))
                (PStr EmptyString) w1)
      as (w' & -> & _) end; try reflexivity.
  - exact Hextract.
  - intros ctx. apply Hprompt.
  - intros i req _. apply Hno.
  - eexists. reflexivity.
Qed.

End RunnerFacts.

Module ReportFacts.
Import Py Eff BugDefinitions Agent Runner PyFacts AgentFacts Frame RunnerFacts.

(** An outcome as [process_bug] builds it when it returns: a solution
    with its summary, or a failure with its suggestions. *)
Definition solved_outcome (p : dict) : Prop :=
  p !! "status" = Some (PStr "solution_generated")
  /\ exists code summary files,
       p !! "generated_code_solution" = Some (PStr code)
       /\ p !! "fix_summary" = Some (PDict summary)
       /\ summary !! "files_affected" = Some (PList (PStr <$> files)).

Definition failed_outcome (p : dict) : Prop :=
  p !! "status" = Some (PStr "failed_to_generate_solution")
  /\ exists code suggestions,
       p !! "generated_code_solution" = Some (PStr code)
       /\ p !! "ai_suggestions" = Some (PStr suggestions).

Definition outcome (p : dict) : Prop :=
  (exists bug_name, p !! "bug_name" = Some (PStr bug_name))
  /\ (solved_outcome p \/ failed_outcome p).

(** A list of report lines that are all strings. *)
Definition all_str (lines : list pyval) : Prop := exists ss, lines = PStr <$> ss.

Lemma all_str_nil : all_str [].
Proof. exists []. reflexivity. Qed.

Lemma all_str_cons s lines : all_str lines -> all_str (PStr s :: lines).
Proof. intros [ss ->]. exists (s :: ss). reflexivity. Qed.

Lemma all_str_app l1 l2 : all_str l1 -> all_str l2 -> all_str (l1 ++ l2).
Proof. intros [s1 ->] [s2 ->]. exists (s1 ++ s2). rewrite fmap_app. reflexivity. Qed.

Create HintDb report.
#[export] Hint Resolve all_str_nil all_str_cons all_str_app : report.

Lemma mapM_strings (ss : list string) :
  mapM (fun x => match x with PStr s => Some s | _ => None end) (PStr <$> ss) = Some ss.
Proof. induction ss as [|s ss IH]; [reflexivity|]. cbn. rewrite IH. reflexivity. Qed.

Lemma join_lines_strings lines : all_str lines -> exists text, join_lines lines = Ret text.
Proof. intros [ss ->]. unfold join_lines. rewrite mapM_strings. eauto. Qed.

Lemma join_val_strings sep ss : join_val sep (PList (PStr <$> ss)) = Ret (join sep ss).
Proof. unfold join_val. rewrite mapM_strings. reflexivity. Qed.

Section WithEnv.
Variable E : Env.
Variable H : Host.

Lemma report_section_outcome i p :
  outcome p -> exists lines, report_section H i p = Ret lines /\ all_str lines.
Proof.
  intros [[bug_name Hname] [[Hstatus (code & summary & files & Hcode & Hsum & Hfiles)]
                           |[Hstatus (code & sug & Hcode & Hsug)]]];
    unfold report_section, index, get; rewrite Hname, Hstatus; cbn [upper_val eq_str].
  - rewrite Hsum. cbn [as_dict]. rewrite Hfiles, join_val_strings, Hcode.
    eexists. split; [reflexivity|]. cbn [app]. auto 20 with report.
  - cbn [String.eqb Ascii.eqb Bool.eqb]. rewrite Hcode, Hsug.
    eexists. split; [reflexivity|].
    destruct (truthy (PStr code)), (truthy (PStr sug)); cbn [app]; auto 20 with report.
Qed.

Lemma report_sections_outcomes bug_results : forall i,
  Forall outcome bug_results ->
  exists lines, report_sections H i bug_results = Ret lines /\ all_str lines.
Proof.
  induction bug_results as [|p rest IH]; intros i Hall; cbn [report_sections].
  - eexists. split; [reflexivity|]. auto with report.
  - inversion Hall as [|? ? Hp Hrest]; subst.
    destruct (report_section_outcome i p Hp) as (l1 & -> & Hl1).
    destruct (IH (S i) Hrest) as (l2 & -> & Hl2).
    eexists. split; [reflexivity|]. auto with report.
Qed.

Lemma count_solution_generated_outcomes bug_results :
  Forall outcome bug_results -> exists n, count_solution_generated bug_results = Ret n.
Proof.
  induction 1 as [|p rest [_ [[Hs _]|[Hs _]]] _ [n IH]]; cbn [count_solution_generated];
    [eauto| |]; unfold index; rewrite Hs, IH; eauto.
Qed.

(** On outcomes as [process_bug] returns them, at least one of them,
    the report is produced. *)
Lemma generate_report_outcomes bug_results :
  bug_results <> [] -> Forall outcome bug_results ->
  exists report, generate_report E H bug_results = Ret report.
Proof.
  intros Hne Hall. unfold generate_report.
  destruct (count_solution_generated_outcomes bug_results Hall) as [n ->].
  destruct bug_results as [|p rest]; [congruence|]. cbn [length].
  destruct (report_sections_outcomes (p :: rest) 1 Hall) as (lines & -> & Hlines).
  apply join_lines_strings. unfold report_footer.
  destruct (0 <? _)%nat; cbn [app]; auto 40 with report.
Qed.

End WithEnv.
End ReportFacts.

Module LoopFacts.
Import Py Eff BugDefinitions Agent Runner PyFacts AgentFacts Frame RunnerFacts ReportFacts.

(** The outcome [p] is the one of the defect [b]. *)
Definition outcome_of (b : bug) (p : dict) : Prop :=
  p !! "bug_name" = Some (PStr (name b)) /\ outcome p.

Lemma append_inv_head (a x y : string) : a +:+ x = a +:+ y -> x = y.
Proof.
  induction a as [|c a IH]; [exact id|]. intros Heq. apply IH.
  change (String c (a +:+ x) = String c (a +:+ y)) in Heq. congruence.
Qed.

Lemma os_path_join_differs root (x y : string) :
  String.prefix "/" x = false -> String.prefix "/" y = false -> x <> y ->
  os_path_join root x <> os_path_join root y.
Proof.
  intros Hx Hy Hne. unfold os_path_join. rewrite Hx, Hy.
  destruct root as [|c root]; [exact Hne|].
  destruct (String.eqb _ "/"); intros Heq; apply append_inv_head in Heq;
    [|apply (append_inv_head "/") in Heq]; contradiction.
Qed.

(** An API every call of which yields some text. *)
Definition talkative (E : Env) : Prop :=
  forall n req, exists r text,
    generate_content_oracle E n req = Replied r /\ response_text r = Some text.

(** prompts.py builds the analyst's prompt without raising. *)
Definition analyst_prompts_built (E : Env) (content : string) : Prop :=
  (forall files, exists ctx, extract_relevant_files E content files = Ret ctx)
  /\ (forall bug_name err code ctx, exists prompt,
        generate_failure_analysis_prompt E bug_name err code ctx = Ret prompt).

Section WithAgent.
Variable E : Env.

(** After a failed generation, an analyst whose first call gets a text
    stores it and returns. *)
Lemma add_suggestions_returns bug_name content payload status err code w :
  payload !! "status" = Some status ->
  eq_str status "solution_generated" = false ->
  payload !! "error" = Some err ->
  payload !! "generated_code_solution" = Some code ->
  1 <= max_retries (config E) -> talkative E -> analyst_prompts_built E content ->
  exists text w', add_suggestions E bug_name content payload w
                  = (Ret (<["ai_suggestions" := PStr text]> payload), w').
Proof.
  intros Hstatus Hneq Herr Hcode Hretries Htalk [Hextract Hprompt].
  unfold add_suggestions, index. rewrite Hstatus, Herr, Hcode.
  unfold bind at 1, lift at 1. rewrite Hneq. cbn [negb].
  unfold bind at 1, lift at 1. unfold bind at 1, lift at 1.
  unfold generate_failure_analysis_and_suggestions.
  unfold bind at 1. unfold bind at 1. unfold logger at 1.
  destruct (Hextract (match get_bug_by_name (catalog E) bug_name with
                      | Some bug_info => files bug_info | None => [] end)) as [ctx ->].
  unfold bind at 1, lift at 1. destruct (Hprompt bug_name err code ctx) as [prompt ->].
  unfold bind at 1, lift at 1.
  match goal with |- context [analysis_loop E bug_name prompt ?n 0 ?w0] =>
    destruct (Htalk (api_calls w0 + 0) (analysis_request E prompt)) as (r & text & Hr & Ht);
    destruct (analysis_loop_first_text E bug_name prompt r text 0 n 0 w0)
      as (w' & -> & Hc) end; try assumption; try lia.
  exists (strip text), w'. reflexivity.
Qed.

Lemma bug_dict_files (b : bug) : bug_dict b !! "files" = Some (PList (PStr <$> files b)).
Proof. reflexivity. Qed.

Lemma get_fix_summary_files bug_name code b content n :
  exists summary files,
    get_fix_summary E bug_name code (success_meta E bug_name (analysis_of E b content) n)
    = Ret summary
    /\ summary !! "files_affected" = Some (PList (PStr <$> files)).
Proof.
  unfold get_fix_summary, success_meta, analysis_of, get, as_dict.
  rewrite lookup_insert_ne by discriminate. rewrite lookup_insert_eq.
  rewrite lookup_insert_eq, bug_dict_files.
  destruct (negb (truthy (PList (PStr <$> files b)))); eexists _, _; split; reflexivity.
Qed.

Lemma process_bug_solved b b' content w code n w1 :
  code <> EmptyString ->
  generate_fix E (name b) content (entering b w)
  = (Ret (code, success_meta E (name b) (analysis_of E b' content) n), w1) ->
  exists p, process_bug E b content w = (Ret p, w1)
            /\ p !! "bug_name" = Some (PStr (name b)) /\ solved_outcome p.
Proof.
  intros Hcode Hfix. unfold process_bug. unfold bind at 1 2. unfold logger at 1.
  unfold generate_solution, bind at 1, attempt.
  change (World (api_calls w) (slept w) (log w ++ [(INFO, "Processing bug: " +:+ name b)])
            (stdout w) (fs w)) with (entering b w).
  rewrite Hfix. destruct code as [|c code]; [congruence|]. cbn [nonempty negb].
  destruct (get_fix_summary_files (name b) (String c code) b' content n)
    as (summary & files & -> & Hfiles).
  unfold ret at 1. unfold add_suggestions, index.
  rewrite lookup_insert_ne by discriminate. rewrite lookup_insert_eq.
  unfold bind at 1, lift at 1.
  eexists. split; [reflexivity|]. split; [reflexivity|]. split; [reflexivity|].
  exists (String c code), summary, files.
  split; [reflexivity|]. split; [reflexivity|exact Hfiles].
Qed.

(** With a talkative API, at least one attempt allowed and the analyst's
    prompts built, [process_bug] returns an outcome for every defect. *)
Lemma process_bug_returns b content w :
  1 <= max_retries (config E) -> talkative E -> analyst_prompts_built E content ->
  exists p w', process_bug E b content w = (Ret p, w')
               /\ p !! "bug_name" = Some (PStr (name b)) /\ outcome p.
Proof.
  intros Hretries Htalk [Hextract Hprompt].
  destruct (generate_fix_result E (name b) content (entering b w))
    as (code & md & w1 & Hfix & [(v & -> & ->)|(b' & n & Hcode & ->)]).
  - rewrite (process_bug_failed_fix E b content w _ w1 Hfix).
    destruct (add_suggestions_returns (name b) content (failed_payload b (<["error" := v]> ∅))
                (PStr "failed_to_generate_solution")
                (get (<["error" := v]> ∅) "error" (PStr "No code solution generated."))
                (PStr EmptyString) w1) as (text & w' & ->);
      try reflexivity; try assumption; try (split; assumption).
    eexists _, w'. split; [reflexivity|]. split; [reflexivity|].
    split; [eexists; reflexivity|]. right. split; [reflexivity|].
    exists EmptyString, text. split; reflexivity.
  - destruct (process_bug_solved b b' content w code n w1 Hcode Hfix) as (p & -> & Hn & Hs).
    exists p, w1. split; [reflexivity|]. split; [exact Hn|]. split; [eauto|left; exact Hs].
Qed.

End WithAgent.

Section WithEnv.
Variable E : Env.
Variable H : Host.

Lemma report_path_is_not_the_snapshot : codebase_content_path E <> report_path E.
Proof.
  apply os_path_join_differs; [reflexivity|reflexivity|discriminate].
Qed.

Lemma keeps_run_loop bugs content : forall bug_results results,
  keeps_files (run_loop E H bugs content bug_results results).
Proof.
  pose proof (keeps_process_bug E).
  induction bugs as [|b rest IH]; intros bug_results results; cbn [run_loop]; frame.
Qed.

(** With a talkative API the loop of [run] gets through the catalog:
    one outcome per defect, in the order of the catalog, and counters
    that add up. *)
Lemma run_loop_returns content bugs : forall bug_results results w,
  1 <= max_retries (config E) -> talkative E -> analyst_prompts_built E content ->
  exists outcomes generated results' w',
    run_loop E H bugs content bug_results results w
    = (Ret (bug_results ++ outcomes, results'), w')
    /\ Forall2 outcome_of bugs outcomes
    /\ count_solution_generated outcomes = Ret generated
    /\ generated <= length bugs
    /\ bugs_processed results' = bugs_processed results + length bugs
    /\ bugs_fixed results' = bugs_fixed results + generated
    /\ bugs_failed results' = bugs_failed results + (length bugs - generated).
Proof.
  induction bugs as [|b rest IH]; intros bug_results results w Hretries Htalk Hprompts.
  - exists [], 0, results, w. cbn [run_loop length]. rewrite app_nil_r.
    repeat split; try reflexivity; try constructor; lia.
  - cbn [run_loop]. unfold bind at 1 2. unfold print at 1.
    match goal with |- context [process_bug E b content ?w0] =>
      destruct (process_bug_returns E b content w0 Hretries Htalk Hprompts)
        as (p & w1 & -> & Hname & Hout) end.
    assert (Hstatus : exists status, p !! "status" = Some (PStr status)).
    { destruct Hout as [_ [[Hs _]|[Hs _]]]; eauto. }
    destruct Hstatus as [status Hstatus].
    unfold index. rewrite Hstatus. unfold bind at 1, lift at 1.
    cbn [upper_val]. unfold bind at 1, lift at 1. unfold bind at 1, print at 1.
    unfold bind at 1.
    match goal with |- context [run_loop E H rest content ?rs ?r0] =>
      set (results1 := r0) end.
    match goal with
    | |- context [(if ?g then ?m1 else ?m2) ?w0] =>
        assert (Hmid : exists w2, (if g then m1 else m2) w0 = (Ret tt, w2))
    end.
    { destruct (eq_str (PStr status) "solution_generated"); [eexists; reflexivity|].
      run_eff. destruct (truthy _); eexists; reflexivity. }
    destruct Hmid as [w2 ->].
    destruct (IH (bug_results ++ [p]) results1 w2 Hretries Htalk Hprompts)
      as (outcomes & generated & results' & w' & -> & Hall & Hcount & Hle & Hp & Hf & Hd).
    exists (p :: outcomes),
           (if eq_str (PStr status) "solution_generated" then S generated else generated),
           results', w'.
    rewrite <- app_assoc. split; [reflexivity|].
    split; [constructor; [split; assumption|exact Hall]|].
    split; [cbn [count_solution_generated]; unfold index; rewrite Hstatus, Hcount;
            reflexivity|].
    subst results1. cbn [bugs_processed bugs_fixed bugs_failed length] in *.
    destruct (eq_str (PStr status) "solution_generated"); repeat split; lia.
Qed.

(** With a catalog that is not empty and a talkative API, the second
    part of [run] gets to its end: every defect has its outcome, in
    catalog order, the report built from these outcomes is in its file,
    and the verdict is the one of the failed counter. *)
Theorem run_reaches_report content w :
  catalog E <> [] ->
  1 <= max_retries (config E) -> talkative E -> analyst_prompts_built E content ->
  exists outcomes results report w',
    process_and_report E H content initial_results w
    = (Ret (bool_decide (bugs_failed results = 0), results), w')
    /\ Forall2 outcome_of (catalog E) outcomes
    /\ generate_report E H outcomes = Ret report
    /\ fs w' !! report_path E = Some report
    /\ bugs_processed results = length (catalog E)
    /\ bugs_fixed results + bugs_failed results = length (catalog E).
Proof.
  intros Hcatalog Hretries Htalk Hprompts.
  unfold process_and_report, get_all_bugs. unfold bind at 1 2. unfold logger at 1.
  match goal with |- context [run_loop E H (catalog E) content [] initial_results ?w0] =>
    destruct (run_loop_returns content (catalog E) [] initial_results w0
                Hretries Htalk Hprompts)
      as (outcomes & generated & results & w1 & -> & Hall & Hcount & Hle & Hp & Hf & Hd)
  end.
  cbn [app fst snd bugs_processed bugs_fixed bugs_failed initial_results] in *.
  assert (Hlen : length outcomes = length (catalog E))
    by (symmetry; exact (Forall2_length _ _ _ Hall)).
  destruct (generate_report_outcomes E H outcomes) as [report Hreport].
  { intros ->. destruct (catalog E); [congruence|discriminate]. }
  { clear -Hall. induction Hall as [|b p bs ps [_ Hp] _ IH]; constructor; assumption. }
  unfold bind at 1, lift at 1. rewrite Hreport.
  unfold bind at 1, read_fs at 1. unfold bind at 1, write_fs at 1.
  unfold bind at 1, logger at 1. unfold bind at 1, logger at 1.
  unfold bind at 1, lift at 1.
  destruct (bugs_processed results) as [|n] eqn:Hprocessed.
  { destruct (catalog E); [congruence|cbn [length] in Hp; lia]. }
  unfold bind at 1, logger at 1. unfold bind at 1, read_fs at 1. cbn [fs].
  unfold bind at 1.
  exists outcomes, results, report.
  match goal with |- context [match ?m !! ?k with _ => _ end] =>
    destruct (m !! k) end; run_eff; eexists; (split; [reflexivity|]);
    (split; [exact Hall|]); (split; [exact Hreport|]); cbn [fs].
  - rewrite lookup_delete_ne by apply report_path_is_not_the_snapshot.
    rewrite lookup_insert_eq. split; [reflexivity|]. lia.
  - rewrite lookup_insert_eq. split; [reflexivity|]. lia.
Qed.

End WithEnv.
End LoopFacts.

Module RunnerClaims.
Import Py Eff BugDefinitions Agent Runner PyFacts AgentFacts Frame RunnerFacts ReportFacts
  LoopFacts Examples.

(** C1 -- what the code does where the claim promises a placeholder.
    For every defect whose fix generation fails (the empty code comes
    back, whatever the reason) and whose failure analyst gets no text in
    any of its [max_retries] attempts, with prompts.py building its
    prompts: [process_bug] does not return an outcome.  The analyst's
    record has no success flag, reading it raises [KeyError], and the
    exception leaves [process_bug] once the analyst's calls are made. *)
Theorem process_bug_raises_when_analyst_fails (E : Env) (b : bug) (content : string)
    (w : world) (md : dict) (w1 : world) :
  generate_fix E (name b) content (entering b w) = (Ret (EmptyString, md), w1) ->
  (forall files, exists ctx, extract_relevant_files E content files = Ret ctx) ->
  (forall err code ctx, exists prompt,
     generate_failure_analysis_prompt E (name b) err code ctx = Ret prompt) ->
  (forall i req, i < max_retries (config E) ->
     no_text (generate_content_oracle E (api_calls w1 + i) req)) ->
  exists w', process_bug E b content w = (Raise (KeyError "success"), w')
             /\ api_calls w' = api_calls w1 + max_retries (config E).
Proof.
  intros Hfix Hextract Hprompt Hno.
  rewrite (process_bug_failed_fix E b content w md w1 Hfix).
  apply (add_suggestions_raises E (name b) content (failed_payload b md)
           (PStr "failed_to_generate_solution")
           (get md "error" (PStr "No code solution generated."))
           (PStr EmptyString) w1); try reflexivity.
  - exact Hextract.
  - intros ctx. apply Hprompt.
  - exact Hno.
Qed.

Lemma process_bug_raises_when_analyst_fails_witness :
  exists w', process_bug (env_with 5 silent_api) csrf_bug "snapshot" fresh_world
             = (Raise (KeyError "success"), w')
             /\ api_calls w' = 10.
Proof.
  destruct (process_bug_raises_when_analyst_fails (env_with 5 silent_api) csrf_bug
              "snapshot" fresh_world
              (error_meta "No response from API after max retries")
              (snd (generate_fix (env_with 5 silent_api) "CSRF Token Bug" "snapshot"
                      (entering csrf_bug fresh_world))))
    as (w' & Hrun & Hcalls).
  - vm_compute. reflexivity.
  - intros files. exists EmptyString. reflexivity.
  - intros err code ctx. exists "Analyse CSRF Token Bug". reflexivity.
  - intros i req _. reflexivity.
  - exists w'. split; [exact Hrun|]. rewrite Hcalls. vm_compute. reflexivity.
Defined.

(** The other side: when one of the analyst's attempts gets a text, the
    outcome is returned with the failed status, the error of the
    generation and the analyst's text, stripped, as suggestions. *)
Theorem process_bug_stores_suggestions (E : Env) (b : bug) (content : string)
    (w : world) (md : dict) (w1 : world) (j : nat) (r : response) (text : string) :
  generate_fix E (name b) content (entering b w) = (Ret (EmptyString, md), w1) ->
  (forall files, exists ctx, extract_relevant_files E content files = Ret ctx) ->
  (forall err code ctx, exists prompt,
     generate_failure_analysis_prompt E (name b) err code ctx = Ret prompt) ->
  j < max_retries (config E) ->
  (forall i req, i < j -> no_text (generate_content_oracle E (api_calls w1 + i) req)) ->
  (forall req, generate_content_oracle E (api_calls w1 + j) req = Replied r) ->
  response_text r = Some text ->
  exists payload w',
    process_bug E b content w = (Ret payload, w')
    /\ payload !! "bug_name" = Some (PStr (name b))
    /\ payload !! "status" = Some (PStr "failed_to_generate_solution")
    /\ payload !! "error" = Some (get md "error" (PStr "No code solution generated."))
    /\ payload !! "generated_code_solution" = Some (PStr EmptyString)
    /\ payload !! "ai_suggestions" = Some (PStr (strip text))
    /\ api_calls w' = api_calls w1 + S j.
Proof.
  intros Hfix Hextract Hprompt Hj Hno Hreply Htext.
  rewrite (process_bug_failed_fix E b content w md w1 Hfix).
  destruct (add_suggestions_stores E (name b) content (failed_payload b md)
              (PStr "failed_to_generate_solution")
              (get md "error" (PStr "No code solution generated."))
              (PStr EmptyString) r text j w1) as (w' & -> & Hcalls);
    try reflexivity; try assumption.
  - intros ctx. apply Hprompt.
  - eexists _, w'. split; [reflexivity|]. repeat split; try reflexivity. exact Hcalls.
Qed.

Lemma process_bug_stores_suggestions_witness :
  exists payload w',
    process_bug (env_with 5 late_api) csrf_bug "snapshot" fresh_world = (Ret payload, w')
    /\ payload !! "status" = Some (PStr "failed_to_generate_solution")
    /\ payload !! "ai_suggestions" = Some (PStr good_snippet)
    /\ api_calls w' = 6.
Proof.
  destruct (process_bug_stores_suggestions (env_with 5 late_api) csrf_bug "snapshot"
              fresh_world
              (error_meta "No response from API after max retries")
              (snd (generate_fix (env_with 5 late_api) "CSRF Token Bug" "snapshot"
                      (entering csrf_bug fresh_world)))
              0 (Response (Some good_snippet)) good_snippet)
    as (payload & w' & Hrun & _ & Hstatus & _ & _ & Hsuggestions & Hcalls).
  - vm_compute. reflexivity.
  - intros files. exists EmptyString. reflexivity.
  - intros err code ctx. exists "Analyse CSRF Token Bug". reflexivity.
  - simpl. lia.
  - intros i req Hi. lia.
  - intros req. reflexivity.
  - reflexivity.
  - exists payload, w'. split; [exact Hrun|]. split; [exact Hstatus|].
    split; [rewrite Hsuggestions; vm_compute; reflexivity|].
    rewrite Hcalls. vm_compute. reflexivity.
Defined.

(** The same failing input, run: five calls for the fix, five for the
    analysis, then the exception. *)
Example process_bug_failing_input :
  let r := process_bug (env_with 5 silent_api) csrf_bug "snapshot" fresh_world in
  fst r = Raise (KeyError "success") /\ api_calls (snd r) = 10.
Proof. vm_compute. split; reflexivity. Qed.

(** C3 -- what the code does on the empty outcome sequence: the success
    percentage divides by the number of outcomes, and [generate_report]
    raises [ZeroDivisionError] instead of returning a report.  The empty
    sequence is the only one, among the sequences of outcomes as
    [process_bug] returns them, without a report. *)
Theorem generate_report_empty_raises (E : Env) (H : Host) :
  generate_report E H [] = Raise ZeroDivisionError
  /\ (forall bug_results,
        bug_results <> [] -> Forall outcome bug_results ->
        exists report, generate_report E H bug_results = Ret report).
Proof.
  split.
  - reflexivity.
  - intros bug_results Hne Hall. exact (generate_report_outcomes E H bug_results Hne Hall).
Qed.

(** C2 -- what the code does when generation and failure analysis both
    fail.  With a catalog that is not empty, an API that never yields a
    text and prompts.py building its prompts, the second part of [run]
    does not reach the report: the loop stops at the first defect with
    the [KeyError] of [process_bug], and the files are as they were, so
    no report has been written. *)
Theorem run_aborts_when_analyst_fails (E : Env) (H : Host) (content : string)
    (results : Results) (w : world) :
  catalog E <> [] ->
  (forall n req, no_text (generate_content_oracle E n req)) ->
  (forall files, exists ctx, extract_relevant_files E content files = Ret ctx) ->
  (forall bug_name err code ctx, exists prompt,
     generate_failure_analysis_prompt E bug_name err code ctx = Ret prompt) ->
  exists w',
    process_and_report E H content results w = (Raise (KeyError "success"), w')
    /\ fs w' = fs w.
Proof.
  intros Hcatalog Hno Hextract Hprompt.
  unfold process_and_report, get_all_bugs. unfold bind at 1 2. unfold logger at 1.
  destruct (catalog E) as [|b rest]; [congruence|].
  cbn [run_loop]. unfold bind at 1 2. unfold print at 1.
  match goal with |- context [process_bug E b content ?w0] =>
    pose proof (keeps_process_bug E b content w0) as Hfiles;
    destruct (process_bug_without_text E b content w0 Hno Hextract (Hprompt (name b)))
      as (w' & Hrun) end.
  rewrite Hrun in Hfiles |- *. exists w'. split; [reflexivity|exact Hfiles].
Qed.

Lemma run_aborts_when_analyst_fails_witness :
  exists w',
    process_and_report (runner_env ready_host (env_with 5 silent_api)) ready_host
      "snapshot of the code base" initial_results fresh_world
    = (Raise (KeyError "success"), w')
    /\ fs w' = fs fresh_world.
Proof.
  apply (run_aborts_when_analyst_fails (runner_env ready_host (env_with 5 silent_api))
           ready_host "snapshot of the code base" initial_results fresh_world).
  - discriminate.
  - intros n req. reflexivity.
  - intros files. exists EmptyString. reflexivity.
  - intros bug_name err code ctx. exists ("Analyse " +:+ bug_name). reflexivity.
Defined.

(** The whole run on that input: the exception leaves [run] after ten
    API calls, no report exists, and the process ends with status 1. *)
Example run_failing_input :
  let E := runner_env ready_host (env_with 5 silent_api) in
  let r := run E ready_host initial_results fresh_world in
  fst r = Raise (KeyError "success")
  /\ fs (snd r) !! report_path E = None
  /\ api_calls (snd r) = 10
  /\ fst (main ready_host (env_with 5 silent_api) fresh_world) = 1%Z.
Proof. vm_compute. repeat split. Qed.

Lemma run_reaches_report_witness :
  exists outcomes results report w',
    process_and_report (runner_env ready_host (env_with 5 helpful_api)) ready_host
      "snapshot of the code base" initial_results fresh_world
    = (Ret (bool_decide (bugs_failed results = 0), results), w')
    /\ Forall2 outcome_of planted_bugs outcomes
    /\ generate_report (runner_env ready_host (env_with 5 helpful_api)) ready_host outcomes
       = Ret report
    /\ fs w' !! report_path (runner_env ready_host (env_with 5 helpful_api)) = Some report
    /\ bugs_processed results = 5
    /\ bugs_fixed results + bugs_failed results = 5.
Proof.
  apply (run_reaches_report (runner_env ready_host (env_with 5 helpful_api)) ready_host
           "snapshot of the code base" fresh_world).
  - discriminate.
  - simpl. lia.
  - intros n req. exists (Response (Some good_snippet)), good_snippet. split; reflexivity.
  - split.
    + intros files. exists EmptyString. reflexivity.
    + intros bug_name err code ctx. exists ("Analyse " +:+ bug_name). reflexivity.
Defined.

(** A run that gets through its second part returns the verdict of the
    failed counter; the loop and the report were completed. *)
Lemma process_and_report_result (E : Env) (H : Host) content r0 w b r w' :
  process_and_report E H content r0 w = (Ret (b, r), w') ->
  b = bool_decide (bugs_failed r = 0)
  /\ exists bug_results w0 w1 report,
       run_loop E H (catalog E) content [] r0 w0 = (Ret (bug_results, r), w1)
       /\ generate_report E H bug_results = Ret report.
Proof.
  unfold process_and_report. unfold bind at 1 2. unfold logger at 1.
  unfold get_all_bugs.
  match goal with |- context [run_loop E H (catalog E) content [] r0 ?w0] =>
    set (wl := w0); destruct (run_loop E H (catalog E) content [] r0 wl)
      as [[[bug_results r1]|e] w1] eqn:Hloop end; [|discriminate].
  cbn [fst snd]. unfold bind at 1, lift at 1.
  destruct (generate_report E H bug_results) as [report|e] eqn:Hreport; [|discriminate].
  unfold bind at 1, read_fs at 1. unfold bind at 1, write_fs at 1.
  unfold bind at 1, logger at 1. unfold bind at 1, logger at 1.
  unfold bind at 1, lift at 1.
  destruct (bugs_processed r1); [discriminate|].
  unfold bind at 1, logger at 1. unfold bind at 1, read_fs at 1. cbn [fs].
  unfold bind at 1.
  match goal with |- context [match ?m !! ?k with _ => _ end] =>
    destruct (m !! k) end; run_eff; intros [= <- <- <-];
    (split; [reflexivity|]); exists bug_results, wl, w1, report; auto.
Qed.

(** The exit status in full.  The process ends with status 0 exactly
    when the runner was built, the preparation gave a snapshot, the run
    got through its loop and its report with the failed counter at zero,
    and the closing message could be printed; in every other case the
    status is 1. *)
Lemma exit_status_cases (H : Host) (P : Env) (w : world) :
  let E := runner_env H P in
  let status := fst (main H P w) in
  (status = 0%Z <->
     exists w0 content w1 b r w2,
       init_runner H w = (Ret tt, w0)
       /\ prepare E H w0 = (Ret (Some content), w1)
       /\ process_and_report E H content initial_results w1 = (Ret (b, r), w2)
       /\ bugs_failed r = 0
       /\ print_failure H success_message = None)
  /\ (status <> 0%Z -> status = 1%Z).
Proof.
  intros E status.
  assert (Hverdict : forall content r0 w1 b r w2,
             process_and_report E H content r0 w1 = (Ret (b, r), w2) ->
             (b = true <-> bugs_failed r = 0)).
  { intros content r0 w1 b r w2 Hrun.
    destruct (process_and_report_result E H content r0 w1 b r w2 Hrun) as [-> _].
    rewrite bool_decide_eq_true. reflexivity. }
  split.
  - subst status. unfold main, bind at 1. fold E. split.
    + destruct (init_runner H w) as [[[]|e] w0] eqn:Hinit; [|discriminate].
      unfold run, bind at 1.
      destruct (prepare E H w0) as [[[content|]|e] w1] eqn:Hprep;
        [|discriminate|discriminate].
      destruct (process_and_report E H content initial_results w1)
        as [[[[|] r]|e] w2] eqn:Hrun; [|discriminate|discriminate].
      unfold print_on.
      destruct (print_failure H success_message) as [e|] eqn:Hprint; [discriminate|].
      intros _. exists w0, content, w1, true, r, w2.
      split; [reflexivity|]. split; [exact Hprep|]. split; [exact Hrun|].
      split; [|reflexivity]. apply (Hverdict _ _ _ _ _ _ Hrun). reflexivity.
    + intros (w0 & content & w1 & b & r & w2 & -> & Hprep & Hrun & Hzero & Hprint).
      apply (Hverdict _ _ _ _ _ _ Hrun) in Hzero. subst b.
      unfold run, bind at 1. rewrite Hprep, Hrun. unfold print_on. rewrite Hprint.
      reflexivity.
  - subst status. unfold main.
    destruct ((init_runner H ;; run (runner_env H P) H initial_results)%eff w)
      as [[[[|] r]|e] w']; cbn [fst]; [|congruence|congruence].
    destruct (print_on H success_message w') as [[[]|e] w'']; cbn [fst]; congruence.
Qed.

(** C7 -- what the code does when the closing message cannot be
    printed.  The message [main] prints before [sys.exit(0)] starts with
    characters outside ASCII.  On a machine whose standard output
    cannot take it, a run that was prepared, got through its loop and
    its report and ended with the failed counter at zero returns true,
    and the process still ends with status 1: the exception of [print]
    leaves [main] before [sys.exit(0)] is reached.  The report is
    written and the snapshot removed as the run left them. *)
Theorem exit_status_one_when_message_unprintable (H : Host) (P : Env)
    (w w0 w1 w2 : world) (content : string) (b : bool) (r : Results) :
  init_runner H w = (Ret tt, w0) ->
  prepare (runner_env H P) H w0 = (Ret (Some content), w1) ->
  process_and_report (runner_env H P) H content initial_results w1 = (Ret (b, r), w2) ->
  bugs_failed r = 0 ->
  is_Some (print_failure H success_message) ->
  b = true /\ main H P w = (1%Z, w2).
Proof.
  intros Hinit Hprep Hrun Hzero [e Hprint].
  destruct (process_and_report_result _ H content initial_results w1 b r w2 Hrun) as [Hb _].
  assert (Htrue : b = true) by (rewrite Hb; apply bool_decide_eq_true; exact Hzero).
  clear Hb. subst b. split; [reflexivity|].
  unfold main, bind at 1. rewrite Hinit. unfold run, bind at 1. rewrite Hprep, Hrun.
  unfold print_on. rewrite Hprint. reflexivity.
Qed.

Lemma exit_status_one_when_message_unprintable_witness :
  exists r w2,
    process_and_report (runner_env ascii_console_host (env_with 5 helpful_api))
      ascii_console_host "snapshot of the code base" initial_results
      (snd (prepare (runner_env ascii_console_host (env_with 5 helpful_api))
              ascii_console_host (snd (init_runner ascii_console_host fresh_world))))
    = (Ret (true, r), w2)
    /\ bugs_failed r = 0
    /\ main ascii_console_host (env_with 5 helpful_api) fresh_world = (1%Z, w2).
Proof.
  pose (E := runner_env ascii_console_host (env_with 5 helpful_api)).
  pose (w0 := snd (init_runner ascii_console_host fresh_world)).
  pose (w1 := snd (prepare E ascii_console_host w0)).
  pose (done := process_and_report E ascii_console_host "snapshot of the code base"
                  initial_results w1).
  pose (r := match fst done with Ret (_, r) => r | Raise _ => initial_results end).
  exists r, (snd done).
  assert (Hrun : done = (Ret (true, r), snd done)) by (vm_compute; reflexivity).
  split; [exact Hrun|]. split; [vm_compute; reflexivity|].
  apply (exit_status_one_when_message_unprintable ascii_console_host (env_with 5 helpful_api)
           fresh_world w0 w1 (snd done) "snapshot of the code base" true r).
  - vm_compute. reflexivity.
  - vm_compute. reflexivity.
  - exact Hrun.
  - vm_compute. reflexivity.
  - vm_compute. eexists. reflexivity.
Defined.

(** The ways a process ends: all solutions generated, one defect left
    unsolved with the analyst at work, no credential at all, and all
    solutions generated in front of a console that takes ASCII only. *)
Example exit_status_examples :
  fst (main ready_host (env_with 5 helpful_api) fresh_world) = 0%Z
  /\ fst (main ready_host (env_with 5 late_api) fresh_world) = 1%Z
  /\ fst (main keyless_host (env_with 5 helpful_api) fresh_world) = 1%Z
  /\ fst (main ascii_console_host (env_with 5 helpful_api) fresh_world) = 1%Z.
Proof. vm_compute. repeat split. Qed.

End RunnerClaims.

(** ** The prompt builder and the context loader *)

Module PromptFacts.
Import Py BugDefinitions Inspector Prompts PyFacts.

(** A file the inspector can frame without ambiguity: its path is one
    line, and no line of its text is the header line. *)
Definition plain_file (f : string * string) : Prop :=
  no_LF (fst f) /\ Forall (fun l => l <> HEADER_LINE) (split_lines (snd f)).

Lemma append_nil_l (s : string) : EmptyString +:+ s = s.
Proof. reflexivity. Qed.

Lemma append_cons (c : ascii) (a s : string) : String c a +:+ s = String c (a +:+ s).
Proof. reflexivity. Qed.

Lemma prefix_app (v post : string) : String.prefix v (v +:+ post) = true.
Proof.
  induction v as [|c v IH]; simpl; [destruct post; reflexivity|].
  destruct (ascii_dec c c); [exact IH|congruence].
Qed.

Lemma contains_prefix (v s : string) : String.prefix v s = true -> contains v s = true.
Proof. intros Hp. destruct s; cbn [contains]; rewrite Hp; reflexivity. Qed.

Lemma contains_app (pre v post : string) : contains v (pre +:+ v +:+ post) = true.
Proof.
  induction pre as [|c pre IH].
  - rewrite append_nil_l. apply contains_prefix, prefix_app.
  - rewrite append_cons. cbn [contains]. rewrite IH. apply orb_true_r.
Qed.

Lemma contains_app_r (pre v s : string) : contains v s = true -> contains v (pre +:+ s) = true.
Proof.
  intros Hs. induction pre as [|c pre IH]; [exact Hs|].
  rewrite append_cons. cbn [contains]. rewrite IH. apply orb_true_r.
Qed.

Lemma append_assoc (a b c : string) : (a +:+ b) +:+ c = a +:+ (b +:+ c).
Proof.
  induction a as [|x a IH]; [reflexivity|]. rewrite !append_cons, IH. reflexivity.
Qed.

Lemma append_empty_r (a : string) : a +:+ EmptyString = a.
Proof. induction a as [|x a IH]; [reflexivity|]. rewrite append_cons, IH. reflexivity. Qed.

(** A place of the layout that has a value shows that value in the text. *)
Lemma render_fill_contains values t p v :
  In (Hole p) t -> values p = Some v -> contains v (render (fill values t)) = true.
Proof.
  intros Hin Hv. induction t as [|s t IH]; [destruct Hin|].
  destruct Hin as [->|Hin].
  - cbn. rewrite Hv. cbn.
    rewrite <- (append_empty_r (v +:+ _)), append_assoc.
    apply (contains_app EmptyString).
  - specialize (IH Hin). unfold fill in *. rewrite fmap_cons.
    destruct s as [s|q]; [|destruct (values q)]; cbn [render]; apply contains_app_r, IH.
Qed.

Lemma unresolved_fill values t :
  (forall p, is_Some (values p)) -> unresolved (fill values t) = [].
Proof.
  intros Hall. induction t as [|s t IH]; [reflexivity|].
  unfold fill, unresolved in *. rewrite fmap_cons. cbn [omap list_omap].
  destruct s as [s|p]; [exact IH|].
  destruct (Hall p) as [v ->]. exact IH.
Qed.

Lemma render_no_holes t : unresolved t = [] -> forall p, ~ In (Hole p) t.
Proof.
  induction t as [|s t IH]; intros Hu p; [intros []|].
  destruct s as [s|q]; cbn in Hu; [|discriminate].
  intros [Heq|Hin]; [discriminate|]. exact (IH Hu p Hin).
Qed.

Lemma split_lines_app (a b : string) :
  split_lines (a +:+ NL +:+ b) = split_lines a ++ split_lines b.
Proof.
  induction a as [|c a IH].
  - reflexivity.
  - rewrite append_cons. cbn [split_lines]. rewrite IH.
    destruct (Ascii.eqb c LF); [reflexivity|].
    destruct (split_lines_cons a) as (l & ls & ->). reflexivity.
Qed.

Lemma split_lines_single (l : string) : no_LF l -> split_lines l = [l].
Proof.
  induction l as [|c l IH]; [reflexivity|]. intros [Hc Hl].
  cbn [split_lines]. rewrite (IH Hl).
  destruct (Ascii.eqb_spec c LF); [contradiction|reflexivity].
Qed.

Lemma split_lines_no_LF (s : string) : Forall no_LF (split_lines s).
Proof.
  induction s as [|c s IH]; [repeat constructor|].
  cbn [split_lines]. destruct (Ascii.eqb_spec c LF) as [->|Hc].
  - constructor; [exact I|exact IH].
  - destruct (split_lines s) as [|l ls]; [repeat constructor; exact Hc|].
    inversion IH; subst. constructor; [split; assumption|assumption].
Qed.

Lemma no_LF_app (a b : string) : no_LF a -> no_LF b -> no_LF (a +:+ b).
Proof.
  induction a as [|c a IH]; [intros _ Hb; exact Hb|].
  intros [Hc Ha] Hb. rewrite append_cons. split; [exact Hc|exact (IH Ha Hb)].
Qed.

Lemma no_LF_app_inv_r (a b : string) : no_LF (a +:+ b) -> no_LF b.
Proof.
  induction a as [|c a IH]; [intros Hb; exact Hb|].
  rewrite append_cons. intros [_ Hab]. exact (IH Hab).
Qed.

Lemma no_LF_HEADER_LINE : no_LF HEADER_LINE.
Proof. unfold HEADER_LINE. cbn. repeat split; discriminate. Qed.

Lemma HEADER_LINE_not_empty : HEADER_LINE <> EmptyString.
Proof. discriminate. Qed.

Lemma substring_all (s : string) : String.substring 0 (String.length s) s = s.
Proof. induction s as [|c s IH]; [reflexivity|]. cbn. rewrite IH. reflexivity. Qed.

(** A line that starts with the file marker is the marker and a path. *)
Lemma file_line_path (p : string) :
  String.substring 6 (String.length ("File: " +:+ p) - 6) ("File: " +:+ p) = p.
Proof.
  rewrite !append_cons, append_nil_l. cbn [String.length Nat.sub String.substring].
  rewrite Nat.sub_0_r. apply substring_all.
Qed.

Lemma prefix_split (lit l : string) :
  String.prefix lit l = true ->
  l = lit +:+ String.substring (String.length lit) (String.length l - String.length lit) l.
Proof.
  revert l. induction lit as [|c lit IH]; intros l Hp.
  - cbn. rewrite Nat.sub_0_r, substring_all. reflexivity.
  - destruct l as [|d l]; [discriminate|]. cbn in Hp.
    destruct (ascii_dec c d) as [->|]; [|discriminate].
    rewrite append_cons. cbn [String.length String.substring Nat.sub].
    rewrite <- (IH l Hp). reflexivity.
Qed.

Lemma scan_skip l rest : l <> HEADER_LINE -> scan_headers (l :: rest) = scan_headers rest.
Proof.
  intros Hl. destruct rest as [|f [|h2 rest3]]; [reflexivity|reflexivity|].
  cbn [scan_headers]. destruct (String.eqb_spec l HEADER_LINE); [contradiction|reflexivity].
Qed.

Lemma scan_skip_all ls rest :
  Forall (fun l => l <> HEADER_LINE) ls -> scan_headers (ls ++ rest) = scan_headers rest.
Proof.
  induction 1 as [|l ls Hl _ IH]; [reflexivity|].
  rewrite <- app_comm_cons, scan_skip by exact Hl. exact IH.
Qed.

Lemma scan_triple p rest :
  scan_headers (HEADER_LINE :: ("File: " +:+ p) :: HEADER_LINE :: rest) = p :: scan_headers rest.
Proof.
  cbn [scan_headers]. rewrite String.eqb_refl, prefix_app, file_line_path. reflexivity.
Qed.

Lemma file_block_lines p c rest :
  no_LF p ->
  split_lines (file_block p c +:+ rest)
  = [HEADER_LINE; "File: " +:+ p; HEADER_LINE; EmptyString]
    ++ split_lines c ++ [EmptyString] ++ split_lines rest.
Proof.
  intros Hp.
  assert (Hshape : file_block p c +:+ rest
                   = HEADER_LINE +:+ NL +:+ (("File: " +:+ p) +:+ NL +:+ (HEADER_LINE +:+ NL
                     +:+ (EmptyString +:+ NL +:+ (c +:+ NL +:+ (EmptyString +:+ NL +:+ rest)))))).
  { unfold file_block, FILE_SEPARATOR. rewrite !append_assoc. reflexivity. }
  rewrite Hshape, !split_lines_app.
  rewrite (split_lines_single HEADER_LINE no_LF_HEADER_LINE).
  rewrite (split_lines_single ("File: " +:+ p)).
  - reflexivity.
  - apply no_LF_app; [|exact Hp]. cbn. repeat split; discriminate.
Qed.

(** On a snapshot written by the inspector from plain files, the headers
    found are the paths of the files, in the order of the walk. *)
Lemma headers_of_snapshot walked :
  Forall plain_file walked -> headers_of (snapshot walked) = walked.*1.
Proof.
  unfold headers_of. induction 1 as [|[p c] walked [Hp Hc] _ IH]; [reflexivity|].
  cbn [snapshot fmap list_fmap fst]. simpl in Hp, Hc.
  rewrite (file_block_lines p c _ Hp). cbn [app].
  rewrite scan_triple, scan_skip by (symmetry; exact HEADER_LINE_not_empty).
  rewrite scan_skip_all by exact Hc. cbn [app].
  rewrite scan_skip by (symmetry; exact HEADER_LINE_not_empty).
  rewrite IH. reflexivity.
Qed.

End PromptFacts.

Module PromptClaims.
Import Py BugDefinitions Inspector Prompts PyFacts PromptFacts Examples.

(** A text without the opening brace. *)
Definition lacks_brace (s : string) : bool :=
  forallb (fun c => negb (Ascii.eqb c "{")) (list_ascii_of_string s).

Lemma token_no_LF (p : placeholder) : no_LF (token p).
Proof. destruct p; cbn; repeat split; discriminate. Qed.

Lemma token_brace (p : placeholder) : exists rest, token p = String "{" rest.
Proof. destruct p; eexists; reflexivity. Qed.

(** A text of one line that starts a text with a line feed in it starts
    the part before the line feed. *)
Lemma prefix_before_LF (t : string) : forall x rest,
  no_LF t -> String.prefix t (x +:+ NL +:+ rest) = true -> String.prefix t x = true.
Proof.
  induction t as [|c t IH]; intros x rest Ht Hp; [destruct x; reflexivity|].
  destruct Ht as [Hc Ht]. destruct x as [|d x].
  - rewrite append_nil_l in Hp. change (NL +:+ rest) with (String LF rest) in Hp.
    cbn in Hp. destruct (ascii_dec c LF); [contradiction|discriminate].
  - rewrite append_cons in Hp. cbn in Hp |- *.
    destruct (ascii_dec c d); [|discriminate]. exact (IH x rest Ht Hp).
Qed.

Lemma contains_before_LF (t a b : string) :
  no_LF t -> contains t (a +:+ NL +:+ b) = true ->
  contains t a = true \/ contains t b = true.
Proof.
  intros Ht. induction a as [|c a IH]; intros Hc.
  - rewrite append_nil_l in Hc. change (NL +:+ b) with (String LF b) in Hc.
    cbn [contains] in Hc. apply orb_true_iff in Hc as [Hp|Hb]; [|right; exact Hb].
    left. apply contains_prefix. apply (prefix_before_LF t EmptyString b Ht). exact Hp.
  - rewrite append_cons in Hc. cbn [contains] in Hc.
    apply orb_true_iff in Hc as [Hp|Hrest].
    + left. apply contains_prefix.
      apply (prefix_before_LF t (String c a) b Ht). rewrite append_cons. exact Hp.
    + destruct (IH Hrest) as [Ha|Hb]; [left|right; exact Hb].
      cbn [contains]. rewrite Ha. apply orb_true_r.
Qed.

(** A text that starts with a brace is not found in a text without one,
    nor across its end. *)
Lemma contains_after_literal (rest L v : string) :
  lacks_brace L = true ->
  contains (String "{" rest) (L +:+ v) = contains (String "{" rest) v.
Proof.
  induction L as [|c L IH]; intros HL; [reflexivity|].
  unfold lacks_brace in HL. cbn [list_ascii_of_string forallb] in HL.
  apply andb_true_iff in HL as [Hc HL].
  rewrite append_cons. cbn [contains]. rewrite (IH HL).
  replace (String.prefix (String "{" rest) (String c (L +:+ v))) with false; [reflexivity|].
  cbn [String.prefix]. destruct (ascii_dec "{" c) as [<-|]; [discriminate|reflexivity].
Qed.

(** One step through the prompt: a token found in a literal without
    braces, a value, and what follows from the next line on is found in
    the value or in what follows. *)
Lemma token_peel (p : placeholder) (L v L' rest : string) :
  lacks_brace L = true ->
  contains (token p) (L +:+ v +:+ (NL +:+ L') +:+ rest) = true ->
  contains (token p) v = true \/ contains (token p) (L' +:+ rest) = true.
Proof.
  intros HL Hc.
  replace (L +:+ v +:+ (NL +:+ L') +:+ rest) with ((L +:+ v) +:+ NL +:+ (L' +:+ rest)) in Hc
    by (rewrite !append_assoc; reflexivity).
  apply (contains_before_LF _ _ _ (token_no_LF p)) in Hc as [Hv|Hrest]; [left|right; exact Hrest].
  destruct (token_brace p) as [t Ht]. rewrite Ht in *.
  rewrite contains_after_literal in Hv by exact HL. exact Hv.
Qed.

Lemma contains_brace (rest v : string) :
  contains (String "{" rest) v = true -> contains "{" v = true.
Proof.
  induction v as [|c v IH]; cbn [contains]; intros Hc.
  - discriminate.
  - apply orb_true_iff in Hc as [Hp|Hv].
    + cbn [String.prefix] in Hp |- *. destruct (ascii_dec "{" c); [|discriminate].
      destruct v; reflexivity.
    + rewrite (IH Hv). apply orb_true_r.
Qed.

Ltac in_values := repeat first [apply list_elem_of_here | apply list_elem_of_further].

(** C8 -- prompt completeness, for the Prompt Builder as section 4.2
    describes it.  For every defect record, guidance and excerpts, the
    returned text holds the defect's name, description, root cause, fix
    summary and comma-joined list of affected files, each right after
    its label; and wherever the text of one of the seven placeholder
    tokens stands in the returned text, it stands inside one of the
    values put in (a value that itself holds that text): no token of
    the layout is left.  In particular, when no value holds an opening
    brace, none of the tokens is in the returned text. *)
Theorem build_fix_prompt_complete (guidance : string -> string) (defect : bug)
    (relevant_excerpts : string) (prior_analysis : dict) :
  let prompt := build_fix_prompt guidance defect relevant_excerpts prior_analysis in
  let values := [name defect; description defect; root_cause defect; fix_summary defect;
                 join ", " (files defect); guidance (name defect); relevant_excerpts] in
  contains ("**BUG NAME:** " +:+ name defect) prompt = true
  /\ contains ("**DESCRIPTION:** " +:+ description defect) prompt = true
  /\ contains ("**ROOT CAUSE:** " +:+ root_cause defect) prompt = true
  /\ contains ("**FIX CONCEPT:** " +:+ fix_summary defect) prompt = true
  /\ contains ("**AFFECTED FILES:** " +:+ join ", " (files defect)) prompt = true
  /\ (forall p, contains (token p) prompt = true ->
        exists v, v ∈ values /\ contains (token p) v = true)
  /\ ((forall v, v ∈ values -> contains "{" v = false) ->
      forall p, contains (token p) prompt = false).
Proof.
  intros prompt values.
  set (rest_of := fun s : string => match s with String _ r => r | EmptyString => s end).
  assert (Hshape : prompt
                   = prompt_intro +:+ name defect
                     +:+ (NL +:+ "**DESCRIPTION:** ") +:+ description defect
                     +:+ (NL +:+ "**ROOT CAUSE:** ") +:+ root_cause defect
                     +:+ (NL +:+ "**FIX CONCEPT:** ") +:+ fix_summary defect
                     +:+ (NL +:+ "**AFFECTED FILES:** ") +:+ join ", " (files defect)
                     +:+ (NL +:+ rest_of label_analysis_hints) +:+ guidance (name defect)
                     +:+ (NL +:+ rest_of label_code_context) +:+ relevant_excerpts
                     +:+ (NL +:+ rest_of prompt_output_format) +:+ EmptyString)
    by reflexivity.
  assert (Hintro : exists before, prompt_intro = before +:+ "**BUG NAME:** ").
  { exists (String.substring 0 (String.length prompt_intro - 14) prompt_intro).
    vm_compute. reflexivity. }
  destruct Hintro as [before Hintro].
  assert (Hlabelled : forall pre L v post,
             prompt = pre +:+ L +:+ v +:+ post -> contains (L +:+ v) prompt = true).
  { intros pre L v post ->. apply contains_app_r. rewrite <- append_assoc.
    apply contains_prefix, prefix_app. }
  assert (Htokens : forall p, contains (token p) prompt = true ->
                      exists v, v ∈ values /\ contains (token p) v = true).
  { intros p Hc. rewrite Hshape in Hc. subst values.
    apply token_peel in Hc as [Hv|Hc]; [eexists; split; [|exact Hv]; in_values| |reflexivity].
    apply token_peel in Hc as [Hv|Hc]; [eexists; split; [|exact Hv]; in_values| |reflexivity].
    apply token_peel in Hc as [Hv|Hc]; [eexists; split; [|exact Hv]; in_values| |reflexivity].
    apply token_peel in Hc as [Hv|Hc]; [eexists; split; [|exact Hv]; in_values| |reflexivity].
    apply token_peel in Hc as [Hv|Hc]; [eexists; split; [|exact Hv]; in_values| |reflexivity].
    apply token_peel in Hc as [Hv|Hc]; [eexists; split; [|exact Hv]; in_values| |reflexivity].
    apply token_peel in Hc as [Hv|Hc]; [eexists; split; [|exact Hv]; in_values| |reflexivity].
    exfalso. destruct p; vm_compute in Hc; discriminate. }
  split; [eapply (Hlabelled before); rewrite Hshape, Hintro, !append_assoc;
          reflexivity|].
  split; [eapply (Hlabelled (prompt_intro +:+ name defect +:+ NL));
          rewrite Hshape, !append_assoc; reflexivity|].
  split; [eapply (Hlabelled (prompt_intro +:+ name defect
                            +:+ (NL +:+ "**DESCRIPTION:** ") +:+ description defect +:+ NL));
          rewrite Hshape, !append_assoc; reflexivity|].
  split; [eapply (Hlabelled (prompt_intro +:+ name defect
                            +:+ (NL +:+ "**DESCRIPTION:** ") +:+ description defect
                            +:+ (NL +:+ "**ROOT CAUSE:** ") +:+ root_cause defect +:+ NL));
          rewrite Hshape, !append_assoc; reflexivity|].
  split; [eapply (Hlabelled (prompt_intro +:+ name defect
                            +:+ (NL +:+ "**DESCRIPTION:** ") +:+ description defect
                            +:+ (NL +:+ "**ROOT CAUSE:** ") +:+ root_cause defect
                            +:+ (NL +:+ "**FIX CONCEPT:** ") +:+ fix_summary defect +:+ NL));
          rewrite Hshape, !append_assoc; reflexivity|].
  split; [exact Htokens|].
  intros Hplain p. destruct (contains (token p) prompt) eqn:Hc; [|reflexivity].
  destruct (Htokens p Hc) as (v & Hv & Htok).
  destruct (token_brace p) as [t Ht]. rewrite Ht in Htok.
  apply contains_brace in Htok. rewrite (Hplain v Hv) in Htok. discriminate.
Qed.

(** The prompt of the test suite's defect: its values are there, and
    none of the seven tokens is. *)
Example test_bug_prompt :
  let prompt := build_fix_prompt (fun _ => "No specific hints.") test_bug
                  (_extract_relevant_files mock_codebase_content (files test_bug)) ∅ in
  contains "**BUG NAME:** Test Bug 1" prompt = true
  /\ contains "**DESCRIPTION:** This is a test bug description." prompt = true
  /\ contains "**ROOT CAUSE:** Test root cause." prompt = true
  /\ contains "**FIX CONCEPT:** Test fix concept." prompt = true
  /\ contains ("**AFFECTED FILES:** frontend/src/components/TestFile.tsx, "
               +:+ "backend/models/AnotherFile.py") prompt = true
  /\ forallb (fun p => negb (contains (token p) prompt))
       [BugName; Description; RootCause; FixConcept; AffectedFiles; AnalysisHints;
        RelevantContent] = true.
Proof. vm_compute. repeat split. Qed.

(** The layout alone, as the test suite records it, is what a builder
    that substitutes nothing would return. *)
Example layout_keeps_its_tokens :
  let layout := render fix_prompt_template in
  contains "**BUG NAME:** {bug_name}" layout = true
  /\ contains "**AFFECTED FILES:** {', '.join(files_to_check)}" layout = true
  /\ contains "{relevant_content}" layout = true.
Proof. vm_compute. repeat split. Qed.

Lemma scan_headers_step h1 f h2 rest3 :
  scan_headers (h1 :: f :: h2 :: rest3)
  = if String.eqb h1 HEADER_LINE && String.prefix "File: " f && String.eqb h2 HEADER_LINE
    then String.substring 6 (String.length f - 6) f :: scan_headers rest3
    else scan_headers (f :: h2 :: rest3).
Proof. reflexivity. Qed.

Lemma scan_headers_no_LF_bounded n : forall lines,
  length lines <= n -> Forall no_LF lines -> Forall no_LF (scan_headers lines).
Proof.
  induction n as [|n IH]; intros [|h1 [|f [|h2 rest3]]] Hlen Hlines;
    try (constructor; fail); cbn [length] in Hlen; [lia|].
  rewrite scan_headers_step.
  inversion Hlines as [|? ? _ Hrest]; subst.
  destruct (String.eqb h1 HEADER_LINE && String.prefix "File: " f
            && String.eqb h2 HEADER_LINE) eqn:Hc.
  - constructor.
    + apply andb_true_iff in Hc as [Hc _]. apply andb_true_iff in Hc as [_ Hp].
      apply prefix_split in Hp. inversion Hrest as [|? ? Hf _]; subst.
      rewrite Hp in Hf. exact (no_LF_app_inv_r _ _ Hf).
    + apply IH; [lia|].
      inversion Hrest as [|? ? _ Hrest2]; subst. inversion Hrest2; subst. assumption.
  - apply IH; [cbn [length]; lia|assumption].
Qed.

Lemma scan_headers_no_LF lines :
  Forall no_LF lines -> Forall no_LF (scan_headers lines).
Proof. apply (scan_headers_no_LF_bounded (length lines)). lia. Qed.

Lemma filter_agree (P Q : string -> Prop) `{!forall x, Decision (P x)}
    `{!forall x, Decision (Q x)} (l : list string) :
  (forall x, x ∈ l -> (P x <-> Q x)) -> filter P l = filter Q l.
Proof.
  induction l as [|a l IH]; intros Hagree; [reflexivity|].
  rewrite !filter_cons.
  assert (Ha : P a <-> Q a) by (apply Hagree; left).
  assert (Hl : filter P l = filter Q l).
  { apply IH. intros x Hx. apply Hagree. right. exact Hx. }
  destruct (decide (P a)), (decide (Q a)); rewrite Hl; tauto.
Qed.

Lemma triples_lines hs l :
  Forall no_LF hs ->
  In l (split_lines (concat_text (header_triple <$> hs))) ->
  l = EmptyString \/ l = HEADER_LINE \/ exists p, In p hs /\ l = "File: " +:+ p.
Proof.
  induction 1 as [|p hs Hp _ IH]; cbn [fmap list_fmap concat_text].
  - intros [<-|[]]. left. reflexivity.
  - assert (Hshape : header_triple p +:+ concat_text (header_triple <$> hs)
                     = HEADER_LINE +:+ NL +:+ (("File: " +:+ p) +:+ NL
                       +:+ (HEADER_LINE +:+ NL +:+ concat_text (header_triple <$> hs)))).
    { unfold header_triple. rewrite !append_assoc. reflexivity. }
    rewrite Hshape, !split_lines_app.
    rewrite (split_lines_single HEADER_LINE no_LF_HEADER_LINE).
    rewrite (split_lines_single ("File: " +:+ p))
      by (apply no_LF_app; [cbn; repeat split; discriminate|exact Hp]).
    cbn [app In]. intros [<-|[<-|[<-|Hin]]]; eauto.
    + right. right. exists p. split; [left|]; reflexivity.
    + destruct (IH Hin) as [?|[?|(q & Hq & ?)]]; eauto 6.
Qed.

(** The header triple of a path, written out. *)
Lemma header_triple_text (p : string) :
  header_triple p = HEADER_LINE +:+ NL +:+ "File: " +:+ p +:+ NL +:+ HEADER_LINE +:+ NL.
Proof. unfold header_triple. rewrite !append_assoc. reflexivity. Qed.

Lemma concat_text_triples (hs : list string) :
  concat_text (header_triple <$> hs)
  = String.concat ""
      ((fun p => HEADER_LINE +:+ NL +:+ "File: " +:+ p +:+ NL +:+ HEADER_LINE +:+ NL) <$> hs).
Proof.
  induction hs as [|p hs IH]; [reflexivity|].
  cbn [fmap list_fmap concat_text]. rewrite IH, header_triple_text.
  destruct hs as [|q hs]; [apply append_empty_r|reflexivity].
Qed.

(** A path found by the scan stands in the lines between two header
    lines. *)
Lemma scan_headers_found_bounded (n : nat) : forall lines p,
  length lines <= n -> p ∈ scan_headers lines ->
  exists before after,
    lines = before ++ [HEADER_LINE; "File: " +:+ p; HEADER_LINE] ++ after.
Proof.
  induction n as [|n IH]; intros [|h1 [|f [|h2 rest3]]] p Hlen Hp;
    try (inversion Hp; fail); cbn [length] in Hlen; [lia|].
  rewrite scan_headers_step in Hp.
  destruct (String.eqb h1 HEADER_LINE && String.prefix "File: " f
            && String.eqb h2 HEADER_LINE) eqn:Hc.
  - apply andb_true_iff in Hc as [Hc Hh2]. apply andb_true_iff in Hc as [Hh1 Hf].
    apply String.eqb_eq in Hh1, Hh2. subst h1 h2.
    apply elem_of_cons in Hp as [->|Hp].
    + exists [], rest3. cbn [app].
      pose proof (prefix_split "File: " f Hf) as Hsplit.
      change (String.length "File: ") with 6 in Hsplit. rewrite <- Hsplit. reflexivity.
    + destruct (IH rest3 p ltac:(lia) Hp) as (before & after & ->).
      exists (HEADER_LINE :: f :: HEADER_LINE :: before), after. reflexivity.
  - destruct (IH (f :: h2 :: rest3) p ltac:(cbn [length]; lia) Hp) as (before & after & Heq).
    exists (h1 :: before), after. rewrite Heq. reflexivity.
Qed.

Lemma scan_headers_found (lines : list string) (p : string) :
  p ∈ scan_headers lines ->
  exists before after,
    lines = before ++ [HEADER_LINE; "File: " +:+ p; HEADER_LINE] ++ after.
Proof. apply (scan_headers_found_bounded (length lines)). lia. Qed.

Lemma triple_in_concat (p : string) (hs : list string) :
  p ∈ hs -> contains (header_triple p) (concat_text (header_triple <$> hs)) = true.
Proof.
  induction hs as [|q hs IH]; intros Hin; [inversion Hin|].
  cbn [fmap list_fmap concat_text]. apply elem_of_cons in Hin as [->|Hin].
  - apply contains_prefix, prefix_app.
  - apply contains_app_r, IH, Hin.
Qed.

(** C9 -- the relevant-file extraction, for the Context Loader as
    section 4.1 describes it.  For every snapshot text and every
    sequence of requested paths: the result is, to the character, the
    header triples (header line, File line, header line, each ended by
    a line feed) of the requested paths found in the snapshot, one after
    the other in snapshot order.  A path found in the snapshot stands
    there in a File line between two header lines, and the path of the
    first such three lines of a text is found.  Every line of the result
    is empty, the header line, or the File line of a requested path
    found in the snapshot, so no file content and no other file's
    header gets in; the triple of every requested path found is in the
    result; requested paths with no File line in the snapshot change
    nothing; and on a snapshot written by the inspector from plain
    files the result is the triples of the requested files among the
    files written, in the order of the walk. *)
Theorem extract_relevant_files_header_triples (codebase : string) (paths : list string) :
  let extracted := _extract_relevant_files codebase paths in
  let triple := fun p => HEADER_LINE +:+ NL +:+ "File: " +:+ p +:+ NL +:+ HEADER_LINE +:+ NL in
  extracted = String.concat "" (triple <$> filter (fun p => p ∈ paths) (headers_of codebase))
  /\ (forall p, p ∈ headers_of codebase ->
        exists before after,
          split_lines codebase
          = before ++ [HEADER_LINE; "File: " +:+ p; HEADER_LINE] ++ after)
  /\ (forall before p after,
        split_lines codebase = before ++ [HEADER_LINE; "File: " +:+ p; HEADER_LINE] ++ after ->
        Forall (fun l => l <> HEADER_LINE) before ->
        p ∈ headers_of codebase)
  /\ (forall l, In l (split_lines extracted) ->
        l = EmptyString \/ l = HEADER_LINE
        \/ exists p, p ∈ paths /\ p ∈ headers_of codebase /\ l = "File: " +:+ p)
  /\ (forall p, p ∈ paths -> p ∈ headers_of codebase -> contains (triple p) extracted = true)
  /\ (forall absent,
        (forall p, p ∈ absent -> ("File: " +:+ p) ∉ split_lines codebase) ->
        _extract_relevant_files codebase (paths ++ absent)
        = _extract_relevant_files codebase paths)
  /\ (forall walked, Forall plain_file walked ->
        _extract_relevant_files (snapshot walked) paths
        = String.concat "" (triple <$> filter (fun p => p ∈ paths) walked.*1)).
Proof.
  intros extracted triple.
  assert (Hfound : forall p, p ∈ headers_of codebase ->
             exists before after,
               split_lines codebase
               = before ++ [HEADER_LINE; "File: " +:+ p; HEADER_LINE] ++ after).
  { intros p Hp. apply scan_headers_found. exact Hp. }
  split; [apply concat_text_triples|]. split; [exact Hfound|]. split; [|split; [|split; [|split]]].
  - intros before p after Heq Hbefore. unfold headers_of. rewrite Heq.
    rewrite scan_skip_all by exact Hbefore. cbn [app]. rewrite scan_triple. left.
  - intros l Hl. subst extracted. unfold _extract_relevant_files in Hl.
    apply triples_lines in Hl.
    + destruct Hl as [?|[?|(p & Hp & ->)]]; auto.
      right. right. exists p. rewrite <- list_elem_of_In, list_elem_of_filter in Hp.
      destruct Hp as [Hreq Hin]. auto.
    + apply Forall_forall. intros p Hp.
      rewrite list_elem_of_filter in Hp. destruct Hp as [_ Hp].
      pose proof (scan_headers_no_LF _ (split_lines_no_LF codebase)) as Hall.
      rewrite Forall_forall in Hall. apply Hall. exact Hp.
  - intros p Hreq Hin. subst extracted triple. cbv beta.
    rewrite <- header_triple_text. unfold _extract_relevant_files.
    apply triple_in_concat. apply list_elem_of_filter. auto.
  - intros absent Habsent. unfold _extract_relevant_files. do 2 f_equal.
    apply filter_agree. intros p Hp. rewrite elem_of_app. split; [|auto].
    intros [?|Hin]; [assumption|]. exfalso.
    destruct (Hfound p Hp) as (before & after & Heq).
    apply (Habsent p Hin). rewrite Heq. apply elem_of_app. right.
    apply list_elem_of_further, list_elem_of_here.
  - intros walked Hplain. unfold _extract_relevant_files.
    rewrite (headers_of_snapshot walked Hplain). apply concat_text_triples.
Qed.

(** The extraction on the test suite's snapshot: the two triples and
    nothing else.  The header line followed by an empty line and the
    second File line, which the regression test also looks for, is not
    part of concatenated triples. *)
Example extract_on_test_snapshot :
  let extracted := _extract_relevant_files mock_codebase_content (files test_bug) in
  extracted = header_triple "frontend/src/components/TestFile.tsx"
              +:+ header_triple "backend/models/AnotherFile.py"
  /\ contains "import React from 'react';" extracted = false
  /\ contains "from django.db import models" extracted = false
  /\ contains "irrelevant/file.txt" extracted = false
  /\ contains (HEADER_LINE +:+ NL +:+ NL +:+ "File: backend/models/AnotherFile.py") extracted
     = false.
Proof. vm_compute. repeat split. Qed.

End PromptClaims.

(** ** The catalog *)

Module CatalogFacts.
Import Py Eff BugDefinitions.

(** X3 -- lookup in the catalog.  [get_bug_by_name] returns the first
    entry of the list whose name is the one asked for: every entry before
    it has another name; it returns [None] exactly when no entry has
    that name. *)
Theorem get_bug_by_name_first_match (bugs : list bug) (bug_name : string) :
  match get_bug_by_name bugs bug_name with
  | Some b =>
      exists before after,
        bugs = before ++ b :: after /\ name b = bug_name
        /\ Forall (fun b' => name b' <> bug_name) before
  | None => Forall (fun b' => name b' <> bug_name) bugs
  end.
Proof.
  induction bugs as [|b rest IH]; [constructor|]. cbn [get_bug_by_name].
  destruct (String.eqb_spec (name b) bug_name) as [Heq|Hne].
  - exists [], rest. split; [reflexivity|]. split; [exact Heq|constructor].
  - destruct (get_bug_by_name rest bug_name) as [b'|].
    + destruct IH as (before & after & -> & Hname & Hbefore).
      exists (b :: before), after. split; [reflexivity|]. split; [exact Hname|].
      constructor; assumption.
    + constructor; assumption.
Qed.

End CatalogFacts.

(** ** Calls and pauses of the fix generator *)

Module AgentTraces.
Import Py Eff BugDefinitions Agent PyFacts AgentFacts RunnerFacts.

(** A computation that leaves the API, the sleeps and the files alone. *)
Definition only_logs {A} (m : M A) : Prop :=
  forall w, api_calls (snd (m w)) = api_calls w
            /\ slept (snd (m w)) = slept w
            /\ fs (snd (m w)) = fs w.

Lemma only_logs_ret {A} (a : A) : only_logs (ret a).
Proof. intros w. repeat split. Qed.

Lemma only_logs_logger l msg : only_logs (logger l msg).
Proof. intros w. repeat split. Qed.

Lemma only_logs_bind {A B} (m : M A) (k : A -> M B) :
  only_logs m -> (forall a, only_logs (k a)) -> only_logs (bind m k).
Proof.
  intros Hm Hk w. unfold bind. specialize (Hm w).
  destruct (m w) as [[a|e] w1]; cbn [snd] in *; [|exact Hm].
  destruct (Hk a w1) as (H1 & H2 & H3). destruct Hm as (H4 & H5 & H6).
  repeat split; congruence.
Qed.

Lemma only_logs_try_catch {A} (m : M A) (h : exn -> M A) :
  only_logs m -> (forall e, only_logs (h e)) -> only_logs (try_catch m h).
Proof.
  intros Hm Hh w. unfold try_catch. specialize (Hm w).
  destruct (m w) as [[a|e] w1]; cbn [snd] in *; [exact Hm|].
  destruct (Hh e w1) as (H1 & H2 & H3). destruct Hm as (H4 & H5 & H6).
  repeat split; congruence.
Qed.

Lemma only_logs_lift {A} (r : result A) : only_logs (lift r).
Proof. intros w. repeat split. Qed.

Section WithEnv.
Variable E : Env.

Lemma only_logs_validate s : only_logs (_validate_code_snippet_format s).
Proof.
  unfold _validate_code_snippet_format.
  destruct (nonempty (strip s)), (re_search_line_start "File: " s),
    (2 <=? count "```" s)%nat; intros w; repeat split.
Qed.

Lemma only_logs_analyze_files paths : forall acc, only_logs (analyze_files E paths acc).
Proof.
  induction paths as [|p rest IH]; intros acc; cbn [analyze_files].
  - apply only_logs_ret.
  - apply only_logs_bind; [|intros a; apply IH].
    apply only_logs_try_catch.
    + apply only_logs_bind; [apply only_logs_lift|intros a; apply only_logs_ret].
    + intros e. apply only_logs_bind; [apply only_logs_logger|intros _; apply only_logs_ret].
Qed.

Lemma only_logs_analyze_bug bug_name content : only_logs (analyze_bug E bug_name content).
Proof.
  unfold analyze_bug. apply only_logs_bind; [apply only_logs_logger|intros _].
  destruct (get_bug_by_name (catalog E) bug_name); [|apply only_logs_ret].
  apply only_logs_bind; [apply only_logs_analyze_files|intros a; apply only_logs_ret].
Qed.

(** One attempt of the fix generator: one API call, and a pause of two
    seconds exactly when another attempt follows. *)
Lemma fix_attempt_effect bug_name prompt analysis attempt w :
  attempt < max_retries (config E) ->
  let reply := generate_content_oracle E (api_calls w) (fix_request E prompt) in
  exists s w',
    fix_attempt E bug_name prompt analysis attempt w = (Ret s, w')
    /\ api_calls w' = S (api_calls w) /\ fs w' = fs w
    /\ slept w' = slept w ++ match s with Continue => [2] | Return _ => [] end
    /\ s = match accepted_snippet reply with
           | Some code => Return (code, success_meta E bug_name analysis attempt)
           | None => if (S attempt =? max_retries (config E))%nat
                     then Return (EmptyString, error_meta (failure_message reply))
                     else Continue
           end.
Proof.
  intros Hlt reply. unfold fix_attempt.
  set (last := (attempt =? max_retries (config E) - 1)%nat).
  set (more := (attempt <? max_retries (config E) - 1)%nat).
  assert (Hlast : (S attempt =? max_retries (config E))%nat = last).
  { subst last. destruct (Nat.eqb_spec (S attempt) (max_retries (config E)));
      destruct (Nat.eqb_spec attempt (max_retries (config E) - 1)); auto; lia. }
  assert (Hmore : more = negb last).
  { subst more last. destruct (Nat.ltb_spec attempt (max_retries (config E) - 1));
      destruct (Nat.eqb_spec attempt (max_retries (config E) - 1)); auto; lia. }
  rewrite Hlast, Hmore. clearbody last more. clear Hlast Hmore.
  unfold accepted_snippet, failure_message. fold reply.
  unfold try_catch, bind at 1 2, logger at 1, generate_content. cbn [api_calls].
  fold reply. destruct reply as [r|e]; cbn [fst snd].
  - destruct (response_text r) as [text|].
    + unfold bind at 1.
      match goal with |- context [_validate_code_snippet_format ?s ?w0] =>
        destruct (validate_run s w0) as (w1 & Hv & Hc);
        destruct (only_logs_validate s w0) as (_ & Hs & Hf); rewrite Hv in *;
        cbn [snd api_calls slept fs] in * end.
      destruct (valid_format (strip text)), last; run_eff;
        eexists _, _; (split; [reflexivity|]); cbn [api_calls slept fs];
        rewrite ?app_nil_r; repeat split; congruence.
    + destruct last; run_eff; eexists _, _; (split; [reflexivity|]);
        cbn [api_calls slept fs]; rewrite ?app_nil_r; repeat split.
  - destruct last; run_eff; eexists _, _; (split; [reflexivity|]);
      cbn [api_calls slept fs]; rewrite ?app_nil_r; repeat split.
Qed.

(** The retry loop: at most [remaining] calls, at least one when an
    attempt is left, a pause between two calls and none after the last. *)
Lemma fix_loop_trace bug_name prompt analysis remaining : forall attempt w,
  attempt + remaining = max_retries (config E) ->
  exists code md w' calls,
    fix_loop E bug_name prompt analysis remaining attempt w = (Ret (code, md), w')
    /\ api_calls w' = api_calls w + calls
    /\ calls <= remaining /\ (1 <= remaining -> 1 <= calls)
    /\ slept w' = slept w ++ replicate (calls - 1) 2
    /\ fs w' = fs w.
Proof.
  induction remaining as [|r IH]; intros attempt w Hsum.
  - exists EmptyString, (error_meta "Failed to generate fix after all retries"), w, 0.
    cbn. rewrite app_nil_r. repeat split; lia.
  - cbn [fix_loop]. unfold bind.
    destruct (fix_attempt_effect bug_name prompt analysis attempt w)
      as (s & w1 & -> & Hc & Hf & Hs & Hshape); [lia|].
    destruct s as [|[code md]].
    + assert (Hmore : S attempt <> max_retries (config E)).
      { intros Heq. destruct (accepted_snippet _); [discriminate|].
        apply Nat.eqb_eq in Heq. rewrite Heq in Hshape. discriminate. }
      destruct (IH (S attempt) w1) as (code & md & w' & calls & -> & Hc' & Hle & Hge & Hs' & Hf');
        [lia|].
      exists code, md, w', (S calls). split; [reflexivity|].
      split; [lia|]. split; [lia|]. split; [lia|]. split; [|congruence].
      rewrite Hs', Hs, <- app_assoc. f_equal.
      assert (1 <= calls) by (apply Hge; lia).
      replace (S calls - 1) with (S (calls - 1)) by lia. reflexivity.
    + exists code, md, w1, 1. split; [reflexivity|]. split; [lia|]. split; [lia|].
      split; [lia|]. split; [|exact Hf]. rewrite Hs. reflexivity.
Qed.

End WithEnv.

(** X4 -- calls and pauses of the fix generator.  Every run of
    [generate_fix] returns, after at most [max_retries] API calls; it
    pauses two seconds between two calls and never after the last one,
    so a run with [calls] calls has slept [calls - 1] times (none when
    no call was made); the files are left as they were. *)
Theorem generate_fix_pauses_between_attempts (E : Env) (bug_name content : string)
    (w : world) :
  exists code md w' calls,
    generate_fix E bug_name content w = (Ret (code, md), w')
    /\ api_calls w' = api_calls w + calls
    /\ calls <= max_retries (config E)
    /\ slept w' = slept w ++ replicate (calls - 1) 2
    /\ fs w' = fs w.
Proof.
  unfold generate_fix. unfold bind at 1 2. unfold logger at 1.
  match goal with |- context [analyze_bug E bug_name content ?w0] =>
    destruct (analyze_bug_run E bug_name content w0) as (d & w1 & Hrun & _ & _);
    destruct (only_logs_analyze_bug E bug_name content w0) as (Hc & Hs & Hf);
    rewrite Hrun in *; cbn [snd api_calls slept fs] in * end.
  assert (Hquiet : forall (v : dict) (m : M unit),
             (forall w0, exists w2, m w0 = (Ret tt, w2) /\ api_calls w2 = api_calls w0
                                    /\ slept w2 = slept w0 /\ fs w2 = fs w0) ->
             exists code md w' calls,
               (m ;; ret (EmptyString, v))%eff w1 = (Ret (code, md), w')
               /\ api_calls w' = api_calls w + calls
               /\ calls <= max_retries (config E)
               /\ slept w' = slept w ++ replicate (calls - 1) 2
               /\ fs w' = fs w).
  { intros v m Hm. destruct (Hm w1) as (w2 & Hrun2 & Hc2 & Hs2 & Hf2).
    exists EmptyString, v, w2, 0. unfold bind. rewrite Hrun2.
    split; [reflexivity|]. cbn. rewrite app_nil_r. repeat split; try congruence; lia. }
  destruct (d !! "error") as [err|].
  - exists EmptyString, (<["error" := err]> ∅), w1, 0. split; [reflexivity|].
    cbn. rewrite app_nil_r. repeat split; try congruence; lia.
  - destruct (generate_enhanced_prompt E bug_name content d) as [prompt|e].
    + destruct (contains "Error:" prompt || negb (nonempty (strip prompt))).
      * apply Hquiet. intros w0. eexists. repeat split.
      * destruct (fix_loop_trace E bug_name prompt d (max_retries (config E)) 0 w1 eq_refl)
          as (code & md & w' & calls & -> & Hc' & Hle & _ & Hs' & Hf').
        exists code, md, w', calls. split; [reflexivity|]. repeat split; try congruence; lia.
    + apply Hquiet. intros w0. eexists. repeat split.
Qed.

End AgentTraces.

(** ** The agent at its edges *)

Module AgentEdges.
Import Py Eff BugDefinitions Agent PyFacts AgentFacts RunnerFacts AgentTraces Examples
  Fixtures.

(** The text an API reply carries for the failure analyst, if any. *)
Definition reply_text (a : api_reply) : option string :=
  match a with
  | Replied r => response_text r
  | Failed _ => None
  end.

(** What the analyser's answer, or its exception, leaves in the
    analysis of one file. *)
Definition file_analysis (E : Env) (file_path : string) : dict :=
  match analyze_file E (os_path_join (project_root (config E)) file_path) with
  | Ret a => a
  | Raise e => <["error" := PStr (str_exn e)]> ∅
  end.

Section WithEnv.
Variable E : Env.

Lemma static_analysis_lookup paths : forall acc p,
  static_analysis E paths acc !! p
  = if bool_decide (p ∈ paths) then Some (PDict (file_analysis E p)) else acc !! p.
Proof.
  induction paths as [|q rest IH]; intros acc p; cbn [static_analysis].
  - rewrite bool_decide_eq_false_2 by (intros Hin; inversion Hin). reflexivity.
  - rewrite IH. fold (file_analysis E q).
    destruct (decide (p ∈ rest)) as [Hin|Hout].
    + rewrite !bool_decide_eq_true_2; [reflexivity|right; exact Hin|exact Hin].
    + rewrite (bool_decide_eq_false_2 _ Hout).
      destruct (decide (q = p)) as [->|Hne].
      * rewrite lookup_insert_eq, bool_decide_eq_true_2 by left. reflexivity.
      * rewrite lookup_insert_ne by exact Hne.
        rewrite bool_decide_eq_false_2; [reflexivity|].
        intros Hin. apply elem_of_cons in Hin as [->|Hin]; [congruence|contradiction].
Qed.

Lemma fix_loop_last_message bug_name prompt analysis remaining : forall attempt w,
  attempt + remaining = max_retries (config E) ->
  (forall i, i < remaining ->
     accepted_snippet (generate_content_oracle E (api_calls w + i) (fix_request E prompt))
     = None) ->
  exists w',
    fix_loop E bug_name prompt analysis remaining attempt w
    = (Ret (EmptyString,
            error_meta
              match remaining with
              | O => "Failed to generate fix after all retries"
              | S n => failure_message
                         (generate_content_oracle E (api_calls w + n) (fix_request E prompt))
              end), w')
    /\ api_calls w' = api_calls w + remaining.
Proof.
  induction remaining as [|r IH]; intros attempt w Hsum Hnone.
  - eexists. split; [reflexivity|]. lia.
  - cbn [fix_loop]. unfold bind.
    destruct (fix_attempt_run E bug_name prompt analysis attempt w) as (s & w1 & -> & Hc & ->);
      [lia|].
    specialize (Hnone 0 ltac:(lia)) as H0. rewrite Nat.add_0_r in H0. rewrite H0.
    destruct (Nat.eqb_spec (S attempt) (max_retries (config E))) as [Heq|Hne].
    + assert (r = 0) by lia. subst r. rewrite Nat.add_0_r. eexists. split; [reflexivity|]. lia.
    + destruct (IH (S attempt) w1) as (w' & Hrun & Hcalls); [lia| |].
      * intros i Hi. rewrite Hc. specialize (Hnone (S i) ltac:(lia)).
        replace (S (api_calls w) + i) with (api_calls w + S i) by lia. exact Hnone.
      * destruct r as [|n]; [lia|]. rewrite Hrun, Hc.
        replace (S (api_calls w) + n) with (api_calls w + S n) by lia.
        eexists. split; [reflexivity|]. lia.
Qed.

(** One attempt of the failure analyst: one API call; a text ends the
    loop, anything else costs a pause of one second. *)
Lemma analysis_attempt_effect bug_name prompt attempt w :
  exists s w',
    analysis_attempt E bug_name prompt attempt w = (Ret s, w')
    /\ api_calls w' = S (api_calls w) /\ fs w' = fs w
    /\ match reply_text (generate_content_oracle E (api_calls w) (analysis_request E prompt))
       with
       | Some text => s = Return (suggestions text) /\ slept w' = slept w
       | None => s = Continue /\ slept w' = slept w ++ [1]
       end.
Proof.
  unfold analysis_attempt, try_catch, bind at 1, generate_content.
  destruct (generate_content_oracle E (api_calls w) (analysis_request E prompt)) as [r|e];
    cbn [reply_text].
  - destruct (response_text r) as [text|]; run_eff; eexists _, _; repeat split.
  - run_eff. eexists _, _. repeat split.
Qed.

Lemma analysis_loop_trace bug_name prompt remaining : forall attempt w,
  let reply i := generate_content_oracle E (api_calls w + i) (analysis_request E prompt) in
  exists d w' calls,
    analysis_loop E bug_name prompt remaining attempt w = (Ret d, w')
    /\ api_calls w' = api_calls w + calls /\ calls <= remaining /\ fs w' = fs w
    /\ (forall i, i < calls - 1 -> reply_text (reply i) = None)
    /\ ((exists text,
           1 <= calls /\ reply_text (reply (calls - 1)) = Some text
           /\ d = suggestions text
           /\ slept w' = slept w ++ replicate (calls - 1) 1)
        \/ (calls = remaining
            /\ (forall i, i < remaining -> reply_text (reply i) = None)
            /\ d = exhausted_analysis
            /\ slept w' = slept w ++ replicate remaining 1)).
Proof.
  induction remaining as [|r IH]; intros attempt w reply.
  - exists exhausted_analysis. eexists _, 0. run_eff. split; [reflexivity|].
    cbn [api_calls fs slept]. split; [lia|]. split; [lia|]. split; [reflexivity|].
    split; [intros i Hi; lia|]. right. split; [reflexivity|].
    split; [intros i Hi; lia|]. split; [reflexivity|]. cbn. rewrite app_nil_r. reflexivity.
  - cbn [analysis_loop]. unfold bind.
    destruct (analysis_attempt_effect bug_name prompt attempt w) as (s & w1 & -> & Hc & Hf & Hs).
    assert (Hr0 : reply 0 = generate_content_oracle E (api_calls w) (analysis_request E prompt))
      by (subst reply; cbn; rewrite Nat.add_0_r; reflexivity).
    rewrite <- Hr0 in Hs.
    destruct (reply_text (reply 0)) as [text|] eqn:Ht; destruct Hs as [-> Hs].
    + exists (suggestions text), w1, 1. split; [reflexivity|]. split; [lia|]. split; [lia|].
      split; [exact Hf|]. split; [intros i Hi; lia|]. left. exists text.
      split; [lia|]. split; [exact Ht|]. split; [reflexivity|].
      cbn. rewrite app_nil_r. exact Hs.
    + destruct (IH (S attempt) w1) as (d & w' & calls & -> & Hc' & Hle & Hf' & Hbefore & Hend).
      assert (Hshift : forall i,
                 generate_content_oracle E (api_calls w1 + i) (analysis_request E prompt)
                 = reply (S i)).
      { intros i. subst reply. cbn. rewrite Hc. f_equal. lia. }
      exists d, w', (S calls). split; [reflexivity|]. split; [lia|]. split; [lia|].
      split; [congruence|]. split.
      * intros i Hi. destruct i as [|i]; [exact Ht|]. rewrite <- Hshift. apply Hbefore. lia.
      * destruct Hend as [(text & Hge & Htext & -> & Hs')|(-> & Hnone & -> & Hs')].
        -- left. exists text. split; [lia|]. split.
           ++ replace (S calls - 1) with (S (calls - 1)) by lia. rewrite <- Hshift. exact Htext.
           ++ split; [reflexivity|]. rewrite Hs', Hs, <- app_assoc.
              replace (S calls - 1) with (S (calls - 1)) by lia. reflexivity.
        -- right. split; [reflexivity|]. split.
           ++ intros i Hi. destruct i as [|i]; [exact Ht|]. rewrite <- Hshift. apply Hnone. lia.
           ++ split; [reflexivity|]. rewrite Hs', Hs, <- app_assoc. reflexivity.
Qed.

End WithEnv.

(** X5 -- a defect that is not in the catalog.  [generate_fix] returns
    the empty code with the error "Bug '<name>' not found in
    definitions"; it has written two log records and nothing else: no
    prompt is built, no API call is made, nothing is slept. *)
Theorem generate_fix_unknown_defect (E : Env) (bug_name content : string) (w : world) :
  get_bug_by_name (catalog E) bug_name = None ->
  generate_fix E bug_name content w
  = (Ret (EmptyString,
          error_meta ("Bug '" +:+ bug_name +:+ "' not found in definitions")),
     World (api_calls w) (slept w)
       (log w ++ [(INFO, "Generating fix for bug: '" +:+ bug_name +:+ "'");
                  (INFO, "Analyzing bug: '" +:+ bug_name +:+ "'")])
       (stdout w) (fs w)).
Proof.
  intros Hnone. unfold generate_fix, analyze_bug. run_eff. rewrite Hnone. cbn.
  rewrite <- app_assoc. reflexivity.
Qed.

Lemma generate_fix_unknown_defect_witness :
  fst (generate_fix (env_with 5 helpful_api) "Login Bug" "snapshot"
         fresh_world)
  = Ret (EmptyString, error_meta "Bug 'Login Bug' not found in definitions")
  /\ api_calls (snd (generate_fix (env_with 5 helpful_api) "Login Bug"
                       "snapshot" fresh_world)) = 0.
Proof.
  rewrite (generate_fix_unknown_defect (env_with 5 helpful_api) "Login Bug"
             "snapshot" fresh_world eq_refl).
  split; reflexivity.
Defined.

(** X6 -- a prompt the generator does not go on with.  For a defect of
    the catalog, when prompts.py raises, or returns a text that holds
    "Error:" or is blank, [generate_fix] returns the empty code with the
    error "Error generating prompt: <exception>" in the first case and
    "Invalid prompt generated" in the second, without any API call or
    pause. *)
Theorem generate_fix_rejects_prompt (E : Env) (bug_name content : string) (b : bug)
    (w : world) :
  get_bug_by_name (catalog E) bug_name = Some b ->
  (forall prompt,
     generate_enhanced_prompt E bug_name content (analysis_of E b content) = Ret prompt ->
     ~ usable_prompt prompt) ->
  exists w',
    generate_fix E bug_name content w
    = (Ret (EmptyString,
            error_meta
              match generate_enhanced_prompt E bug_name content (analysis_of E b content) with
              | Ret _ => "Invalid prompt generated"
              | Raise e => "Error generating prompt: " +:+ str_exn e
              end), w')
    /\ api_calls w' = api_calls w /\ slept w' = slept w /\ fs w' = fs w.
Proof.
  intros Hb Hbad. unfold generate_fix. unfold bind at 1 2. unfold logger at 1.
  match goal with |- context [analyze_bug E bug_name content ?w0] =>
    destruct (analyze_bug_run E bug_name content w0) as (d & w1 & Hrun & _ & Hd);
    destruct (only_logs_analyze_bug E bug_name content w0) as (Hc & Hs & Hf);
    rewrite Hrun in *; cbn [snd api_calls slept fs] in * end.
  rewrite Hb in Hd. subst d. unfold analysis_of at 1.
  rewrite lookup_insert_ne by discriminate.
  rewrite lookup_insert_ne by discriminate.
  rewrite lookup_insert_ne by discriminate.
  rewrite lookup_empty.
  destruct (generate_enhanced_prompt E bug_name content (analysis_of E b content))
    as [prompt|e] eqn:Hprompt.
  - specialize (Hbad prompt eq_refl). unfold usable_prompt in Hbad.
    destruct (contains "Error:" prompt); cbn [orb].
    + run_eff. eexists. split; [reflexivity|]. repeat split; assumption.
    + destruct (nonempty (strip prompt)); cbn [negb].
      * exfalso. apply Hbad. split; reflexivity.
      * run_eff. eexists. split; [reflexivity|]. repeat split; assumption.
  - run_eff. eexists. split; [reflexivity|]. repeat split; assumption.
Qed.

Lemma generate_fix_rejects_prompt_witness :
  exists w',
    generate_fix refusing_env "CSRF Token Bug" "snapshot" fresh_world
    = (Ret (EmptyString, error_meta "Invalid prompt generated"), w')
    /\ api_calls w' = 0.
Proof.
  destruct (generate_fix_rejects_prompt refusing_env "CSRF Token Bug" "snapshot" csrf_bug
              fresh_world) as (w' & Hrun & Hcalls & _).
  - reflexivity.
  - intros prompt [= <-] [Hno _]. vm_compute in Hno. discriminate.
  - exists w'. split; [exact Hrun|exact Hcalls].
Defined.

(** X7 -- the error of a generation that used up its attempts.  For a
    defect of the catalog with a usable prompt, when none of the
    [max_retries] replies is accepted, the error in the metadata tells
    about the last reply only ("API call failed: ..." for an exception,
    "No response from API after max retries" for a reply without text,
    "No valid code snippet generated after max retries" for a text that
    fails validation); the message after the loop, "Failed to generate
    fix after all retries", is the one returned exactly when
    [max_retries] is 0. *)
Theorem generate_fix_reports_the_last_failure (E : Env) (bug_name content prompt : string)
    (b : bug) (w : world) :
  get_bug_by_name (catalog E) bug_name = Some b ->
  generate_enhanced_prompt E bug_name content (analysis_of E b content) = Ret prompt ->
  usable_prompt prompt ->
  (forall i, i < max_retries (config E) ->
     accepted_snippet (generate_content_oracle E (api_calls w + i) (fix_request E prompt))
     = None) ->
  exists w',
    generate_fix E bug_name content w
    = (Ret (EmptyString,
            error_meta
              match max_retries (config E) with
              | O => "Failed to generate fix after all retries"
              | S n => failure_message
                         (generate_content_oracle E (api_calls w + n) (fix_request E prompt))
              end), w')
    /\ api_calls w' = api_calls w + max_retries (config E).
Proof.
  intros Hb Hprompt Husable Hnone.
  destruct (generate_fix_enters_loop E bug_name content b prompt w Hb Hprompt Husable)
    as (w1 & Hc & ->).
  destruct (fix_loop_last_message E bug_name prompt (analysis_of E b content)
              (max_retries (config E)) 0 w1 eq_refl) as (w' & Hrun & Hcalls).
  - intros i Hi. rewrite Hc. apply Hnone, Hi.
  - exists w'. rewrite Hrun, Hc. split; [reflexivity|]. lia.
Qed.

Lemma generate_fix_reports_the_last_failure_witness :
  exists w',
    generate_fix (env_with 5 flaky_api) "CSRF Token Bug" "snapshot" fresh_world
    = (Ret (EmptyString, error_meta "API call failed: 503 UNAVAILABLE"), w')
    /\ api_calls w' = 5.
Proof.
  destruct (generate_fix_reports_the_last_failure (env_with 5 flaky_api) "CSRF Token Bug"
              "snapshot" "Fix CSRF Token Bug" csrf_bug fresh_world) as (w' & Hrun & Hcalls).
  - reflexivity.
  - reflexivity.
  - split; reflexivity.
  - intros i Hi. destruct i as [|[|[|[|i]]]]; reflexivity.
  - exists w'. split; [exact Hrun|exact Hcalls].
Defined.

(** X8 -- [analyze_bug] on a defect of the catalog.  It returns the
    record with the catalog entry, the static analysis and the snapshot,
    and never raises: the static analysis has one entry for each file of
    the defect and no other, holding the analyser's answer or, when the
    analyser raised, the text of its exception under "error"; no API
    call is made. *)
Theorem analyze_bug_absorbs_analyser_failures (E : Env) (bug_name content : string)
    (b : bug) (w : world) :
  get_bug_by_name (catalog E) bug_name = Some b ->
  exists static w',
    analyze_bug E bug_name content w
    = (Ret (<["bug_info" := PDict (bug_dict b)]>
            (<["static_analysis" := PDict static]>
            (<["context" := PStr content]> ∅))), w')
    /\ (forall p, static !! p
                  = if bool_decide (p ∈ files b) then Some (PDict (file_analysis E p))
                    else None)
    /\ api_calls w' = api_calls w /\ slept w' = slept w /\ fs w' = fs w.
Proof.
  intros Hb.
  destruct (analyze_bug_run E bug_name content w) as (d & w' & Hrun & _ & Hd).
  destruct (only_logs_analyze_bug E bug_name content w) as (Hc & Hs & Hf).
  rewrite Hrun in *. cbn [snd] in *. rewrite Hb in Hd. subst d.
  exists (static_analysis E (files b) ∅), w'. split; [reflexivity|].
  split; [|auto]. intros p. rewrite static_analysis_lookup, lookup_empty. reflexivity.
Qed.

Lemma analyze_bug_absorbs_analyser_failures_witness :
  exists static w',
    analyze_bug tidy_env "CSRF Token Bug" "snapshot" fresh_world
    = (Ret (<["bug_info" := PDict (bug_dict csrf_bug)]>
            (<["static_analysis" := PDict static]>
            (<["context" := PStr "snapshot"]> ∅))), w')
    /\ static !! "frontend/src/services/api.ts"
       = Some (PDict (<["error" := PStr "no such file"]> ∅))
    /\ api_calls w' = 0.
Proof.
  destruct (analyze_bug_absorbs_analyser_failures tidy_env "CSRF Token Bug" "snapshot" csrf_bug
              fresh_world eq_refl) as (static & w' & Hrun & Hlook & Hcalls & _).
  exists static, w'. split; [exact Hrun|]. split; [|exact Hcalls].
  rewrite Hlook. reflexivity.
Defined.

(** X9 -- the two records of the failure analyst.  Once prompts.py has
    built its prompt, [generate_failure_analysis_and_suggestions]
    returns after at most [max_retries] API calls, whatever the API does
    (exceptions included).  Either some call was the first to carry a
    text: the record is the stripped text under "analysis" with
    "success" set, and each call before it cost a pause of one second;
    or none of the [max_retries] calls carried a text: the record is the
    fixed sentence under "analysis", it has no "success" key, and
    there was a pause after every call, the last one included. *)
Theorem failure_analysis_record (E : Env) (bug_name : string) (err code : pyval)
    (content ctx prompt : string) (w : world) :
  extract_relevant_files E content
    (match get_bug_by_name (catalog E) bug_name with
     | Some bug_info => files bug_info
     | None => []
     end) = Ret ctx ->
  generate_failure_analysis_prompt E bug_name err code ctx = Ret prompt ->
  let reply i := generate_content_oracle E (api_calls w + i) (analysis_request E prompt) in
  exists d w' calls,
    generate_failure_analysis_and_suggestions E bug_name err code content w = (Ret d, w')
    /\ api_calls w' = api_calls w + calls /\ calls <= max_retries (config E)
    /\ fs w' = fs w
    /\ (forall i, i < calls - 1 -> reply_text (reply i) = None)
    /\ ((exists text,
           1 <= calls /\ reply_text (reply (calls - 1)) = Some text
           /\ d = <["analysis" := PStr (strip text)]> (<["success" := PBool true]> ∅)
           /\ slept w' = slept w ++ replicate (calls - 1) 1)
        \/ (calls = max_retries (config E)
            /\ (forall i, i < max_retries (config E) -> reply_text (reply i) = None)
            /\ d = <["analysis" :=
                       PStr "Failed to generate intelligent suggestions due to API error."]> ∅
            /\ d !! "success" = None
            /\ slept w' = slept w ++ replicate (max_retries (config E)) 1)).
Proof.
  intros Hctx Hprompt reply.
  unfold generate_failure_analysis_and_suggestions.
  unfold bind at 1. unfold logger at 1. rewrite Hctx. unfold bind at 1, lift at 1.
  rewrite Hprompt. unfold bind at 1, lift at 1.
  match goal with |- context [analysis_loop E bug_name prompt ?n 0 ?w0] =>
    destruct (analysis_loop_trace E bug_name prompt n 0 w0)
      as (d & w' & calls & -> & Hc & Hle & Hf & Hbefore & Hend) end.
  cbn [api_calls fs slept] in *.
  exists d, w', calls. split; [reflexivity|]. split; [exact Hc|]. split; [exact Hle|].
  split; [exact Hf|]. split; [exact Hbefore|].
  destruct Hend as [(text & Hge & Htext & -> & Hs)|(-> & Hnone & -> & Hs)].
  - left. exists text. auto.
  - right. repeat split; auto.
Qed.

Lemma failure_analysis_record_witness :
  exists d w' calls,
    generate_failure_analysis_and_suggestions (env_with 5 late_api) "CSRF Token Bug"
      (PStr "No response from API after max retries") (PStr EmptyString) "snapshot"
      fresh_world = (Ret d, w')
    /\ api_calls w' = 0 + calls /\ calls <= 5 /\ fs w' = fs fresh_world.
Proof.
  destruct (failure_analysis_record (env_with 5 late_api) "CSRF Token Bug"
              (PStr "No response from API after max retries") (PStr EmptyString) "snapshot"
              EmptyString "Analyse CSRF Token Bug" fresh_world eq_refl eq_refl)
    as (d & w' & calls & Hrun & Hcalls & Hle & Hfs & _).
  exists d, w', calls. auto.
Defined.

End AgentEdges.

(** ** The summary of a solution *)

Module SummaryFacts.
Import Py Eff BugDefinitions Agent PyFacts AgentFacts Examples Fixtures.

Lemma substring_whole (s : string) : String.substring 0 (String.length s) s = s.
Proof. induction s as [|c s IH]; [reflexivity|]. cbn. rewrite IH. reflexivity. Qed.

Lemma prefix_cut (lit l : string) :
  String.prefix lit l = true ->
  l = lit +:+ String.substring (String.length lit) (String.length l - String.length lit) l.
Proof.
  revert l. induction lit as [|c lit IH]; intros l Hp.
  - cbn. rewrite Nat.sub_0_r, substring_whole. reflexivity.
  - destruct l as [|d l]; [discriminate|]. cbn in Hp.
    destruct (ascii_dec c d) as [->|]; [|discriminate].
    change (String d lit +:+ ?x) with (String d (lit +:+ x)).
    cbn [String.length String.substring Nat.sub].
    rewrite <- (IH l Hp). reflexivity.
Qed.

Lemma prefix_of_app (lit rest : string) : String.prefix lit (lit +:+ rest) = true.
Proof.
  induction lit as [|c lit IH]; simpl; [destruct rest; reflexivity|].
  destruct (ascii_dec c c); [exact IH|congruence].
Qed.

Lemma substring_after (lit rest : string) :
  String.substring (String.length lit) (String.length (lit +:+ rest) - String.length lit)
    (lit +:+ rest) = rest.
Proof.
  induction lit as [|c lit IH].
  - cbn. rewrite Nat.sub_0_r. apply substring_whole.
  - change (String c lit +:+ rest) with (String c (lit +:+ rest)).
    cbn [String.length String.substring Nat.sub]. exact IH.
Qed.

(** What the pattern for the file lines finds: the rest of every line
    that starts with the literal. *)
Lemma re_findall_line_rest_spec (lit s p : string) :
  p ∈ re_findall_line_rest lit s <-> (lit +:+ p) ∈ split_lines s.
Proof.
  unfold re_findall_line_rest. rewrite list_elem_of_omap. split.
  - intros (l & Hl & Hf). destruct (String.prefix lit l) eqn:Hp; [|discriminate].
    injection Hf as <-. rewrite <- (prefix_cut lit l Hp). exact Hl.
  - intros Hl. exists (lit +:+ p). split; [exact Hl|].
    rewrite prefix_of_app, substring_after. reflexivity.
Qed.

(** X10 -- the summary of a solution whose metadata carry no analysis.
    [get_fix_summary] does not raise: the affected files are read off
    the snippet, one for each distinct rest of a line that starts with
    "File: " (with [list(set(...))] keeping one copy of each item), the
    description and the root cause are empty and the fix summary is the
    sentence "Solution provided as code snippet.". *)
Theorem get_fix_summary_reads_the_snippet (E : Env) (bug_name code : string) (md : dict) :
  md !! "analysis" = None ->
  (forall l, NoDup (list_of_set E l) /\ forall x, x ∈ list_of_set E l <-> x ∈ l) ->
  exists summary detected,
    get_fix_summary E bug_name code md = Ret summary
    /\ summary !! "files_affected" = Some (PList (PStr <$> detected))
    /\ NoDup detected
    /\ (forall p, p ∈ detected <-> ("File: " +:+ p) ∈ split_lines code)
    /\ summary !! "bug_name" = Some (PStr bug_name)
    /\ summary !! "description" = Some (PStr "")
    /\ summary !! "root_cause" = Some (PStr "")
    /\ summary !! "fix_summary" = Some (PStr "Solution provided as code snippet.")
    /\ summary !! "corrected_code_snippet" = Some (PStr code)
    /\ summary !! "analysis_metadata" = Some (PDict md).
Proof.
  intros Hnone Hset. unfold get_fix_summary, get. rewrite Hnone. cbn [as_dict].
  rewrite lookup_empty. cbn [as_dict truthy negb].
  eexists _, (list_of_set E (re_findall_line_rest "File: " code)).
  split; [reflexivity|]. split; [reflexivity|].
  destruct (Hset (re_findall_line_rest "File: " code)) as [Hnd Hmem].
  split; [exact Hnd|]. split.
  - intros p. rewrite Hmem. apply re_findall_line_rest_spec.
  - repeat split.
Qed.

Lemma get_fix_summary_reads_the_snippet_witness :
  exists summary detected,
    get_fix_summary tidy_env "CSRF Token Bug" good_snippet
      (error_meta "No response from API after max retries") = Ret summary
    /\ summary !! "files_affected" = Some (PList (PStr <$> detected))
    /\ NoDup detected.
Proof.
  destruct (get_fix_summary_reads_the_snippet tidy_env "CSRF Token Bug" good_snippet
              (error_meta "No response from API after max retries"))
    as (summary & detected & Hrun & Hfiles & Hnd & _).
  - reflexivity.
  - intros l. split; [apply NoDup_remove_dups|intros x; apply elem_of_remove_dups].
  - exists summary, detected. auto.
Defined.

End SummaryFacts.

(** ** The runner at its edges *)

Module RunnerEdges.
Import Py Eff BugDefinitions Agent Runner PyFacts AgentFacts Frame RunnerFacts Examples
  Fixtures.

(** X11 -- a defect whose solution is generated.  When the [k]-th reply
    is the first accepted one, [process_bug] returns after exactly [k]
    API calls (the failure analyst is not consulted) an outcome with the
    status solution_generated, the accepted code, an empty error, empty
    suggestions, and a summary that carries the description, the root
    cause, the fix summary and, when there are any, the files of the
    catalog entry found under the defect's name. *)
Theorem process_bug_solution_generated (E : Env) (b b' : bug) (content prompt code : string)
    (k : nat) (w : world) :
  get_bug_by_name (catalog E) (name b) = Some b' ->
  generate_enhanced_prompt E (name b) content (analysis_of E b' content) = Ret prompt ->
  usable_prompt prompt ->
  1 <= k <= max_retries (config E) ->
  (forall i, i < k - 1 ->
     accepted_snippet (generate_content_oracle E (api_calls w + i) (fix_request E prompt))
     = None) ->
  accepted_snippet (generate_content_oracle E (api_calls w + (k - 1)) (fix_request E prompt))
  = Some code ->
  exists payload summary w',
    process_bug E b content w = (Ret payload, w')
    /\ api_calls w' = api_calls w + k
    /\ payload !! "bug_name" = Some (PStr (name b))
    /\ payload !! "status" = Some (PStr "solution_generated")
    /\ payload !! "generated_code_solution" = Some (PStr code)
    /\ payload !! "error" = Some (PStr "")
    /\ payload !! "ai_suggestions" = Some (PStr "")
    /\ payload !! "fix_summary" = Some (PDict summary)
    /\ summary !! "description" = Some (PStr (description b'))
    /\ summary !! "root_cause" = Some (PStr (root_cause b'))
    /\ summary !! "fix_summary" = Some (PStr (fix_summary b'))
    /\ summary !! "corrected_code_snippet" = Some (PStr code)
    /\ (files b' <> [] -> summary !! "files_affected" = Some (PList (PStr <$> files b'))).
Proof.
  intros Hb Hprompt Husable Hk Hbefore Hacc.
  destruct (generate_fix_enters_loop E (name b) content b' prompt (entering b w)
              Hb Hprompt Husable) as (w1 & Hc & Hgen).
  change (api_calls (entering b w)) with (api_calls w) in Hc.
  destruct (fix_loop_first_accepted E (name b) prompt (analysis_of E b' content) code (k - 1)
              (max_retries (config E)) 0 w1) as (w' & Hrun & Hcalls).
  - reflexivity.
  - lia.
  - intros i Hi. rewrite Hc. apply Hbefore, Hi.
  - rewrite Hc. exact Hacc.
  - pose proof (accepted_snippet_nonempty _ _ Hacc) as Hcode.
    unfold process_bug. unfold bind at 1 2. unfold logger at 1.
    unfold generate_solution, bind at 1, attempt.
    change (World (api_calls w) (slept w) (log w ++ [(INFO, "Processing bug: " +:+ name b)])
              (stdout w) (fs w)) with (entering b w).
    rewrite Hgen, Hrun. destruct code as [|c code]; [congruence|]. cbn [nonempty negb].
    unfold get_fix_summary, success_meta, analysis_of, get, as_dict.
    rewrite lookup_insert_ne by discriminate. rewrite lookup_insert_eq.
    rewrite lookup_insert_eq.
    unfold ret at 1. unfold add_suggestions, index.
    rewrite lookup_insert_ne by discriminate. rewrite lookup_insert_eq.
    unfold bind at 1, lift at 1. cbn [eq_str String.eqb Ascii.eqb Bool.eqb negb].
    eexists _, _, w'. split; [reflexivity|]. split; [lia|].
    repeat (split; [reflexivity|]).
    intros Hfiles. rewrite lookup_insert_ne by discriminate.
    rewrite lookup_insert_ne by discriminate. rewrite lookup_insert_ne by discriminate.
    rewrite lookup_insert_ne by discriminate. rewrite lookup_insert_eq.
    change (bug_dict b' !! "files") with (Some (PList (PStr <$> files b'))).
    destruct (files b'); [congruence|reflexivity].
Qed.

Lemma process_bug_solution_generated_witness :
  exists payload w',
    process_bug (env_with 5 third_time_api) csrf_bug "snapshot" fresh_world = (Ret payload, w')
    /\ api_calls w' = 0 + 3
    /\ payload !! "status" = Some (PStr "solution_generated")
    /\ payload !! "generated_code_solution" = Some (PStr good_snippet).
Proof.
  destruct (process_bug_solution_generated (env_with 5 third_time_api) csrf_bug csrf_bug
              "snapshot" "Fix CSRF Token Bug" good_snippet 3 fresh_world)
    as (payload & summary & w' & Hrun & Hcalls & _ & Hstatus & Hcode & _).
  - reflexivity.
  - reflexivity.
  - split; reflexivity.
  - simpl. lia.
  - intros i Hi. destruct i as [|[|i]]; [reflexivity|reflexivity|simpl in Hi; lia].
  - vm_compute. reflexivity.
  - exists payload, w'. auto.
Defined.

(** The exceptions [setup_environment] answers with [False]. *)
Definition setup_failure (e : exn) : bool :=
  match e with
  | CalledProcessError _ | FileNotFoundError _ => true
  | _ => false
  end.

(** The two commands [setup_environment] runs. *)
Definition install_command (H : Host) : list string :=
  [sys_executable H; "-m"; "pip"; "install"; "-r";
   os_path_join (host_agent_dir H) "requirements.txt";
   "--upgrade"; "--no-warn-script-location"].

Definition inspect_command (E : Env) (H : Host) : list string :=
  [sys_executable H; os_path_join (project_root (config E)) "inspector.py"; "-d"; "."].

(** [setup_environment], run: the result and the files follow the two
    commands, the log apart. *)
Lemma setup_environment_run (E : Env) (H : Host) (w : world) :
  setup_environment E H w
  = let answer (e : exn) (w1 : world) : result bool * world :=
      if setup_failure e
      then (logger ERROR ("Failed to setup environment: " +:+ str_exn e) ;;
            logger ERROR ("Stdout/Stderr:" +:+ NL +:+ process_streams H e) ;;
            ret false) w1
      else (Raise e, w1) in
    let w1 := snd ((logger INFO "Setting up environment..." ;;
                    logger INFO ("Installing agent dependencies from "
                                 +:+ os_path_join (host_agent_dir H) "requirements.txt"
                                 +:+ "...")) w) in
    match subprocess_run H (install_command H) (fs w) with
    | (Raise e, f1) =>
        answer e (World (api_calls w1) (slept w1) (log w1) (stdout w1) f1)
    | (Ret _, f1) =>
        let w2 := snd ((logger INFO "Agent dependencies installed successfully." ;;
                        logger INFO
                          "Inspecting the codebase to create context file ('codebase_content.txt')...")
                         (World (api_calls w1) (slept w1) (log w1) (stdout w1) f1)) in
        match subprocess_run H (inspect_command E H) f1 with
        | (Raise e, f2) =>
            answer e (World (api_calls w2) (slept w2) (log w2) (stdout w2) f2)
        | (Ret _, f2) =>
            (Ret true,
             snd (logger INFO "Codebase inspection complete."
                    (World (api_calls w2) (slept w2) (log w2) (stdout w2) f2)))
        end
    end.
Proof.
  unfold setup_environment, install_command, inspect_command.
  unfold bind at 1, logger at 1. unfold bind at 1, logger at 1.
  unfold bind at 1, subprocess at 1. cbn [fs].
  destruct (subprocess_run H _ (fs w)) as [[[]|e] f1].
  - unfold bind at 1, logger at 1. unfold bind at 1, logger at 1.
    unfold bind at 1, subprocess at 1. cbn [fs].
    destruct (subprocess_run H _ f1) as [[[]|e] f2].
    + reflexivity.
    + destruct e; reflexivity.
  - destruct e; reflexivity.
Qed.

(** X12 -- the ways [setup_environment] ends.  The dependencies are
    installed first and the inspector is started only when that command
    succeeded; the result is true when both commands succeeded, false
    when the first one to fail raised [CalledProcessError] or
    [FileNotFoundError], and any other exception of a command leaves
    [setup_environment].  The files are as the last command run left
    them, and no API call is made. *)
Theorem setup_environment_outcomes (E : Env) (H : Host) (w : world) :
  let r := setup_environment E H w in
  api_calls (snd r) = api_calls w
  /\ match subprocess_run H (install_command H) (fs w) with
     | (Raise e, f1) =>
         fs (snd r) = f1 /\ fst r = if setup_failure e then Ret false else Raise e
     | (Ret _, f1) =>
         match subprocess_run H (inspect_command E H) f1 with
         | (Ret _, f2) => fs (snd r) = f2 /\ fst r = Ret true
         | (Raise e, f2) =>
             fs (snd r) = f2 /\ fst r = if setup_failure e then Ret false else Raise e
         end
     end.
Proof.
  intros r. subst r. rewrite (setup_environment_run E H w).
  unfold install_command, inspect_command.
  destruct (subprocess_run H _ (fs w)) as [[[]|e] f1].
  - destruct (subprocess_run H _ f1) as [[[]|e] f2].
    + repeat split.
    + destruct e; repeat split.
  - destruct e; repeat split.
Qed.

Lemma setup_environment_calls (E : Env) (H : Host) (w : world) :
  api_calls (snd (setup_environment E H w)) = api_calls w.
Proof.
  rewrite (setup_environment_run E H w).
  destruct (subprocess_run H _ (fs w)) as [[[]|e] f1].
  - destruct (subprocess_run H _ f1) as [[[]|e] f2]; [reflexivity|destruct e; reflexivity].
  - destruct e; reflexivity.
Qed.

(** X13 -- a run without a snapshot.  When the setup fails, or when it
    succeeds and the snapshot file is missing or empty, [run] returns
    false with the counters untouched, without any API call; the files
    are as the setup left them (no report is written, an empty snapshot
    is not removed), and the last log record is the error of the early return taken. *)
Theorem run_stops_without_snapshot (E : Env) (H : Host) (results : Results) (w : world) :
  let started := snd (logger INFO "Bug Fixer Agent process started." w) in
  let ready := setup_environment E H started in
  fst ready = Ret false
  \/ (fst ready = Ret true
      /\ (fs (snd ready) !! codebase_content_path E = None
          \/ fs (snd ready) !! codebase_content_path E = Some EmptyString)) ->
  exists w',
    run E H results w = (Ret (false, results), w')
    /\ api_calls w' = api_calls w
    /\ fs w' = fs (snd ready)
    /\ last (log w')
       = Some (ERROR, match fst ready with
                      | Ret true => "Failed to load codebase content. Exiting."
                      | _ => "Failed to setup environment. Exiting."
                      end).
Proof.
  intros started ready Hcase.
  pose proof (setup_environment_calls E H started) as Hcalls. fold ready in Hcalls.
  change (api_calls started) with (api_calls w) in Hcalls.
  unfold run, bind at 1, prepare. unfold bind at 1, logger at 1.
  unfold bind at 1.
  change (setup_environment E H _) with ready.
  destruct ready as [r w1]. cbn [fst snd] in *.
  destruct Hcase as [->|[-> Hfile]]; cbn [negb].
  - run_eff. eexists. split; [reflexivity|]. cbn [api_calls fs log].
    split; [exact Hcalls|]. split; [reflexivity|]. apply last_snoc.
  - unfold bind at 1, load_codebase_content, bind at 1, read_fs at 1.
    destruct Hfile as [->| ->]; run_eff; eexists; (split; [reflexivity|]);
      cbn [api_calls fs log]; (split; [exact Hcalls|]); (split; [reflexivity|]);
      apply last_snoc.
Qed.

Lemma run_stops_without_snapshot_witness :
  exists w',
    run (runner_env idle_host (env_with 5 helpful_api)) idle_host initial_results fresh_world
    = (Ret (false, initial_results), w')
    /\ api_calls w' = 0.
Proof.
  destruct (run_stops_without_snapshot (runner_env idle_host (env_with 5 helpful_api))
              idle_host initial_results fresh_world) as (w' & Hrun & Hcalls & _).
  - right. split; [reflexivity|]. left. reflexivity.
  - exists w'. split; [exact Hrun|exact Hcalls].
Defined.

(** X14 -- a runner that cannot be built.  Without an API credential
    (none, or the empty text), or with a client that cannot be
    configured, the process ends with status 1 before [run] is entered:
    no command is run on the files and no API call is made.  Without a
    credential the logger is not used at all (the ValueError of
    config.py leaves with no record of it); with a credential and a
    client that cannot be configured the logger gets two records, the
    announcement and the error with the text of the exception. *)
Theorem main_stops_when_runner_cannot_be_built (H : Host) (P : Env) (w : world) :
  host_api_key H = None \/ host_api_key H = Some EmptyString \/ is_Some (client_failure H) ->
  fst (main H P w) = 1%Z
  /\ api_calls (snd (main H P w)) = api_calls w
  /\ fs (snd (main H P w)) = fs w
  /\ log (snd (main H P w))
     = log w ++ match host_api_key H, client_failure H with
                | Some (String _ _), Some e =>
                    [(INFO, "Configuring Google GenAI client...");
                     (ERROR, "Failed to configure Google GenAI client: " +:+ str_exn e)]
                | _, _ => []
                end.
Proof.
  intros Hcase. unfold main, bind at 1, init_runner.
  destruct Hcase as [->|[->|[e He]]].
  - cbn. rewrite app_nil_r. repeat split.
  - cbn. rewrite app_nil_r. repeat split.
  - rewrite He. destruct (host_api_key H) as [[|c key]|]; run_eff;
      rewrite <- ?app_assoc, ?app_nil_r; repeat split.
Qed.

Lemma main_stops_when_runner_cannot_be_built_witness :
  fst (main offline_host (env_with 5 helpful_api) fresh_world) = 1%Z
  /\ api_calls (snd (main offline_host (env_with 5 helpful_api) fresh_world)) = 0
  /\ log (snd (main offline_host (env_with 5 helpful_api) fresh_world))
     = [(INFO, "Configuring Google GenAI client...");
        (ERROR, "Failed to configure Google GenAI client: Could not reach the API endpoint.")].
Proof.
  destruct (main_stops_when_runner_cannot_be_built offline_host (env_with 5 helpful_api)
              fresh_world) as (Hstatus & Hcalls & _ & Hlog).
  - right. right. eexists. reflexivity.
  - split; [exact Hstatus|]. split; [exact Hcalls|exact Hlog].
Defined.

End RunnerEdges.

(** ** Counters, verdict and files of a run *)

Module VerdictFacts.
Import Py Eff BugDefinitions Agent Runner PyFacts AgentFacts Frame RunnerFacts LoopFacts
  Examples Fixtures.

(** The outcome records a generated solution. *)
Definition is_solved (p : dict) : bool :=
  match p !! "status" with
  | Some status => eq_str status "solution_generated"
  | None => false
  end.

Definition solved_count (outcomes : list dict) : nat :=
  length (filter (fun p => is_solved p = true) outcomes).

Definition names_outcome (b : bug) (p : dict) : Prop :=
  p !! "bug_name" = Some (PStr (name b)).

Section WithEnv.
Variable E : Env.
Variable H : Host.

Lemma generate_solution_keeps_name bug_name content p0 w p w' :
  generate_solution E bug_name content p0 w = (Ret p, w') ->
  p !! "bug_name" = p0 !! "bug_name".
Proof.
  unfold generate_solution, bind at 1, attempt.
  destruct (generate_fix E bug_name content w) as [[[code md]|e] w1].
  - destruct (negb (nonempty code)).
    + intros [= <- <-]. rewrite !lookup_insert_ne by discriminate. reflexivity.
    + destruct (get_fix_summary E bug_name code md) as [summary|e].
      * intros [= <- <-]. rewrite !lookup_insert_ne by discriminate. reflexivity.
      * unfold on_error. run_eff. intros [= <- <-].
        rewrite !lookup_insert_ne by discriminate. reflexivity.
  - unfold on_error. run_eff. intros [= <- <-].
    rewrite !lookup_insert_ne by discriminate. reflexivity.
Qed.

Lemma add_suggestions_keeps_name bug_name content p0 w p w' :
  add_suggestions E bug_name content p0 w = (Ret p, w') ->
  p !! "bug_name" = p0 !! "bug_name".
Proof.
  unfold add_suggestions. unfold bind at 1, lift at 1.
  destruct (index p0 "status") as [status|e]; [|discriminate].
  destruct (negb (eq_str status "solution_generated")); [|intros [= <- <-]; reflexivity].
  unfold bind at 1, lift at 1. destruct (index p0 "error") as [err|e]; [|discriminate].
  unfold bind at 1, lift at 1.
  destruct (index p0 "generated_code_solution") as [code|e]; [|discriminate].
  unfold bind at 1.
  destruct (generate_failure_analysis_and_suggestions E bug_name err code content w)
    as [[d|e] w1]; [|discriminate].
  unfold bind at 1, lift at 1. destruct (index d "success") as [success|e]; [|discriminate].
  destruct (truthy success).
  - unfold bind at 1, lift at 1. destruct (index d "analysis") as [a|e]; [|discriminate].
    intros [= <- <-]. rewrite lookup_insert_ne by discriminate. reflexivity.
  - intros [= <- <-]. rewrite lookup_insert_ne by discriminate. reflexivity.
Qed.

Lemma process_bug_names_its_outcome b content w p w' :
  process_bug E b content w = (Ret p, w') -> names_outcome b p.
Proof.
  unfold process_bug. unfold bind at 1, logger at 1. unfold bind at 1.
  match goal with |- context [generate_solution E ?n ?c ?p0 ?w0] =>
    destruct (generate_solution E n c p0 w0) as [[p1|e] w1] eqn:Hgen end; [|discriminate].
  intros Hadd. apply add_suggestions_keeps_name in Hadd.
  apply generate_solution_keeps_name in Hgen. unfold names_outcome.
  rewrite Hadd, Hgen. reflexivity.
Qed.

(** Whenever the loop of [run] gets through its defects, the counters
    have moved with the outcomes. *)
Lemma run_loop_counts content bugs : forall bug_results results w outcomes results' w',
  run_loop E H bugs content bug_results results w = (Ret (outcomes, results'), w') ->
  exists new,
    outcomes = bug_results ++ new
    /\ Forall2 names_outcome bugs new
    /\ bugs_processed results' = bugs_processed results + length bugs
    /\ bugs_fixed results' = bugs_fixed results + solved_count new
    /\ bugs_failed results' = bugs_failed results + (length bugs - solved_count new)
    /\ solved_count new <= length bugs.
Proof.
  induction bugs as [|b rest IH]; intros bug_results results w outcomes results' w'.
  - cbn [run_loop]. intros [= <- <- <-]. exists []. rewrite app_nil_r.
    cbn. repeat split; try constructor; lia.
  - cbn [run_loop]. unfold bind at 1, print at 1. unfold bind at 1.
    match goal with |- context [process_bug E b content ?w0] =>
      destruct (process_bug E b content w0) as [[p|e] w1] eqn:Hp end; [|discriminate].
    apply process_bug_names_its_outcome in Hp.
    unfold bind at 1, lift at 1. unfold index.
    destruct (p !! "status") as [status|] eqn:Hstatus; [|discriminate].
    unfold bind at 1, lift at 1.
    destruct (upper_val status) as [status_upper|e]; [|discriminate].
    unfold bind at 1, print at 1. unfold bind at 1.
    match goal with
    | |- context [run_loop E H rest content ?rs ?r0] => set (results1 := r0)
    end.
    match goal with
    | |- context [(if ?g then ?m1 else ?m2) ?w0] =>
        destruct ((if g then m1 else m2) w0) as [[[]|e] w2]
    end; [|discriminate].
    intros Hrest. apply IH in Hrest as (new & -> & Hall & Hproc & Hfix & Hfail & Hle).
    exists (p :: new). rewrite <- app_assoc. split; [reflexivity|].
    split; [constructor; assumption|].
    assert (Hcount : solved_count (p :: new)
                     = if eq_str status "solution_generated" then S (solved_count new)
                       else solved_count new).
    { assert (Hs : is_solved p = eq_str status "solution_generated")
        by (unfold is_solved; rewrite Hstatus; reflexivity).
      unfold solved_count. rewrite filter_cons.
      destruct (eq_str status "solution_generated").
      - rewrite decide_True by exact Hs. reflexivity.
      - rewrite decide_False by (rewrite Hs; discriminate). reflexivity. }
    rewrite Hcount. subst results1.
    cbn [bugs_processed bugs_fixed bugs_failed length] in *.
    destruct (eq_str status "solution_generated"); repeat split; lia.
Qed.

End WithEnv.

(** X15 -- the verdict counts the outcomes without a solution.
    Whenever the loop-and-report part of [run], started with fresh
    counters, returns: there is one outcome per defect of the catalog,
    named after it, in order; the report built from them is in the
    report file; [bugs_fixed] is the number of outcomes with the status
    solution_generated and [bugs_failed] the number of the others; and
    the verdict is true exactly when every outcome has that status. *)
Theorem run_verdict_counts_the_unsolved (E : Env) (H : Host) (content : string) (w : world)
    (verdict : bool) (results : Results) (w' : world) :
  process_and_report E H content initial_results w = (Ret (verdict, results), w') ->
  exists outcomes report,
    Forall2 names_outcome (catalog E) outcomes
    /\ generate_report E H outcomes = Ret report
    /\ fs w' !! report_path E = Some report
    /\ bugs_processed results = length (catalog E)
    /\ bugs_fixed results = solved_count outcomes
    /\ bugs_failed results = length (catalog E) - solved_count outcomes
    /\ (verdict = true <-> solved_count outcomes = length (catalog E)).
Proof.
  unfold process_and_report. unfold bind at 1 2. unfold logger at 1.
  unfold get_all_bugs.
  match goal with |- context [run_loop E H (catalog E) content [] initial_results ?w0] =>
    destruct (run_loop E H (catalog E) content [] initial_results w0)
      as [[[bug_results r1]|e] w1] eqn:Hloop end; [|discriminate].
  apply run_loop_counts in Hloop as (outcomes & -> & Hall & Hproc & Hfix & Hfail & Hle).
  cbn [app fst snd bugs_processed bugs_fixed bugs_failed initial_results] in *.
  unfold bind at 1, lift at 1.
  destruct (generate_report E H outcomes) as [report|e] eqn:Hreport; [|discriminate].
  unfold bind at 1, read_fs at 1. unfold bind at 1, write_fs at 1.
  unfold bind at 1, logger at 1. unfold bind at 1, logger at 1.
  unfold bind at 1, lift at 1.
  destruct (bugs_processed r1) as [|n] eqn:Hbp; [discriminate|].
  unfold bind at 1, logger at 1. unfold bind at 1, read_fs at 1. cbn [fs].
  unfold bind at 1.
  match goal with |- context [match ?m !! ?k with _ => _ end] =>
    destruct (m !! k) end; run_eff; intros [= <- <- <-];
    exists outcomes, report; (split; [exact Hall|]); (split; [exact Hreport|]); cbn [fs].
  - rewrite lookup_delete_ne by apply report_path_is_not_the_snapshot.
    rewrite lookup_insert_eq. split; [reflexivity|]. split; [lia|].
    split; [lia|]. split; [lia|].
    rewrite bool_decide_eq_true. lia.
  - rewrite lookup_insert_eq. split; [reflexivity|]. split; [lia|].
    split; [lia|]. split; [lia|].
    rewrite bool_decide_eq_true. lia.
Qed.

Lemma run_verdict_counts_the_unsolved_witness :
  exists outcomes,
    Forall2 names_outcome planted_bugs outcomes
    /\ solved_count outcomes = 4.
Proof.
  destruct (run_verdict_counts_the_unsolved (runner_env ready_host (env_with 5 late_api))
              ready_host "snapshot of the code base" fresh_world false
              {| bugs_processed := 5; bugs_fixed := 4; bugs_failed := 1 |}
              (snd (process_and_report (runner_env ready_host (env_with 5 late_api)) ready_host
                      "snapshot of the code base" initial_results fresh_world)))
    as (outcomes & report & Hall & _ & _ & _ & Hfixed & _).
  - vm_compute. reflexivity.
  - exists outcomes. split; [exact Hall|]. symmetry. exact Hfixed.
Defined.

(** X16 -- the files a run changes.  When the loop-and-report part of
    [run] returns, the files differ from those it started with by the
    report written and the snapshot removed, and by nothing else; when
    it raises, the snapshot file is as it was: a run that fails leaves
    it behind. *)
Theorem process_and_report_files (E : Env) (H : Host) (content : string)
    (results : Results) (w : world) :
  match process_and_report E H content results w with
  | (Ret _, w') =>
      exists report,
        fs w' = delete (codebase_content_path E) (<[report_path E := report]> (fs w))
  | (Raise _, w') =>
      fs w' !! codebase_content_path E = fs w !! codebase_content_path E
  end.
Proof.
  unfold process_and_report. unfold bind at 1 2. unfold logger at 1.
  unfold get_all_bugs.
  match goal with |- context [run_loop E H (catalog E) content [] results ?w0] =>
    pose proof (keeps_run_loop E H (catalog E) content [] results w0) as Hkeep;
    destruct (run_loop E H (catalog E) content [] results w0)
      as [[[bug_results r1]|e] w1] end; cbn [snd fs] in Hkeep.
  2: { rewrite Hkeep. reflexivity. }
  cbn [fst snd]. unfold bind at 1, lift at 1.
  destruct (generate_report E H bug_results) as [report|e].
  2: { rewrite Hkeep. reflexivity. }
  unfold bind at 1, read_fs at 1. unfold bind at 1, write_fs at 1.
  unfold bind at 1, logger at 1. unfold bind at 1, logger at 1.
  unfold bind at 1, lift at 1.
  destruct (bugs_processed r1).
  { cbn [fs]. rewrite Hkeep.
    rewrite lookup_insert_ne by (apply not_eq_sym, report_path_is_not_the_snapshot).
    reflexivity. }
  unfold bind at 1, logger at 1. unfold bind at 1, read_fs at 1. cbn [fs].
  unfold bind at 1.
  match goal with |- context [match ?m !! ?k with _ => _ end] =>
    destruct (m !! k) eqn:Hsnap end; run_eff; exists report; rewrite Hkeep in *.
  - reflexivity.
  - symmetry. apply delete_id. exact Hsnap.
Qed.

End VerdictFacts.

(** ** What the report shows *)

Module ReportContents.
Import Py Eff BugDefinitions Agent Runner ReportFacts Examples Fixtures.

Ltac in_list := repeat first [apply list_elem_of_here | apply list_elem_of_further].

Lemma contains_at_start (v rest : string) : contains v (v +:+ rest) = true.
Proof.
  assert (Hp : String.prefix v (v +:+ rest) = true).
  { induction v as [|c v IH]; simpl; [destruct rest; reflexivity|].
    destruct (ascii_dec c c); [exact IH|congruence]. }
  destruct (v +:+ rest); cbn [contains]; rewrite Hp; reflexivity.
Qed.

Lemma contains_self (v : string) : contains v v = true.
Proof.
  assert (Hv : v +:+ EmptyString = v).
  { induction v as [|c v IH]; [reflexivity|].
    change (String c v +:+ EmptyString) with (String c (v +:+ EmptyString)).
    rewrite IH. reflexivity. }
  rewrite <- Hv at 2. apply contains_at_start.
Qed.

Lemma contains_later (pre v s : string) : contains v s = true -> contains v (pre +:+ s) = true.
Proof.
  intros Hs. induction pre as [|c pre IH]; [exact Hs|].
  change (String c pre +:+ s) with (String c (pre +:+ s)).
  cbn [contains]. rewrite IH. apply orb_true_r.
Qed.

(** Every item of a joined list stands in the joined text. *)
Lemma contains_join (sep s : string) (ss : list string) :
  s ∈ ss -> contains s (join sep ss) = true.
Proof.
  induction ss as [|x ss IH]; intros Hin; [inversion Hin|].
  destruct ss as [|y ss].
  - apply list_elem_of_singleton in Hin. subst x. apply contains_self.
  - cbn [join] in *. apply elem_of_cons in Hin as [->|Hin].
    + apply contains_at_start.
    + apply contains_later, contains_later, IH, Hin.
Qed.

Lemma join_lines_contains (lines : list pyval) (text : string) (x : pyval) :
  join_lines lines = Ret text -> x ∈ lines ->
  exists s, x = PStr s /\ contains s text = true.
Proof.
  unfold join_lines.
  destruct (mapM _ lines) as [ss|] eqn:Hm; [|discriminate]. intros [= <-] Hin.
  apply mapM_Some in Hm.
  destruct (proj1 (list_elem_of_lookup _ _) Hin) as [i Hi].
  destruct (Forall2_lookup_l _ _ _ _ _ Hm Hi) as (s & Hs & Hx).
  destruct x; try discriminate. injection Hx as ->.
  exists s. split; [reflexivity|]. apply contains_join.
  apply list_elem_of_lookup. eauto.
Qed.

Section WithEnv.
Variable E : Env.
Variable H : Host.

Lemma report_sections_lookup bug_results : forall i lines k p,
  report_sections H i bug_results = Ret lines ->
  bug_results !! k = Some p ->
  exists ls, report_section H (i + k) p = Ret ls /\ forall x, x ∈ ls -> x ∈ lines.
Proof.
  induction bug_results as [|r rest IH]; intros i lines k p Hrun Hk; [discriminate|].
  cbn [report_sections] in Hrun.
  destruct (report_section H i r) as [ls|e] eqn:Hr; [|discriminate].
  destruct (report_sections H (S i) rest) as [more|e] eqn:Hrest; [|discriminate].
  injection Hrun as <-. destruct k as [|k]; cbn in Hk.
  - injection Hk as <-. rewrite Nat.add_0_r. exists ls. split; [exact Hr|].
    intros x Hx. apply elem_of_app. left. exact Hx.
  - destruct (IH (S i) more k p Hrest Hk) as (ls' & Hp & Hsub).
    replace (i + S k) with (S i + k) by lia.
    exists ls'. split; [exact Hp|]. intros x Hx. apply elem_of_app. right. auto.
Qed.

End WithEnv.

(** An outcome as [process_bug] leaves it: one of the three statuses it
    sets, the name and the code as texts, the summary with its list of
    files beside a generated solution, the analyst's text beside
    anything else. *)
Definition built_outcome (p : dict) : Prop :=
  (exists bug_name, p !! "bug_name" = Some (PStr bug_name))
  /\ (exists code, p !! "generated_code_solution" = Some (PStr code))
  /\ ((p !! "status" = Some (PStr "solution_generated")
       /\ exists summary files,
            p !! "fix_summary" = Some (PDict summary)
            /\ summary !! "files_affected" = Some (PList (PStr <$> files)))
      \/ ((p !! "status" = Some (PStr "failed_to_generate_solution")
           \/ p !! "status" = Some (PStr "error"))
          /\ exists suggestions, p !! "ai_suggestions" = Some (PStr suggestions))).

Lemma outcome_built (p : dict) : outcome p -> built_outcome p.
Proof.
  intros [Hname [[Hs (code & summary & files & Hcode & Hsum & Hfiles)]
                |[Hs (code & sug & Hcode & Hsug)]]]; (split; [exact Hname|]); split; eauto 10.
Qed.

Lemma built_status (p : dict) :
  built_outcome p ->
  exists status, p !! "status" = Some (PStr status)
    /\ status ∈ ["solution_generated"; "failed_to_generate_solution"; "error"].
Proof.
  intros (_ & _ & [[Hs _]|[[Hs|Hs] _]]); eexists; (split; [exact Hs|]); in_list.
Qed.

Lemma built_count (bug_results : list dict) :
  Forall built_outcome bug_results -> exists n, count_solution_generated bug_results = Ret n.
Proof.
  induction 1 as [|p rest Hp _ [n IH]]; cbn [count_solution_generated]; [eauto|].
  destruct (built_status p Hp) as (status & Hs & _).
  unfold index. rewrite Hs, IH. eauto.
Qed.

Section Built.
Variable H : Host.

(** The section of a built outcome: all its lines are texts, and they
    hold the heading, the status in capitals, the code, and for an
    outcome without a solution the error and the analyst's text. *)
Lemma built_section (i : nat) (p : dict) :
  built_outcome p ->
  exists ss bug_name status code,
    report_section H i p = Ret (PStr <$> ss)
    /\ p !! "bug_name" = Some (PStr bug_name)
    /\ p !! "status" = Some (PStr status)
    /\ p !! "generated_code_solution" = Some (PStr code)
    /\ ("BUG " +:+ str_nat i +:+ ": " +:+ bug_name) ∈ ss
    /\ ("Status: " +:+ upper status) ∈ ss
    /\ (code = EmptyString \/ code ∈ ss)
    /\ if String.eqb status "solution_generated" then True
       else ("Error: " +:+ str_val H (get p "error" (PStr "Unknown error"))) ∈ ss
            /\ exists suggestions,
                 p !! "ai_suggestions" = Some (PStr suggestions)
                 /\ (suggestions = EmptyString \/ suggestions ∈ ss).
Proof.
  intros ([bug_name Hname] & [code Hcode] & Hcases).
  unfold report_section, index, get. rewrite Hname.
  destruct Hcases as [[Hs (summary & files & Hsum & Hfiles)]|[Hs [sug Hsug]]].
  - rewrite Hs, Hsum. cbn [upper_val eq_str as_dict]. cbn [String.eqb Ascii.eqb Bool.eqb].
    rewrite Hfiles. unfold join_val. rewrite mapM_strings, Hcode. cbn [str_val app].
    eexists (_ :: _ :: _ :: _ :: _ :: _ :: _ :: code :: _ :: _ :: []), bug_name, _, code.
    split; [reflexivity|]. split; [reflexivity|]. split; [reflexivity|].
    split; [reflexivity|]. split; [in_list|]. split; [in_list|].
    split; [right; in_list|]. exact I.
  - assert (Hne : exists status,
               p !! "status" = Some (PStr status)
               /\ String.eqb status "solution_generated" = false).
    { destruct Hs as [Hs|Hs]; eexists; (split; [exact Hs|reflexivity]). }
    clear Hs. destruct Hne as (status & Hs & Hne).
    rewrite Hs, Hcode, Hsug. cbn [upper_val eq_str]. rewrite Hne. cbn [str_val].
    exists ([ "BUG " +:+ str_nat i +:+ ": " +:+ bug_name;
              "Status: " +:+ upper status;
              repeat_char "-" 40;
              "Error: " +:+ str_val H (get p "error" (PStr "Unknown error")) ]
            ++ (if nonempty code
                then [NL +:+ "--- ATTEMPTED CODE SOLUTION ---"; code;
                      "-------------------------------"]
                else [NL +:+ "No code solution was generated in the initial attempt."])
            ++ (if nonempty sug
                then [NL +:+ "--- AI-GENERATED FAILURE ANALYSIS AND IMPROVED SOLUTION ---"; sug;
                      "---------------------------------------------------------"]
                else [NL +:+ "No specific AI-generated suggestions available for this failure."])
            ++ [EmptyString]), bug_name, status, code.
    split; [unfold get; destruct code, sug; reflexivity|].
    split; [reflexivity|]. split; [reflexivity|]. split; [reflexivity|].
    split; [in_list|]. split; [in_list|].
    split; [destruct code; [left; reflexivity|right; cbn [nonempty app]; in_list]|].
    rewrite Hne. split; [in_list|]. exists sug. split; [reflexivity|].
    destruct sug; [left; reflexivity|right].
    destruct code; cbn [nonempty app]; in_list.
Qed.

Lemma built_sections (bug_results : list dict) : forall i,
  Forall built_outcome bug_results ->
  exists ss, report_sections H i bug_results = Ret (PStr <$> ss).
Proof.
  induction bug_results as [|p rest IH]; intros i Hall; cbn [report_sections].
  - exists []. reflexivity.
  - inversion Hall as [|? ? Hp Hrest]; subst.
    destruct (built_section i p Hp) as (s1 & _ & _ & _ & -> & _).
    destruct (IH (S i) Hrest) as (s2 & ->).
    exists (s1 ++ s2). rewrite fmap_app. reflexivity.
Qed.

End Built.

(** X17 -- every outcome shows in the report.  For outcomes as
    [process_bug] leaves them, at least one of them, [generate_report]
    returns a report, and the report holds, for the outcome at position
    [i] (from 0): the heading "BUG <i+1>: <name>", the line "Status:
    <STATUS>" with the status in capitals, and its code; for an outcome
    without a solution also the line "Error: <error>" and the analyst's
    text. *)
Theorem generate_report_shows_every_outcome (E : Env) (H : Host) (bug_results : list dict) :
  bug_results <> [] -> Forall built_outcome bug_results ->
  exists report,
    generate_report E H bug_results = Ret report
    /\ forall i p,
         bug_results !! i = Some p ->
         exists bug_name status code,
           p !! "bug_name" = Some (PStr bug_name)
           /\ p !! "status" = Some (PStr status)
           /\ status ∈ ["solution_generated"; "failed_to_generate_solution"; "error"]
           /\ p !! "generated_code_solution" = Some (PStr code)
           /\ contains ("BUG " +:+ str_nat (S i) +:+ ": " +:+ bug_name) report = true
           /\ contains ("Status: " +:+ upper status) report = true
           /\ contains code report = true
           /\ (status <> "solution_generated" ->
               contains ("Error: " +:+ str_val H (get p "error" (PStr "Unknown error"))) report
               = true
               /\ exists suggestions,
                    p !! "ai_suggestions" = Some (PStr suggestions)
                    /\ contains suggestions report = true).
Proof.
  intros Hne Hall.
  destruct (built_count bug_results Hall) as [n Hn].
  destruct (built_sections H bug_results 1 Hall) as [sections Hsections].
  assert (Hreport : exists report, generate_report E H bug_results = Ret report).
  { unfold generate_report. rewrite Hn.
    destruct bug_results as [|p rest]; [congruence|]. cbn [length]. rewrite Hsections.
    apply join_lines_strings. unfold report_footer.
    assert (Hs : all_str (PStr <$> sections)) by (eexists; reflexivity).
    destruct (0 <? _)%nat; cbn [app]; auto 40 with report. }
  destruct Hreport as [report Hreport]. exists report. split; [exact Hreport|].
  intros i p Hp.
  unfold generate_report in Hreport. rewrite Hn in Hreport.
  destruct (length bug_results); [discriminate|]. rewrite Hsections in Hreport.
  destruct (report_sections_lookup H bug_results 1 _ i p Hsections Hp)
    as (ls & Hsection & Hsub).
  assert (Hbuilt : built_outcome p).
  { rewrite Forall_forall in Hall. apply Hall. apply list_elem_of_lookup. eauto. }
  destruct (built_status p Hbuilt) as (status' & Hstatus' & Hthree).
  destruct (built_section H (1 + i) p Hbuilt)
    as (ss & bug_name & status & code & Hss & Hname & Hstatus & Hcode & Hbug & Hstat & Hc
        & Hrest).
  rewrite Hstatus in Hstatus'. injection Hstatus' as <-.
  rewrite Hss in Hsection. injection Hsection as <-.
  assert (Hline : forall s, s ∈ ss -> contains s report = true).
  { intros s Hs.
    destruct (join_lines_contains _ _ (PStr s) Hreport) as (s' & [= <-] & Hcontains);
      [|exact Hcontains].
    apply elem_of_app. right. apply elem_of_app. right. apply elem_of_app. left.
    apply Hsub. apply list_elem_of_fmap. eauto. }
  assert (Hempty : contains EmptyString report = true) by (destruct report; reflexivity).
  exists bug_name, status, code.
  split; [exact Hname|]. split; [exact Hstatus|]. split; [exact Hthree|].
  split; [exact Hcode|]. split; [apply Hline, Hbug|]. split; [apply Hline, Hstat|].
  split; [destruct Hc as [->|Hc]; [exact Hempty|apply Hline, Hc]|].
  intros Hother.
  destruct (String.eqb_spec status "solution_generated") as [->|_]; [congruence|].
  destruct Hrest as [Herr (sug & Hsug & Hs)].
  split; [apply Hline, Herr|]. exists sug. split; [exact Hsug|].
  destruct Hs as [->|Hs]; [exact Hempty|apply Hline, Hs].
Qed.

Lemma generate_report_shows_every_outcome_witness :
  exists report,
    generate_report (env_with 5 silent_api) ready_host [advised_outcome] = Ret report
    /\ contains "BUG 1: CSRF Token Bug" report = true
    /\ contains "Status: FAILED_TO_GENERATE_SOLUTION" report = true
    /\ contains "Send the token in the X-CSRFToken header." report = true.
Proof.
  destruct (generate_report_shows_every_outcome (env_with 5 silent_api) ready_host
              [advised_outcome]) as (report & Hreport & Hshown).
  - discriminate.
  - constructor; [|constructor]. split; [|split].
    + exists "CSRF Token Bug". reflexivity.
    + exists EmptyString. reflexivity.
    + right. split; [left; reflexivity|].
      exists "Send the token in the X-CSRFToken header.". reflexivity.
  - exists report. split; [exact Hreport|].
    destruct (Hshown 0 advised_outcome eq_refl)
      as (bug_name & status & code & Hname & Hstatus & _ & _ & Hbug & Hstat & _ & Hrest).
    vm_compute in Hname. injection Hname as <-.
    vm_compute in Hstatus. injection Hstatus as <-.
    split; [exact Hbug|]. split; [exact Hstat|].
    destruct Hrest as [_ (sug & Hsug & Hcontains)]; [discriminate|].
    vm_compute in Hsug. injection Hsug as <-. exact Hcontains.
Defined.

(** The capitals of the three statuses. *)
Example status_capitals :
  upper "solution_generated" = "SOLUTION_GENERATED"
  /\ upper "failed_to_generate_solution" = "FAILED_TO_GENERATE_SOLUTION"
  /\ upper "error" = "ERROR".
Proof. repeat split. Qed.

End ReportContents.

(** ** The code analyser *)

Module CodeAnalyzerFacts.
Import Py Eff CodeAnalyzer.

Lemma prefix_char (c a : ascii) (r : string) :
  String.prefix (String c EmptyString) (String a r) = Ascii.eqb c a.
Proof.
  simpl. destruct (Ascii.eqb_spec c a) as [->|Hne].
  - destruct (ascii_dec a a); [|congruence]. destruct r; reflexivity.
  - destruct (ascii_dec c a); [congruence|reflexivity].
Qed.

(** The character [c] occurs in the text. *)
Fixpoint occurs (c : ascii) (s : string) : Prop :=
  match s with
  | EmptyString => False
  | String a r => a = c \/ occurs c r
  end.

Lemma contains_char (c : ascii) (s : string) :
  contains (String c EmptyString) s = true <-> occurs c s.
Proof.
  induction s as [|a r IH].
  - simpl. split; [discriminate|tauto].
  - cbn [contains occurs]. rewrite prefix_char, orb_true_iff, IH.
    destruct (Ascii.eqb_spec c a); split; intros [?|?]; auto; congruence.
Qed.

Lemma split_on_cons sep s : exists l ls, split_on sep s = l :: ls.
Proof.
  destruct s as [|c r]; simpl; [eauto|].
  destruct (Ascii.eqb c sep); [eauto|]. destruct (split_on sep r); eauto.
Qed.

Lemma split_head_step sep c r :
  split_head sep (String c r) = if Ascii.eqb c sep then EmptyString else String c (split_head sep r).
Proof.
  unfold split_head. cbn [split_on]. destruct (Ascii.eqb c sep); [reflexivity|].
  destruct (split_on_cons sep r) as (l & ls & ->). reflexivity.
Qed.

Lemma split_head_free sep s : ~ occurs sep (split_head sep s).
Proof.
  induction s as [|c r IH]; [exact id|].
  rewrite split_head_step. destruct (Ascii.eqb_spec c sep) as [->|Hne]; [exact id|].
  intros [Heq|Hocc]; [congruence|exact (IH Hocc)].
Qed.

Lemma split_head_id sep s : ~ occurs sep s -> split_head sep s = s.
Proof.
  induction s as [|c r IH]; [reflexivity|]. intros Hno.
  rewrite split_head_step. destruct (Ascii.eqb_spec c sep) as [->|Hne].
  - exfalso. apply Hno. left. reflexivity.
  - rewrite IH; [reflexivity|]. intros Hocc. apply Hno. right. exact Hocc.
Qed.

(** One round of the loop of [_extract_dependencies]: whether the name
    holds a dot or not, what is looked up and added is the text before
    its first dot. *)
Lemma extract_loop_step imp rest deps :
  extract_loop (imp :: rest) deps
  = extract_loop rest (if bool_decide (split_head "." imp ∈ deps) then deps
                       else deps ++ [split_head "." imp]).
Proof.
  cbn [extract_loop]. destruct (contains "." imp) eqn:Hdot; [reflexivity|].
  rewrite split_head_id; [reflexivity|].
  intros Hocc. apply contains_char in Hocc. congruence.
Qed.

Lemma extract_loop_spec imports : forall deps,
  NoDup deps ->
  NoDup (extract_loop imports deps)
  /\ (forall d, d ∈ extract_loop imports deps
                <-> d ∈ deps \/ exists imp, imp ∈ imports /\ d = split_head "." imp)
  /\ exists added, extract_loop imports deps = deps ++ added.
Proof.
  induction imports as [|imp rest IH]; intros deps Hnd.
  - cbn [extract_loop]. split; [exact Hnd|]. split.
    + intros d. split; [auto|]. intros [?|(imp & Himp & _)]; [assumption|].
      inversion Himp.
    + exists []. rewrite app_nil_r. reflexivity.
  - rewrite extract_loop_step. set (h := split_head "." imp).
    case_bool_decide as Hin.
    + destruct (IH deps Hnd) as (Hnd' & Hmem & added & Hadd).
      split; [exact Hnd'|]. split; [|eauto].
      intros d. rewrite Hmem. split.
      * intros [?|(i & Hi & ->)]; [auto|]. right. exists i. split; [right; exact Hi|reflexivity].
      * intros [?|(i & Hi & ->)]; [auto|].
        apply elem_of_cons in Hi as [->|Hi]; [left; exact Hin|]. right. eauto.
    + destruct (IH (deps ++ [h])) as (Hnd' & Hmem & added & Hadd).
      { apply NoDup_app. split; [exact Hnd|]. split; [|apply NoDup_singleton].
        intros x Hx Hx'. apply list_elem_of_singleton in Hx'. subst x. contradiction. }
      split; [exact Hnd'|]. split.
      * intros d. rewrite Hmem, elem_of_app, list_elem_of_singleton. split.
        -- intros [[?| ->]|(i & Hi & ->)]; [auto| |].
           ++ right. exists imp. split; [left|reflexivity].
           ++ right. exists i. split; [right; exact Hi|reflexivity].
        -- intros [?|(i & Hi & ->)]; [auto|].
           apply elem_of_cons in Hi as [->|Hi]; [left; right; reflexivity|]. right. eauto.
      * exists ([h] ++ added). rewrite Hadd, app_assoc. reflexivity.
Qed.

Lemma extract_loop_fresh l : forall deps,
  NoDup (deps ++ l) -> Forall (fun d => ~ occurs "." d) l ->
  extract_loop l deps = deps ++ l.
Proof.
  induction l as [|d l IH]; intros deps Hnd Hfree.
  - cbn [extract_loop]. rewrite app_nil_r. reflexivity.
  - rewrite extract_loop_step. inversion Hfree as [|? ? Hd Hl]; subst.
    rewrite (split_head_id "." d Hd).
    apply NoDup_app in Hnd as (Hnd1 & Hdisj & Hnd2).
    case_bool_decide as Hin.
    + exfalso. apply (Hdisj d Hin). left.
    + rewrite IH; [rewrite <- app_assoc; reflexivity| |exact Hl].
      rewrite <- app_assoc. cbn [app]. apply NoDup_app. split; [exact Hnd1|].
      split; [exact Hdisj|exact Hnd2].
Qed.

(** The extension of a path, as [analyze_file] compares it. *)
Example extension_cases :
  lower (splitext_ext "/srv/app/backend/todos/views.py") = ".py"
  /\ lower (splitext_ext "src/App.TSX") = ".tsx"
  /\ splitext_ext "archive.tar.gz" = ".gz"
  /\ splitext_ext "/home/user/.bashrc" = EmptyString
  /\ splitext_ext "release.d/notes" = EmptyString
  /\ splitext_ext "name." = "."
  /\ split_head "." "rest_framework.serializers" = "rest_framework"
  /\ split_head "." ".models.Todo" = EmptyString.
Proof. repeat split. Qed.

(** X18 -- what [_extract_dependencies] returns.  The list has no
    repetition; its items are exactly the texts before the first dot of
    the imports (the whole import when it has no dot); none of them
    holds a dot; and extracting again from the result gives the result
    back. *)
Theorem extract_dependencies_first_components (imports : list string) :
  let dependencies := _extract_dependencies imports in
  NoDup dependencies
  /\ (forall d, d ∈ dependencies <-> exists imp, imp ∈ imports /\ d = split_head "." imp)
  /\ (forall d, d ∈ dependencies -> contains "." d = false)
  /\ _extract_dependencies dependencies = dependencies.
Proof.
  intros dependencies. subst dependencies. unfold _extract_dependencies.
  destruct (extract_loop_spec imports [] (NoDup_nil_2 (A:=string))) as (Hnd & Hmem & _).
  assert (Hfree : forall d, d ∈ extract_loop imports [] -> ~ occurs "." d).
  { intros d Hd. apply Hmem in Hd as [Hd|(imp & _ & ->)]; [inversion Hd|].
    apply split_head_free. }
  split; [exact Hnd|]. split; [|split].
  - intros d. rewrite Hmem. split; [|auto]. intros [Hd|?]; [inversion Hd|assumption].
  - intros d Hd. destruct (contains "." d) eqn:Hc; [|reflexivity].
    exfalso. apply (Hfree d Hd), contains_char, Hc.
  - apply (extract_loop_fresh _ []); [exact Hnd|]. apply Forall_forall. exact Hfree.
Qed.

(** The number of times a character stands in a text. *)
Definition occurrences (c : ascii) (s : string) : nat :=
  length (filter (fun a => a = c) (list_ascii_of_string s)).

Lemma count_char (c : ascii) (s : string) :
  count (String c EmptyString) s = occurrences c s.
Proof.
  unfold count, occurrences. induction s as [|a r IH]; [reflexivity|].
  cbn [count_from list_ascii_of_string]. rewrite prefix_char, filter_cons.
  cbn [String.length Nat.sub]. rewrite IH.
  destruct (Ascii.eqb_spec c a) as [->|Hne].
  - rewrite decide_True by reflexivity. reflexivity.
  - rewrite decide_False by congruence. reflexivity.
Qed.

Lemma occurrences_perm c a b :
  list_ascii_of_string a ≡ₚ list_ascii_of_string b -> occurrences c a = occurrences c b.
Proof. intros Hp. unfold occurrences. rewrite Hp. reflexivity. Qed.

(** X19 -- the balance check counts, it does not nest.
    [_validate_typescript_syntax] gives the same answer on two texts
    made of the same characters in any order: a text read backwards
    passes exactly when the text does. *)
Theorem typescript_check_ignores_order (a b : string) :
  list_ascii_of_string a ≡ₚ list_ascii_of_string b ->
  _validate_typescript_syntax a = _validate_typescript_syntax b.
Proof.
  intros Hp. unfold _validate_typescript_syntax.
  rewrite !count_char.
  rewrite (occurrences_perm "{" a b Hp), (occurrences_perm "}" a b Hp),
    (occurrences_perm "(" a b Hp), (occurrences_perm ")" a b Hp),
    (occurrences_perm "[" a b Hp), (occurrences_perm "]" a b Hp).
  reflexivity.
Qed.

Lemma typescript_check_ignores_order_witness :
  _validate_typescript_syntax "function f(a) { return a[0]; }" = true
  /\ _validate_typescript_syntax "} ;]0[a nruter { )a(f noitcnuf" = true.
Proof.
  split; [reflexivity|].
  rewrite <- (typescript_check_ignores_order "function f(a) { return a[0]; }"
                "} ;]0[a nruter { )a(f noitcnuf").
  - reflexivity.
  - match goal with |- ?l ≡ₚ _ => change (l ≡ₚ rev l) end. apply Permutation_rev.
Defined.

(** The extensions [analyze_file] has an analysis for. *)
Definition supported_extensions : list string := [".py"; ".ts"; ".tsx"; ".js"; ".jsx"].

Lemma mapM_strs (ss : list string) :
  mapM (fun x => match x with PStr s => Some s | _ => None end) (PStr <$> ss) = Some ss.
Proof. induction ss as [|s ss IH]; [reflexivity|]. cbn. rewrite IH. reflexivity. Qed.

Lemma iter_strings_strs ss : iter_strings (strs ss) = Ret ss.
Proof. unfold iter_strings, strs. rewrite mapM_strs. reflexivity. Qed.

Lemma import_items_strings (ms : list re_match) :
  exists ss, concat (import_items <$> ms) = PStr <$> ss.
Proof.
  induction ms as [|m ms [ss IH]]; [exists []; reflexivity|].
  cbn [fmap list_fmap concat]. change (list_fmap _ _ import_items ms) with (import_items <$> ms).
  rewrite IH. destruct m as [s|first others]; cbn [import_items].
  - exists (s :: ss). reflexivity.
  - exists ((strip <$> split_on "," first) ++ ss). rewrite fmap_app. reflexivity.
Qed.

Section WithHost.
Variable open_read : string -> option (result string).
Variable ast_parse : string -> parsed.
Variable re_findall : string -> string -> list re_match.

Lemma typescript_imports content file_path :
  exists ss, _analyze_typescript_file re_findall content file_path !! "imports"
             = Some (strs ss).
Proof.
  unfold _analyze_typescript_file. rewrite lookup_insert_ne by discriminate.
  rewrite lookup_insert_eq. unfold import_patterns. cbn [fmap list_fmap concat].
  destruct (import_items_strings (re_findall
              ("import\s+{([^}]+)}\s+from\s+[\'" +:+ DQ +:+ "]([^\'" +:+ DQ +:+ "]+)[\'" +:+ DQ +:+ "]")
              content)) as [s1 ->].
  destruct (import_items_strings (re_findall
              ("import\s+(\w+)\s+from\s+[\'" +:+ DQ +:+ "]([^\'" +:+ DQ +:+ "]+)[\'" +:+ DQ +:+ "]")
              content)) as [s2 ->].
  destruct (import_items_strings (re_findall
              ("import\s+[\'" +:+ DQ +:+ "]([^\'" +:+ DQ +:+ "]+)[\'" +:+ DQ +:+ "]")
              content)) as [s3 ->].
  exists (s1 ++ s2 ++ s3). unfold strs. rewrite app_nil_r, !fmap_app. reflexivity.
Qed.

Lemma python_imports content file_path :
  exists ss, _analyze_python_file ast_parse content file_path !! "imports" = Some (strs ss).
Proof.
  unfold _analyze_python_file. rewrite lookup_insert_ne by discriminate.
  rewrite lookup_insert_eq. eauto.
Qed.

(** X20 -- [analyze_file] never raises.  It returns a record, makes no
    API call and leaves the files alone; the record has the key "error"
    exactly when the file is missing, cannot be read, or has an
    extension other than .py, .ts, .tsx, .js, .jsx (capitals or not); it
    is a Python analysis exactly when the file was read and its
    extension is .py; and the log gets one record, an error, exactly
    when reading raised. *)
Theorem analyze_file_reports_every_failure (file_path : string) (w : world) :
  let file_ext := lower (splitext_ext file_path) in
  exists d w',
    analyze_file open_read ast_parse re_findall file_path w = (Ret d, w')
    /\ api_calls w' = api_calls w /\ fs w' = fs w
    /\ (is_Some (d !! "error")
        <-> ~ (exists content, open_read file_path = Some (Ret content)
                               /\ file_ext ∈ supported_extensions))
    /\ (d !! "file_type" = Some (PStr "python")
        <-> (exists content, open_read file_path = Some (Ret content)) /\ file_ext = ".py")
    /\ ((exists e, open_read file_path = Some (Raise e)
                   /\ d = <["error" := PStr (str_exn e)]> ∅
                   /\ log w' = log w ++ [(ERROR, "Error analyzing file " +:+ file_path
                                                   +:+ ": " +:+ str_exn e)])
        \/ ((forall e, open_read file_path <> Some (Raise e)) /\ w' = w)).
Proof.
  intros file_ext. unfold analyze_file, try_catch. fold file_ext.
  destruct (open_read file_path) as [[content|e]|] eqn:Hopen.
  - unfold bind at 1, lift at 1.
    case_bool_decide as Hpy.
    + apply list_elem_of_singleton in Hpy.
      eexists _, w. split; [reflexivity|]. split; [reflexivity|]. split; [reflexivity|].
      split; [|split].
      * split.
        -- intros [v Hv]. discriminate.
        -- intros Hno. exfalso. apply Hno. exists content. split; [reflexivity|].
           rewrite Hpy. left.
      * split; [intros _; eauto|reflexivity].
      * right. split; [discriminate|reflexivity].
    + case_bool_decide as Hts.
      * eexists _, w. split; [reflexivity|]. split; [reflexivity|]. split; [reflexivity|].
        split; [|split].
        -- split.
           ++ intros [v Hv]. discriminate.
           ++ intros Hno. exfalso. apply Hno. exists content. split; [reflexivity|].
              right. exact Hts.
        -- split; [discriminate|]. intros [_ Hext]. exfalso. apply Hpy. rewrite Hext. left.
        -- right. split; [discriminate|reflexivity].
      * eexists _, w. split; [reflexivity|]. split; [reflexivity|]. split; [reflexivity|].
        split; [|split].
        -- split.
           ++ intros _ (c' & _ & Hext). apply elem_of_cons in Hext as [Hext|Hext].
              ** apply Hpy. rewrite Hext. left.
              ** exact (Hts Hext).
           ++ intros _. rewrite lookup_insert_eq. eauto.
        -- split; [discriminate|]. intros [_ Hext]. exfalso. apply Hpy. rewrite Hext. left.
        -- right. split; [discriminate|reflexivity].
  - eexists _, _. split; [reflexivity|]. split; [reflexivity|]. split; [reflexivity|].
    split; [|split].
    + split.
      * intros _ (c' & Hc & _). discriminate.
      * intros _. rewrite lookup_insert_eq. eauto.
    + split; [discriminate|]. intros [[c' Hc] _]. discriminate.
    + left. exists e. split; [reflexivity|]. split; reflexivity.
  - eexists _, w. split; [reflexivity|]. split; [reflexivity|]. split; [reflexivity|].
    split; [|split].
    + split.
      * intros _ (c' & Hc & _). discriminate.
      * intros _. rewrite lookup_insert_eq. eauto.
    + split; [discriminate|]. intros [[c' Hc] _]. discriminate.
    + right. split; [discriminate|reflexivity].
Qed.

Lemma analyze_file_shapes (file_path : string) (w : world) :
  exists a w',
    analyze_file open_read ast_parse re_findall file_path w = (Ret a, w')
    /\ (is_Some (a !! "error") \/ (a !! "error" = None /\ exists ss, a !! "imports" = Some (strs ss))).
Proof.
  unfold analyze_file, try_catch.
  destruct (open_read file_path) as [[content|e]|].
  - unfold bind at 1, lift at 1. repeat case_bool_decide.
    + eexists _, _. split; [reflexivity|]. right. split; [reflexivity|apply python_imports].
    + eexists _, _. split; [reflexivity|]. right. split; [reflexivity|apply typescript_imports].
    + eexists _, _. split; [reflexivity|]. left. rewrite lookup_insert_eq. eauto.
  - eexists _, _. split; [reflexivity|]. left. rewrite lookup_insert_eq. eauto.
  - eexists _, _. split; [reflexivity|]. left. rewrite lookup_insert_eq. eauto.
Qed.

(** X21 -- [analyze_dependencies].  It never raises and ends in the
    state [analyze_file] ends in: it returns the analyser's record
    unchanged when that has the key "error", and otherwise the record of
    the path, the imports of the analysis and the dependencies
    [_extract_dependencies] draws from these imports. *)
Theorem analyze_dependencies_result (file_path : string) (w : world) :
  exists a d w',
    analyze_file open_read ast_parse re_findall file_path w = (Ret a, w')
    /\ analyze_dependencies open_read ast_parse re_findall file_path w = (Ret d, w')
    /\ ((is_Some (a !! "error") /\ d = a)
        \/ (a !! "error" = None
            /\ exists imported,
                 a !! "imports" = Some (strs imported)
                 /\ d = <["file_path" := PStr file_path]>
                        (<["imports" := strs imported]>
                        (<["dependencies" := strs (_extract_dependencies imported)]> ∅)))).
Proof.
  destruct (analyze_file_shapes file_path w) as (a & w' & Hrun & Hshape).
  exists a. unfold analyze_dependencies, bind at 1. rewrite Hrun.
  destruct Hshape as [[v Hv]|(Hnone & ss & Hss)].
  - rewrite Hv. eexists _, _. split; [reflexivity|]. split; [reflexivity|]. left. eauto.
  - rewrite Hnone. unfold get. rewrite Hss, iter_strings_strs.
    eexists _, _. split; [reflexivity|]. split; [reflexivity|]. right. eauto.
Qed.

End WithHost.
End CodeAnalyzerFacts.

(** ** The patch applier, the static analyser, the detector and the inspector *)

Module ToolFacts.
Import Py Eff BugDefinitions Agent Runner Inspector CodeAnalyzerFacts Examples Fixtures.
Import FixApplier StaticAnalyzer BugDetector InspectorWalk.

Lemma text_app_nil_l (s : string) : EmptyString +:+ s = s.
Proof. reflexivity. Qed.

Lemma text_app_cons (c : ascii) (a s : string) : String c a +:+ s = String c (a +:+ s).
Proof. reflexivity. Qed.

Lemma text_app_assoc (a b c : string) : (a +:+ b) +:+ c = a +:+ (b +:+ c).
Proof.
  induction a as [|x a IH]; [reflexivity|].
  rewrite !text_app_cons, IH. reflexivity.
Qed.

Lemma text_app_nil_r (a : string) : a +:+ EmptyString = a.
Proof. induction a as [|x a IH]; [reflexivity|]. rewrite text_app_cons, IH. reflexivity. Qed.

Lemma occurs_app c (a b : string) : occurs c (a +:+ b) <-> occurs c a \/ occurs c b.
Proof.
  induction a as [|x a IH].
  - rewrite text_app_nil_l. simpl. tauto.
  - rewrite text_app_cons. cbn [occurs]. rewrite IH. tauto.
Qed.

Lemma universal_newlines_plain s : ~ occurs CR s -> universal_newlines s = s.
Proof.
  induction s as [|c r IH]; [reflexivity|]. intros Hno. cbn [universal_newlines].
  destruct (Ascii.eqb_spec c CR) as [->|Hne].
  - exfalso. apply Hno. left. reflexivity.
  - rewrite IH; [reflexivity|]. intros Hocc. apply Hno. right. exact Hocc.
Qed.

(** The patches [apply_fix] writes down. *)
Definition applicable (fix_patch : string) : bool :=
  nonempty fix_patch && (contains "backend/" fix_patch || contains "frontend/" fix_patch).

(** [apply_fix] on each patch of a list, in order. *)
Fixpoint apply_all (cwd : string) (patches : list string) : M unit :=
  match patches with
  | [] => ret tt
  | fix_patch :: rest => apply_fix cwd fix_patch ;; apply_all cwd rest
  end.

(** The text the patches written down add to the file. *)
Fixpoint appended (patches : list string) : string :=
  match patches with
  | [] => EmptyString
  | fix_patch :: rest =>
      if applicable fix_patch then NL +:+ fix_patch +:+ appended rest else appended rest
  end.

Lemma apply_fix_run cwd fix_patch stored w :
  fs w !! codebase_file cwd = Some stored ->
  apply_fix cwd fix_patch w
  = (Ret true,
     if applicable fix_patch
     then World (api_calls w) (slept w) (log w) (stdout w)
            (<[codebase_file cwd := universal_newlines stored +:+ NL +:+ fix_patch]> (fs w))
     else w).
Proof.
  intros Hfile. unfold apply_fix, bind at 1, read_fs at 1. rewrite Hfile.
  unfold applicable. cbn [existsb]. rewrite orb_false_r.
  destruct (nonempty fix_patch && _); reflexivity.
Qed.

(** Line ends as text mode reads them. *)
Example universal_newlines_cases :
  universal_newlines (String "a" (String CR (String LF (String "b" (String CR "c")))))
  = String "a" (String LF (String "b" (String LF "c")))
  /\ universal_newlines "plain text" = "plain text".
Proof. split; reflexivity. Qed.

(** X22 -- what [apply_fix] does.  Without the snapshot file it raises
    [FileNotFoundError] and changes nothing.  With it, it returns true
    whether it wrote or not: when the patch is not empty and holds
    "backend/" or "frontend/", the file becomes its text as read (line
    ends unified), a line feed and the patch; otherwise no file
    changes.  Nothing is logged or printed. *)
Theorem apply_fix_effect (cwd fix_patch : string) (w : world) :
  match fs w !! codebase_file cwd with
  | None =>
      exists msg, apply_fix cwd fix_patch w = (Raise (FileNotFoundError msg), w)
  | Some stored =>
      exists w',
        apply_fix cwd fix_patch w = (Ret true, w')
        /\ api_calls w' = api_calls w /\ log w' = log w /\ stdout w' = stdout w
        /\ fs w' = if applicable fix_patch
                   then <[codebase_file cwd := universal_newlines stored +:+ NL +:+ fix_patch]>
                          (fs w)
                   else fs w
  end.
Proof.
  destruct (fs w !! codebase_file cwd) as [stored|] eqn:Hfile.
  - rewrite (apply_fix_run cwd fix_patch stored w Hfile).
    eexists. split; [reflexivity|]. destruct (applicable fix_patch); repeat split.
  - unfold apply_fix, bind at 1, read_fs at 1. rewrite Hfile. eexists. reflexivity.
Qed.

(** X23 -- patches pile up.  Applying a list of patches in order to a
    snapshot without carriage returns leaves the snapshot followed by
    every patch that qualifies, each after a line feed, in order: a
    patch applied twice stands there twice, and the text that was there
    is kept. *)
Theorem apply_fix_accumulates (cwd : string) (patches : list string) (stored : string)
    (w : world) :
  fs w !! codebase_file cwd = Some stored ->
  ~ occurs CR stored ->
  Forall (fun fix_patch => ~ occurs CR fix_patch) patches ->
  exists w',
    apply_all cwd patches w = (Ret tt, w')
    /\ fs w' = <[codebase_file cwd := stored +:+ appended patches]> (fs w).
Proof.
  revert stored w. induction patches as [|p rest IH]; intros stored w Hfile Hstored Hplain.
  - exists w. split; [reflexivity|]. cbn [appended]. rewrite text_app_nil_r.
    symmetry. apply insert_id, Hfile.
  - inversion Hplain as [|? ? Hp Hrest]; subst.
    cbn [apply_all appended]. unfold bind at 1.
    rewrite (apply_fix_run cwd p stored w Hfile), (universal_newlines_plain stored Hstored).
    destruct (applicable p).
    + match goal with |- context [apply_all cwd rest ?w0] =>
        destruct (IH (stored +:+ NL +:+ p) w0) as (w' & -> & Hfs) end.
      * cbn [fs]. apply lookup_insert_eq.
      * rewrite !occurs_app. intros [?|[[Hnl|[]]|?]]; [auto|discriminate Hnl|auto].
      * exact Hrest.
      * exists w'. split; [reflexivity|]. rewrite Hfs. cbn [fs].
        rewrite insert_insert_eq, !text_app_assoc. reflexivity.
    + destruct (IH stored w Hfile Hstored Hrest) as (w' & -> & Hfs). eauto.
Qed.

Lemma apply_fix_accumulates_witness :
  exists w',
    apply_all "/srv/app" ["File: backend/a.py"; "no path here"; "File: backend/a.py"]
      patched_world = (Ret tt, w')
    /\ fs w' !! "/srv/app/codebase_content.txt"
       = Some ("snapshot" +:+ NL +:+ "File: backend/a.py" +:+ NL +:+ "File: backend/a.py").
Proof.
  destruct (apply_fix_accumulates "/srv/app"
              ["File: backend/a.py"; "no path here"; "File: backend/a.py"] "snapshot"
              patched_world) as (w' & Hrun & Hfs).
  - reflexivity.
  - vm_compute. intuition discriminate.
  - repeat constructor; vm_compute; intuition discriminate.
  - exists w'. split; [exact Hrun|]. rewrite Hfs. reflexivity.
Defined.

(** X24 -- [StaticAnalyzer.analyze] always answers false.  The
    configuration has no attribute static_analysis_tools, so looking it
    up raises inside the [try]: whatever the content, no tool is run,
    the result is false, and temp_code.py is left behind with the
    content in it. *)
Theorem static_analysis_always_fails (cwd : string) (c : Config) (api_key run_timestamp : string)
    (run_process : list string -> gmap string string -> result Z * gmap string string)
    (codebase_content : string) (w : world) :
  getattr c api_key run_timestamp "static_analysis_tools"
  = Raise (AttributeError "'Config' object has no attribute 'static_analysis_tools'")
  /\ analyze cwd c api_key run_timestamp run_process codebase_content w
     = (Ret false,
        World (api_calls w) (slept w) (log w) (stdout w)
          (<[temp_code cwd := codebase_content]> (fs w))).
Proof. split; reflexivity. Qed.

Lemma detect_loop_no_patterns H (b : bug) rest content found :
  detect_loop H (bug_dict b :: rest) content found = Raise (KeyError "patterns").
Proof. reflexivity. Qed.

(** X25 -- [detect_bugs] on a catalog of bug_definitions.py.  The
    entries of that catalog have no "patterns" key: on any catalog of
    such entries that is not empty, [detect_bugs] raises
    [KeyError('patterns')], whatever the content. *)
Theorem detect_bugs_raises_on_the_catalog (H : Host) (bugs : list bug) (content : string) :
  bugs <> [] ->
  detect_bugs H (bug_dict <$> bugs) content = Raise (KeyError "patterns").
Proof.
  intros Hne. destruct bugs as [|b rest]; [congruence|]. apply detect_loop_no_patterns.
Qed.

Lemma detect_bugs_raises_on_the_catalog_witness :
  detect_bugs ready_host (bug_dict <$> planted_bugs) "any text"
  = Raise (KeyError "patterns").
Proof.
  apply (detect_bugs_raises_on_the_catalog ready_host planted_bugs "any text").
  discriminate.
Defined.

(** A catalog entry that names its patterns. *)
Record pattern_entry := {
  entry_name : string;
  entry_description : string;
  entry_patterns : list string
}.

Definition describes (bug : dict) (e : pattern_entry) : Prop :=
  bug !! "name" = Some (PStr (entry_name e))
  /\ bug !! "description" = Some (PStr (entry_description e))
  /\ bug !! "patterns" = Some (PList (PStr <$> entry_patterns e)).

Definition found_in (content : string) (e : pattern_entry) : bool :=
  existsb (fun pattern => contains pattern content) (entry_patterns e).

Definition full_name (e : pattern_entry) : string :=
  entry_name e +:+ ": " +:+ entry_description e.

Lemma any_in_strings ps content :
  any_in (PStr <$> ps) content = Ret (existsb (fun pattern => contains pattern content) ps).
Proof.
  induction ps as [|p ps IH]; [reflexivity|]. cbn [fmap list_fmap any_in existsb].
  destruct (contains p content); [reflexivity|exact IH].
Qed.

(** X26 -- [detect_bugs] on a catalog with patterns.  When every entry
    has a name, a description and a list of patterns, [detect_bugs]
    returns "<name>: <description>" for exactly the entries one of whose
    patterns occurs in the content, in the order of the catalog. *)
Theorem detect_bugs_reports_matches (H : Host) (catalog : list dict)
    (entries : list pattern_entry) (content : string) :
  Forall2 describes catalog entries ->
  detect_bugs H catalog content
  = Ret (full_name <$> filter (fun e => found_in content e = true) entries).
Proof.
  intros Hall. unfold detect_bugs.
  enough (forall found, detect_loop H catalog content found
                        = Ret (found ++ (full_name <$> filter (fun e => found_in content e = true)
                                                         entries))) as Hgen
    by exact (Hgen []).
  induction Hall as [|bug e catalog entries (Hn & Hd & Hp) _ IH]; intros found.
  - cbn. rewrite app_nil_r. reflexivity.
  - cbn [detect_loop]. unfold index. rewrite Hn, Hd, Hp. cbn [iterate str_val].
    rewrite any_in_strings. fold (found_in content e). rewrite filter_cons.
    destruct (found_in content e) eqn:Hfound.
    + rewrite decide_True by reflexivity. rewrite IH. cbn [fmap list_fmap].
      rewrite <- app_assoc. reflexivity.
    + rewrite decide_False by discriminate. apply IH.
Qed.

Lemma detect_bugs_reports_matches_witness :
  detect_bugs ready_host
    [<["name" := PStr "Open redirect"]>
       (<["description" := PStr "next is not checked"]>
       (<["patterns" := PList [PStr "redirect(next)"; PStr "HttpResponseRedirect("]]> ∅));
     <["name" := PStr "Debug left on"]>
       (<["description" := PStr "DEBUG is True"]>
       (<["patterns" := PList [PStr "DEBUG = True"]]> ∅))]
    "return HttpResponseRedirect(next)"
  = Ret ["Open redirect: next is not checked"].
Proof.
  apply (detect_bugs_reports_matches ready_host _
           [ {| entry_name := "Open redirect"; entry_description := "next is not checked";
                entry_patterns := ["redirect(next)"; "HttpResponseRedirect("] |};
             {| entry_name := "Debug left on"; entry_description := "DEBUG is True";
                entry_patterns := ["DEBUG = True"] |} ]).
  repeat constructor.
Defined.

(** The files [process_directory] adds: not ignored, and read as text. *)
Definition added (match_file : string -> bool) (walked : list (string * read_outcome))
  : list (string * string) :=
  omap (fun f => if match_file (fst f) then None
                 else match snd f with
                      | ReadText content => Some (fst f, content)
                      | _ => None
                      end) walked.



(** X28 -- the snapshot does not mark where a file ends.  The snapshot
    of two files is also the snapshot of one file, the first, whose text
    goes on with the separator, the header of the second and its text:
    nothing in the format tells the two apart. *)
Theorem snapshot_does_not_frame_contents (p1 c1 p2 c2 : string)
    (rest : list (string * string)) :
  snapshot ((p1, c1) :: (p2, c2) :: rest)
  = snapshot ((p1, c1 +:+ FILE_SEPARATOR +:+ HEADER_LINE +:+ NL +:+ "File: " +:+ p2 +:+ NL
                   +:+ HEADER_LINE +:+ NL +:+ NL +:+ c2) :: rest).
Proof.
  cbn [snapshot]. unfold file_block. rewrite !text_app_assoc. reflexivity.
Qed.

End ToolFacts.
